(** * EtherFlow: the wallet / session / account-linkage flow

    A shallow embedding of the stateful parts of the dashboard:
    - [Auth]      : context/auth-context.tsx, the identity session store
                    ([linkWalletToUser], [getUserWallets]) over a Firestore
                    document store that may fail;
    - [JsNumber]  : IEEE-754 binary64 arithmetic as JavaScript's [Number]
                    performs it, on exact integers;
    - [Web3]      : context/web3-context.tsx, the wallet session adapter
                    ([handleAccountsChanged], [connectWallet],
                    [disconnectWallet], [refreshBalance], [sendTransaction]),
                    each call run to completion;
    - [Adapter]   : the same adapter one [await] at a time, with the
                    calls in flight, so that answers may arrive in any
                    order;
    - [Dashboard] : app/dashboard/page.tsx, the effect that links the
                    connected wallet to the signed-in user, run when one
                    of its dependencies changes and completed when its
                    call settles;
    - [Config]    : lib/firebase.ts and app/env-check.tsx, the checks on
                    the environment variables;
    - [AuthFlows] : context/auth-context.tsx, signing in and out
                    ([login], [googleSignIn], [logout], the auth-state
                    listener) and the user profile;
    - [SendForm], [WalletConnect], [Profile] : the handlers of the send
                    form, the connect button and the profile page.

    React state is modelled by explicit state passing: a call sees the
    state of the render it was created in (its closure) and every
    [setX] writes the next state. *)

From stdpp Require Import base option list strings gmap.
From Stdlib Require Import ZArith Lia Ascii HexString.

Local Open Scope string_scope.

(** ** JavaScript control flow: a state monad with exceptions *)

(** What a JavaScript [catch] receives. [new Error(msg)] has no [code];
    the errors of the document store ([FirestoreError]) carry both. *)
Record JsError := mkJsError {
  code : option string;
  message : string
}.

Definition Error (msg : string) : JsError :=
  {| code := None; message := msg |}.

(** How an (awaited) call ends. *)
Inductive outcome (A : Type) : Type :=
| Ok (a : A)
| Throw (e : JsError).
Arguments Ok {A} a.
Arguments Throw {A} e.

Definition succeeded {A} (o : outcome A) : bool :=
  match o with Ok _ => true | Throw _ => false end.

(** State writes made before a [throw] stay made. *)
Definition M (S A : Type) : Type := S -> S * outcome A.

Definition ret {S A} (a : A) : M S A := fun s => (s, Ok a).

Definition throw {S A} (e : JsError) : M S A := fun s => (s, Throw e).

Definition bind {S A B} (m : M S A) (k : A -> M S B) : M S B :=
  fun s => match m s with
           | (s', Ok a) => k a s'
           | (s', Throw e) => (s', Throw e)
           end.

(** [try { m } catch (error) { h error }] *)
Definition try_catch {S A} (m : M S A) (h : JsError -> M S A) : M S A :=
  fun s => match m s with
           | (s', Ok a) => (s', Ok a)
           | (s', Throw e) => h e s'
           end.

Definition modify {S} (f : S -> S) : M S unit := fun s => (f s, Ok tt).

Definition gets {S A} (f : S -> A) : M S A := fun s => (s, Ok (f s)).

Declare Scope js_scope.
Delimit Scope js_scope with js.
Notation "x <- m ;; k" := (bind m (fun x => k))
  (at level 100, m at next level, right associativity) : js_scope.
Notation "m ;;; k" := (bind m (fun _ => k))
  (at level 100, right associativity) : js_scope.

(** [Array.prototype.includes] on an array of strings. *)
Fixpoint includes (l : list string) (x : string) : bool :=
  match l with
  | [] => false
  | y :: l' => if String.eqb y x then true else includes l' x
  end.

(** [String.prototype.includes]. *)
Definition str_includes (s sub : string) : bool :=
  match String.index 0 sub s with
  | Some _ => true
  | None => false
  end.

(** An array, even an empty one, is truthy; [undefined] is not. *)
Definition truthy {A} (o : option (list A)) : bool :=
  match o with Some _ => true | None => false end.

(** Occurrences of an address in a list. *)
Definition occurrences (x : string) (l : list string) : nat :=
  length (filter (fun y => y = x) l).

(** ** The identity session store (context/auth-context.tsx) *)
Module Auth.

(** [interface UserData] *)
Record UserData := mkUserData {
  uid : string;
  email : option string;
  displayName : option string;
  photoURL : option string;
  walletAddresses : option (list string)
}.

(** A document of the [users] collection:
    [{uid, email, displayName, photoURL, walletAddresses, createdAt}]. *)
Record UserDoc := mkUserDoc {
  d_uid : string;
  d_email : option string;
  d_displayName : option string;
  d_photoURL : option string;
  d_walletAddresses : option (list string);
  d_createdAt : option string
}.

(** [toast({ title, description, variant })] *)
Record Toast := mkToast {
  title : string;
  description : string;
  variant : option string
}.

(** The state the provider owns, together with the persisted
    collection it talks to. [toasts] and [console] are the error
    channels (newest last). *)
Record World := mkWorld {
  persisted : gmap string UserDoc;
  user : option UserData;
  firestoreError : option string;
  toasts : list Toast;
  console : list string
}.

(** What the surroundings decide for one call: whether [db] was
    initialised, whether the read and the write of this call fail, and
    the clock. *)
Record Env := mkEnv {
  db : bool;
  getDoc_fault : option JsError;
  write_fault : option JsError;
  now : string
}.

Definition healthy (env : Env) : Prop :=
  db env = true /\ getDoc_fault env = None /\ write_fault env = None.

Definition setUser (u : option UserData) : M World unit :=
  modify (fun w => mkWorld (persisted w) u (firestoreError w) (toasts w) (console w)).

Definition setFirestoreError (e : option string) : M World unit :=
  modify (fun w => mkWorld (persisted w) (user w) e (toasts w) (console w)).

Definition toast (t : Toast) : M World unit :=
  modify (fun w => mkWorld (persisted w) (user w) (firestoreError w) (toasts w ++ [t]) (console w)).

Definition console_error (label : string) : M World unit :=
  modify (fun w => mkWorld (persisted w) (user w) (firestoreError w) (toasts w) (console w ++ [label])).

(** [{ ...user, walletAddresses: l }] *)
Definition with_wallets (u : UserData) (l : list string) : UserData :=
  mkUserData (uid u) (email u) (displayName u) (photoURL u) (Some l).

(** *** The document store *)

(** [getDoc(doc(db, "users", id))]: the snapshot, [None] when
    [exists()] is false. *)
Definition getDoc (env : Env) (id : string) : M World (option UserDoc) :=
  match getDoc_fault env with
  | Some e => throw e
  | None => gets (fun w => persisted w !! id)
  end.

(** [setDoc(ref, data)]: writes the whole document. A failed write
    leaves the collection as it was. *)
Definition setDoc (env : Env) (id : string) (d : UserDoc) : M World unit :=
  match write_fault env with
  | Some e => throw e
  | None => modify (fun w =>
      mkWorld (<[id := d]> (persisted w)) (user w) (firestoreError w) (toasts w) (console w))
  end.

(** [updateDoc(ref, { walletAddresses: l })]: replaces one field of an
    existing document; the store rejects it with [not-found] when there
    is no document. *)
Definition updateDoc (env : Env) (id : string) (l : list string) : M World unit :=
  match write_fault env with
  | Some e => throw e
  | None => fun w =>
      match persisted w !! id with
      | Some d =>
          modify (fun w =>
            mkWorld (<[id := mkUserDoc (d_uid d) (d_email d) (d_displayName d)
                                       (d_photoURL d) (Some l) (d_createdAt d)]> (persisted w))
                    (user w) (firestoreError w) (toasts w) (console w)) w
      | None => throw (mkJsError (Some "not-found") "No document to update") w
      end
  end.

(** *** Error reporting *)

Definition handleFirestoreError (error : JsError) : M World string :=
  (console_error "Firestore Error:" ;;;
   errorMessage <-
     (if bool_decide (code error = Some "unavailable") || str_includes (message error) "offline"
      then
        setFirestoreError (Some "Firestore is unavailable. Make sure you've created a Firestore database in the Firebase Console and check your internet connection.") ;;;
        ret "Database is unavailable. Please check your internet connection."
      else if bool_decide (code error = Some "permission-denied") then
        setFirestoreError (Some "Firestore permission denied. Check your security rules in the Firebase Console.") ;;;
        ret "You don't have permission to access this data."
      else if bool_decide (code error = Some "not-found") then
        ret "The requested data does not exist."
      else ret "An unexpected database error occurred.") ;;
   toast (mkToast "Database Error" errorMessage (Some "destructive")) ;;;
   ret errorMessage)%js.

Definition isFirestoreInitialized (env : Env) : M World bool :=
  (if negb (db env) then
     toast (mkToast "Firestore Error"
              "Firestore database is not properly initialized. Check your environment variables."
              (Some "destructive")) ;;;
     setFirestoreError (Some "Firestore is not initialized. Check your environment variables.") ;;;
     ret false
   else ret true)%js.

(** *** Linking a wallet *)

Definition linkWalletToUser (env : Env) (walletAddress : string) : M World unit :=
  (initialized <- isFirestoreInitialized env ;;
   if negb initialized then throw (Error "Firestore is not initialized") else
   closure <- gets user ;;
   match closure with
   | None => throw (Error "No user logged in")
   | Some user =>
     try_catch
       (let userRef := uid user in
        try_catch
          (userSnap <- getDoc env userRef ;;
           match userSnap with
           | Some userData =>
               let walletAddresses := default [] (d_walletAddresses userData) in
               if negb (includes walletAddresses walletAddress) then
                 updateDoc env userRef (walletAddresses ++ [walletAddress]) ;;;
                 setUser (Some (with_wallets user (walletAddresses ++ [walletAddress])))
               else ret tt
           | None =>
               let userData :=
                 mkUserDoc (uid user) (email user) (displayName user) (photoURL user)
                           (Some [walletAddress]) (Some (now env)) in
               setDoc env userRef userData ;;;
               setUser (Some (with_wallets user [walletAddress]))
           end)
          (fun error =>
             console_error "Error accessing Firestore, updating local state only:" ;;;
             _ <- handleFirestoreError error ;;
             let walletAddresses := default [] (walletAddresses user) in
             if negb (includes walletAddresses walletAddress) then
               setUser (Some (with_wallets user (walletAddresses ++ [walletAddress])))
             else ret tt))
       (fun error =>
          _ <- handleFirestoreError error ;;
          throw (Error ("Failed to link wallet: " ++ message error)))
   end)%js.

(** *** Reading the linked wallets *)

Definition getUserWallets (env : Env) : M World (list string) :=
  (closure <- gets user ;;
   match closure with
   | None => ret []
   | Some user =>
     match walletAddresses user with
     | Some (w :: ws) => ret (w :: ws)
     | _ =>
       initialized <- isFirestoreInitialized env ;;
       if negb initialized then ret [] else
       try_catch
         (userSnap <- getDoc env (uid user) ;;
          match userSnap with
          | Some userData =>
              let wallets := default [] (d_walletAddresses userData) in
              (if bool_decide (0 < length wallets)%nat && negb (truthy (walletAddresses user))
               then setUser (Some (with_wallets user wallets))
               else ret tt) ;;;
              ret wallets
          | None => ret []
          end)
         (fun error =>
            console_error "Error getting user wallets:" ;;;
            _ <- handleFirestoreError error ;;
            ret (default [] (walletAddresses user)))
     end
   end)%js.

(** The linked-wallet list of a user as persisted and as held in
    memory ([x || []]). *)
Definition persisted_wallets (w : World) (id : string) : list string :=
  match persisted w !! id with
  | Some d => default [] (d_walletAddresses d)
  | None => []
  end.

Definition session_wallets (w : World) : list string :=
  match user w with
  | Some u => default [] (walletAddresses u)
  | None => []
  end.

(** *** The effects of a failure, spelled out *)

(** What [handleFirestoreError] returns and what it leaves in
    [firestoreError], as functions of the error. *)
Definition errorMessage_of (error : JsError) : string :=
  if bool_decide (code error = Some "unavailable") || str_includes (message error) "offline"
  then "Database is unavailable. Please check your internet connection."
  else if bool_decide (code error = Some "permission-denied")
  then "You don't have permission to access this data."
  else if bool_decide (code error = Some "not-found")
  then "The requested data does not exist."
  else "An unexpected database error occurred.".

Definition firestoreError_after (error : JsError) (old : option string) : option string :=
  if bool_decide (code error = Some "unavailable") || str_includes (message error) "offline"
  then Some "Firestore is unavailable. Make sure you've created a Firestore database in the Firebase Console and check your internet connection."
  else if bool_decide (code error = Some "permission-denied")
  then Some "Firestore permission denied. Check your security rules in the Firebase Console."
  else old.

Definition reported (error : JsError) (w : World) : World :=
  mkWorld (persisted w) (user w) (firestoreError_after error (firestoreError w))
    (toasts w ++ [mkToast "Database Error" (errorMessage_of error) (Some "destructive")])
    (console w ++ ["Firestore Error:"]).

(** A failing read or write: the handler's writes, spelled out. *)
Definition after_fault (error : JsError) (u : UserData) (a : string) (w : World) : World :=
  let w1 := reported error
              (fst (console_error "Error accessing Firestore, updating local state only:" w)) in
  if includes (default [] (walletAddresses u)) a then w1
  else mkWorld (persisted w1)
               (Some (with_wallets u (default [] (walletAddresses u) ++ [a])%list))
               (firestoreError w1) (toasts w1) (console w1).

(** The store fails during a call when its read fails, or when the read
    succeeds, the address is not persisted yet (so a write is issued)
    and that write fails. *)
Definition store_fails (env : Env) (w : World) (u : UserData) (a : string)
    (error : JsError) : Prop :=
  getDoc_fault env = Some error \/
  (getDoc_fault env = None /\ write_fault env = Some error /\
   a ∉ persisted_wallets w (uid u)).

End Auth.

(** ** JavaScript numbers (IEEE-754 binary64), computed exactly *)
Module JsNumber.
Local Open Scope Z_scope.

(** A Number value: NaN, an infinity, or the finite value
    [(-1)^negative * m * 2^e] with [0 <= m]. *)
Inductive number :=
| NaN
| Infinity (negative : bool)
| Finite (negative : bool) (m e : Z).

(** Nearest integer to [n / d], ties to even ([0 <= n], [0 < d]). *)
Definition rne (n d : Z) : Z :=
  let q := n / d in
  let r := n mod d in
  if 2 * r <? d then q
  else if d <? 2 * r then q + 1
  else if Z.even q then q else q + 1.

(** [d * 2^k <= n], for any sign of [k]. *)
Definition scaled_le (n d k : Z) : bool :=
  if 0 <=? k then d * 2 ^ k <=? n else d <=? n * 2 ^ (- k).

(** [floor (log2 (n / d))] for positive [n] and [d]. *)
Definition floor_log2 (n d : Z) : Z :=
  let k := Z.log2 n - Z.log2 d in
  if scaled_le n d k then k else k - 1.

(** [n / d < 2^t], for any sign of [t]. *)
Definition below (n d t : Z) : Prop :=
  n * 2 ^ Z.max 0 (- t) < d * 2 ^ Z.max 0 t.

(** Round the rational [n / d] to the nearest double, ties to even:
    53 significant bits, exponents down to the subnormal [2^-1074],
    overflow to infinity. *)
Definition round (negative : bool) (n d : Z) : number :=
  if n =? 0 then Finite negative 0 0
  else
    let e := Z.max (floor_log2 n d - 52) (-1074) in
    let m := if 0 <=? e then rne n (d * 2 ^ e) else rne (n * 2 ^ (- e)) d in
    if (0 <=? e) && (2 ^ 1024 <=? m * 2 ^ e) then Infinity negative
    else Finite negative m e.

(** [x * y] *)
Definition mul (x y : number) : number :=
  match x, y with
  | NaN, _ | _, NaN => NaN
  | Infinity s, Infinity t => Infinity (xorb s t)
  | Infinity s, Finite t m _ | Finite t m _, Infinity s =>
      if m =? 0 then NaN else Infinity (xorb s t)
  | Finite s m1 e1, Finite t m2 e2 =>
      let e := e1 + e2 in
      if 0 <=? e then round (xorb s t) (m1 * m2 * 2 ^ e) 1
      else round (xorb s t) (m1 * m2) (2 ^ (- e))
  end.

(** An integral Number: what [Math.floor] returns. [Whole s z] is
    [(-1)^s * z] with [0 <= z]; the sign survives on zero. *)
Inductive integral :=
| NotANumber
| Unbounded (negative : bool)
| Whole (negative : bool) (z : Z).

(** [Math.floor x] *)
Definition floor (x : number) : integral :=
  match x with
  | NaN => NotANumber
  | Infinity s => Unbounded s
  | Finite s m e =>
      if 0 <=? e then Whole s (m * 2 ^ e)
      else
        let q := m / 2 ^ (- e) in
        if s then Whole s (if m mod 2 ^ (- e) =? 0 then q else q + 1)
        else Whole s q
  end.

(** Digits of a positive integer in base 16, lower case. *)
Definition hex_digits (z : Z) : string :=
  match z with
  | Zpos p => HexString.Raw.of_pos p ""
  | _ => "0"
  end.

(** [x.toString(16)] for an integral [x]. Below [2^53] every digit is
    significant and printed exactly. From [2^53] on, the standard leaves
    the digits of a radix other than 10 to the implementation, and
    engines differ in the low-order ones: [large] is the engine's
    printing of such an integer. *)
Definition toString16 (large : Z -> string) (x : integral) : string :=
  match x with
  | NotANumber => "NaN"
  | Unbounded s => if s then "-Infinity" else "Infinity"
  | Whole s z =>
      if z =? 0 then "0"
      else ((if s then "-" else "")
            ++ (if (z <? 2 ^ 53)%Z then hex_digits z else large z))%string
  end.

(** *** [Number(string)] *)

Definition is_digit (c : ascii) : bool :=
  let n := N_of_ascii c in ((48 <=? n) && (n <=? 57))%N.

Definition digit_value (c : ascii) : Z := Z.of_N (N_of_ascii c) - 48.

(** White space and line terminators in the ASCII range. *)
Definition is_space (c : ascii) : bool :=
  let n := N_of_ascii c in (((9 <=? n) && (n <=? 13)) || (n =? 32))%N.

Fixpoint span_digits (l : list ascii) : list ascii * list ascii :=
  match l with
  | c :: l' =>
      if is_digit c then let (ds, rest) := span_digits l' in (c :: ds, rest)
      else ([], l)
  | [] => ([], [])
  end.

Definition digits_value (ds : list ascii) : Z :=
  fold_left (fun acc c => 10 * acc + digit_value c) ds 0.

Fixpoint drop_spaces (l : list ascii) : list ascii :=
  match l with
  | c :: l' => if is_space c then drop_spaces l' else l
  | [] => []
  end.

Definition trim (l : list ascii) : list ascii :=
  rev (drop_spaces (rev (drop_spaces l))).

(** Value of a digit in a radix up to 16, if it is one. *)
Definition radix_digit (radix : Z) (c : ascii) : option Z :=
  match HexString.ascii_to_digit c with
  | Some v => if Z.of_N v <? radix then Some (Z.of_N v) else None
  | None => None
  end.

Fixpoint radix_value (radix : Z) (l : list ascii) (acc : Z) : option Z :=
  match l with
  | [] => Some acc
  | c :: l' =>
      match radix_digit radix c with
      | Some v => radix_value radix l' (radix * acc + v)
      | None => None
      end
  end.

Definition non_decimal (radix : Z) (l : list ascii) : number :=
  match l with
  | [] => NaN
  | _ => match radix_value radix l 0 with
         | Some v => round false v 1
         | None => NaN
         end
  end.

(** [ExponentPart], or nothing; [None] on anything else. *)
Definition exponent_part (l : list ascii) : option Z :=
  match l with
  | [] => Some 0
  | c :: l' =>
      if (Ascii.eqb c "e" || Ascii.eqb c "E")%bool then
        let '(neg, l'') :=
          match l' with
          | s :: r => if Ascii.eqb s "-" then (true, r)
                      else if Ascii.eqb s "+" then (false, r) else (false, l')
          | [] => (false, l')
          end in
        match span_digits l'' with
        | (d :: ds, []) =>
            Some (if neg then - digits_value (d :: ds) else digits_value (d :: ds))
        | _ => None
        end
      else None
  end.

(** [StrUnsignedDecimalLiteral] *)
Definition unsigned_decimal (negative : bool) (l : list ascii) : number :=
  if bool_decide (l = String.list_ascii_of_string "Infinity") then Infinity negative
  else
    let (ints, rest) := span_digits l in
    let (fracs, rest') :=
      match rest with
      | c :: r => if Ascii.eqb c "." then span_digits r else ([], rest)
      | [] => ([], rest)
      end in
    match ints, fracs with
    | [], [] => NaN
    | _, _ =>
        match exponent_part rest' with
        | Some ex =>
            let n := digits_value (ints ++ fracs) in
            let ex' := ex - Z.of_nat (length fracs) in
            if 0 <=? ex' then round negative (n * 10 ^ ex') 1
            else round negative n (10 ^ (- ex'))
        | None => NaN
        end
    end.

(** [Number(s)] for a string [s] of ASCII characters. *)
Definition Number (s : string) : number :=
  match trim (String.list_ascii_of_string s) with
  | [] => Finite false 0 0
  | c :: l =>
      if Ascii.eqb c "-" then unsigned_decimal true l
      else if Ascii.eqb c "+" then unsigned_decimal false l
      else
        match c, l with
        | "0"%char, x :: l' =>
            if (Ascii.eqb x "x" || Ascii.eqb x "X")%bool then non_decimal 16 l'
            else if (Ascii.eqb x "o" || Ascii.eqb x "O")%bool then non_decimal 8 l'
            else if (Ascii.eqb x "b" || Ascii.eqb x "B")%bool then non_decimal 2 l'
            else unsigned_decimal false (c :: l)
        | _, _ => unsigned_decimal false (c :: l)
        end
  end.

(** The literal [1e18]. *)
Definition _1e18 : number := round false (10 ^ 18) 1.

End JsNumber.

(** ** The wallet session adapter (context/web3-context.tsx) *)
Module Web3.
Import JsNumber.

(** Which ethers.js is loaded: v5 ([ethers.utils], [ethers.providers]),
    v6 (top-level helpers, [ethers.BrowserProvider]) or neither. *)
Inductive EthersLib := EthersV5 | EthersV6 | NoHelpers.

(** [{ to, from, value, gas }] *)
Record TxParams := mkTx {
  tx_to : string;
  tx_from : string;
  tx_value : string;
  tx_gas : string
}.

(** Calls the adapter makes, in order (newest last). *)
Inductive Call :=
| RefreshBalance
| SendTransaction (params : TxParams).

Record State := mkState {
  account : string;
  balance : string;
  isConnected : bool;
  isConnecting : bool;
  provider : bool;
  calls : list Call;
  console : list string
}.

(** [useState] defaults. *)
Definition initial : State := mkState "" "0" false false false [] [].

(** The browser, the extension and the network, as one call sees them.
    [radix16] is the engine's printing of an integer from [2^53] on in
    base 16; [getBalance a] stands for fetching the balance of [a] and
    formatting it with [formatEther]. *)
Record Wallet := mkWallet {
  metamask : bool;
  ethers : EthersLib;
  radix16 : Z -> string;
  eth_accounts : outcome (list string);
  eth_requestAccounts : outcome (list string);
  getBalance : string -> outcome string;
  eth_sendTransaction : TxParams -> outcome string
}.

(** What a function captured from the render it was created in. *)
Record Closure := mkClosure {
  c_account : string;
  c_provider : bool
}.

Definition setAccount (a : string) : M State unit :=
  modify (fun s => mkState a (balance s) (isConnected s) (isConnecting s) (provider s) (calls s) (console s)).
Definition setBalance (b : string) : M State unit :=
  modify (fun s => mkState (account s) b (isConnected s) (isConnecting s) (provider s) (calls s) (console s)).
Definition setIsConnected (b : bool) : M State unit :=
  modify (fun s => mkState (account s) (balance s) b (isConnecting s) (provider s) (calls s) (console s)).
Definition setIsConnecting (b : bool) : M State unit :=
  modify (fun s => mkState (account s) (balance s) (isConnected s) b (provider s) (calls s) (console s)).
Definition setProvider (b : bool) : M State unit :=
  modify (fun s => mkState (account s) (balance s) (isConnected s) (isConnecting s) b (calls s) (console s)).
Definition called (c : Call) : M State unit :=
  modify (fun s => mkState (account s) (balance s) (isConnected s) (isConnecting s) (provider s) (calls s ++ [c]) (console s)).
Definition console_error (label : string) : M State unit :=
  modify (fun s => mkState (account s) (balance s) (isConnected s) (isConnecting s) (provider s) (calls s) (console s ++ [label])).

(** The answer of the extension or of the network. *)
Definition request {A} (r : outcome A) : M State A := fun s => (s, r).

(** [try { m } finally { f }] *)
Definition finally {A} (m : M State A) (f : M State unit) : M State A :=
  fun s => let (s', r) := m s in (fst (f s'), r).

(** A promise that is not awaited, taken once it has settled: its
    writes have landed, its rejection is not seen by the caller. When
    the writes land relative to other calls is the matter of [Adapter]
    below. *)
Definition detached (m : M State unit) : M State unit :=
  fun s => (fst (m s), Ok tt).

Definition refreshBalance (c : Closure) (w : Wallet) : M State unit :=
  (called RefreshBalance ;;;
   if negb (c_provider c) || String.eqb (c_account c) "" then ret tt
   else
     try_catch
       (try_catch
          (formattedBalance <- request (getBalance w (c_account c)) ;;
           setBalance formattedBalance)
          (fun error => console_error "Failed to fetch balance" ;;; throw error))
       (fun error => console_error "Failed to fetch balance" ;;; throw error))%js.

Definition initProvider (w : Wallet) : M State unit :=
  (if metamask w then
     try_catch
       (match ethers w with
        | NoHelpers => console_error "Unsupported ethers.js version"
        | _ =>
            setProvider true ;;;
            try_catch
              (accounts <- request (eth_accounts w) ;;
               match accounts with
               | a :: _ =>
                   setAccount a ;;;
                   setIsConnected true ;;;
                   try_catch
                     (ethBalance <- request (getBalance w a) ;;
                      setBalance ethBalance)
                     (fun balanceError =>
                        console_error "Failed to get balance" ;;;
                        setBalance "0")
               | [] => ret tt
               end)
              (fun error => console_error "Failed to get accounts")
        end)
       (fun error => console_error "Failed to initialize provider")
   else ret tt)%js.

Definition handleAccountsChanged (c : Closure) (w : Wallet) (accounts : list string)
  : M State unit :=
  (match accounts with
   | [] =>
       setAccount "" ;;;
       setBalance "0" ;;;
       setIsConnected false
   | a :: _ =>
       if negb (String.eqb a (c_account c)) then
         setAccount a ;;;
         setIsConnected true ;;;
         detached (refreshBalance c w)
       else ret tt
   end)%js.

Definition connectWallet (c : Closure) (w : Wallet) : M State unit :=
  (if negb (metamask w) then
     throw (Error "MetaMask is not installed. Please install MetaMask to continue.")
   else
     finally
       (try_catch
          (setIsConnecting true ;;;
           accounts <- request (eth_requestAccounts w) ;;
           match accounts with
           | a :: _ =>
               setAccount a ;;;
               setIsConnected true ;;;
               refreshBalance c w
           | [] => ret tt
           end)
          (fun error =>
             if bool_decide (code error = Some "4001") then
               throw (Error "User rejected the connection request")
             else throw (Error "Failed to connect to MetaMask")))
       (setIsConnecting false))%js.

Definition disconnectWallet : M State unit :=
  (setAccount "" ;;;
   setBalance "0" ;;;
   setIsConnected false)%js.

(** *** Amounts *)

(** Digits without their trailing zeros. *)
Fixpoint drop_trailing_zeros (ds : list ascii) : list ascii :=
  match ds with
  | [] => []
  | c :: ds' =>
      match drop_trailing_zeros ds' with
      | [] => if Ascii.eqb c "0" then [] else [c]
      | r => c :: r
      end
  end.

(** How the library reads an amount of ether (ethers v5 [parseFixed],
    ethers v6 [FixedNumber.fromString]), modelled from its documented
    contract: a decimal string with an optional leading minus and at
    most 18 fractional digits once trailing zeros are dropped denotes
    the exact number of wei; anything else is rejected ([None]). Version
    5 returns this number as a [BigNumber] of any size; version 6 keeps
    it only if it fits its fixed format, see [fits_fixed]. *)
Definition ethers_parseEther (value : string) : option Z :=
  let l := String.list_ascii_of_string value in
  let '(negative, l) :=
    match l with
    | c :: r => if Ascii.eqb c "-" then (true, r) else (false, l)
    | [] => (false, l)
    end in
  let (whole, rest) := span_digits l in
  let fraction :=
    match rest with
    | [] => Some []
    | c :: r =>
        if Ascii.eqb c "." then
          match span_digits r with
          | (fs, []) => Some fs
          | _ => None
          end
        else None
    end in
  match fraction with
  | None => None
  | Some fs =>
      match whole, fs with
      | [], [] => None
      | _, _ =>
          let fs' := drop_trailing_zeros fs in
          if (18 <? length fs')%nat then None
          else
            let wei := (digits_value whole * 10 ^ 18
                        + digits_value fs' * 10 ^ (18 - Z.of_nat (length fs')))%Z in
            Some (if negative then (- wei)%Z else wei)
      end
  end.

(** What the [parseEther] helper of this file returns: a v5
    [BigNumber], a v6 [bigint], or the string printed from a Number.
    The string is kept as the Number it was printed from:
    [Number(x.toString())] is [x], up to the sign of zero, which
    [toString(16)] does not show. *)
Inductive EtherValue :=
| BigNumber (wei : Z)
| BigInt (wei : Z)
| NumberString (x : number).

(** The format of ethers v6 [parseUnits]: signed, 512 bits wide. A
    value outside [-2^511, 2^511) makes [parseEther] throw an overflow
    fault. *)
Definition fits_fixed (wei : Z) : bool :=
  ((- 2 ^ 511 <=? wei) && (wei <? 2 ^ 511))%Z.

Definition parseEther (lib : EthersLib) (value : string) : outcome EtherValue :=
  match lib with
  | EthersV5 =>
      match ethers_parseEther value with
      | Some wei => Ok (BigNumber wei)
      | None => Throw (mkJsError (Some "INVALID_ARGUMENT") "invalid decimal value")
      end
  | EthersV6 =>
      match ethers_parseEther value with
      | Some wei =>
          if fits_fixed wei then Ok (BigInt wei)
          else Throw (mkJsError (Some "NUMERIC_FAULT") "overflow")
      | None => Throw (mkJsError (Some "INVALID_ARGUMENT") "invalid FixedNumber string value")
      end
  | NoHelpers => Ok (NumberString (mul (Number value) _1e18))
  end.

(** [BigNumber.prototype.toHexString]: an even number of digits. *)
Definition toHexString (z : Z) : string :=
  let ds := hex_digits (Z.abs z) in
  ((if (z <? 0)%Z then "-" else "") ++ "0x"
   ++ (if Nat.even (String.length ds) then ds else "0" ++ ds))%string.

(** [bigint.toString(16)] *)
Definition bigint_toString16 (z : Z) : string :=
  ((if (z <? 0)%Z then "-" else "") ++ hex_digits (Z.abs z))%string.

(** The [value] field [sendTransaction] puts in the request. *)
Definition valueInHex (large : Z -> string) (lib : EthersLib) (amount : string) : string :=
  match parseEther lib amount with
  | Ok (BigNumber wei) => toHexString wei
  | Ok (BigInt wei) => ("0x" ++ bigint_toString16 wei)%string
  | Ok (NumberString x) => ("0x" ++ toString16 large (floor x))%string
  | Throw _ => ("0x" ++ toString16 large (floor (mul (Number amount) _1e18)))%string
  end.

Definition sendTransaction (c : Closure) (w : Wallet) (to amount : string)
  : M State string :=
  (if String.eqb (c_account c) "" then throw (Error "Wallet not connected")
   else
     try_catch
       (let transactionParameters :=
          mkTx to (c_account c) (valueInHex (radix16 w) (ethers w) amount) "0x5208" in
        called (SendTransaction transactionParameters) ;;;
        txHash <- request (eth_sendTransaction w transactionParameters) ;;
        refreshBalance c w ;;;
        ret txHash)
       (fun error =>
          console_error "Transaction error details:" ;;;
          if bool_decide (code error = Some "4001") then
            throw (Error "Transaction rejected by user")
          else if bool_decide (code error = Some "-32603")
                  && str_includes (message error) "insufficient funds" then
            throw (Error "Insufficient funds for this transaction")
          else
            throw (Error (if String.eqb (message error) "" then "Failed to send transaction"
                          else message error))))%js.

(** Every character is a hexadecimal digit. *)
Fixpoint all_hex (s : string) : bool :=
  match s with
  | EmptyString => true
  | String c s' =>
      match HexString.ascii_to_digit c with
      | Some _ => all_hex s'
      | None => false
      end
  end.

(** The integer a hexadecimal quantity [0x...] denotes, as the
    extension reads the [value] field. *)
Definition hex_quantity (s : string) : option Z :=
  match s with
  | String "0" (String "x" ds) =>
      match ds with
      | EmptyString => None
      | _ => if all_hex ds then Some (Z.of_N (HexString.Raw.to_N ds 0)) else None
      end
  | _ => None
  end.

(** The rational a plain decimal string denotes, as numerator and
    number of fractional digits: ["12.50"] is [(1250, 2)]. *)
Definition decimal (s : string) : option (Z * nat) :=
  let (whole, rest) := span_digits (String.list_ascii_of_string s) in
  match whole, rest with
  | _ :: _, [] => Some (digits_value whole, 0%nat)
  | _ :: _, c :: r =>
      if Ascii.eqb c "." then
        match span_digits r with
        | (f :: fs, []) => Some (digits_value (whole ++ f :: fs), length (f :: fs))
        | _ => None
        end
      else None
  | [], _ => None
  end.

(** *** The state invariant *)

Definition consistent (s : State) : Prop :=
  (isConnected s = true <-> account s <> "") /\
  (isConnected s = false -> balance s = "0").

(** Addresses the extension reports are never empty. *)
Definition reports_addresses (r : outcome (list string)) : Prop :=
  match r with
  | Ok (a :: _) => a <> ""
  | _ => True
  end.

(** What can happen to the adapter. *)
Inductive Op :=
| Initialize (w : Wallet)
| Connect (c : Closure) (w : Wallet)
| Disconnect
| AccountsChanged (c : Closure) (w : Wallet) (accounts : list string).

(** An operation run to completion: every answer it waits for has
    arrived before anything else happens. *)
Definition run (op : Op) (s : State) : State :=
  match op with
  | Initialize w => fst (initProvider w s)
  | Connect c w => fst (connectWallet c w s)
  | Disconnect => fst (disconnectWallet s)
  | AccountsChanged c w accounts => fst (handleAccountsChanged c w accounts s)
  end.

Definition well_formed (op : Op) : Prop :=
  match op with
  | Initialize w => reports_addresses (eth_accounts w)
  | Connect _ w => reports_addresses (eth_requestAccounts w)
  | Disconnect => True
  | AccountsChanged _ _ accounts => reports_addresses (Ok accounts)
  end.

End Web3.

(** ** The wallet session adapter, one await at a time *)
Module Adapter.
Import Web3.

(** A call suspended at an [await], with what it has captured:
    - [InitAccounts]: [initProvider], waiting for [eth_accounts];
    - [InitBalance]: [initProvider], waiting for the balance of
      [accounts[0]];
    - [ConnectAccounts]: [connectWallet], waiting for
      [eth_requestAccounts];
    - [ConnectBalance]: [connectWallet], waiting for the fetch of its
      [refreshBalance];
    - [RefreshFetch]: a [refreshBalance] nobody awaits, waiting for its
      fetch. *)
Inductive Await :=
| InitAccounts (w : Wallet)
| InitBalance (w : Wallet) (a : string)
| ConnectAccounts (c : Closure) (w : Wallet)
| ConnectBalance (c : Closure) (w : Wallet)
| RefreshFetch (c : Closure) (w : Wallet).

(** [if (!provider || !account) return], on the values captured. *)
Definition skips (c : Closure) : bool :=
  negb (c_provider c) || String.eqb (c_account c) "".

(** [refreshBalance] from the answer of the fetch on. *)
Definition refresh_lands (c : Closure) (w : Wallet) : M State unit :=
  (try_catch
     (try_catch
        (formattedBalance <- request (getBalance w (c_account c)) ;;
         setBalance formattedBalance)
        (fun error => console_error "Failed to fetch balance" ;;; throw error))
     (fun error => console_error "Failed to fetch balance" ;;; throw error))%js.

(** A call up to its first [await]: the state it leaves and what it
    waits for. *)
Definition start (op : Op) (s : State) : State * list Await :=
  match op with
  | Initialize w =>
      if metamask w then
        match ethers w with
        | NoHelpers => (fst (console_error "Unsupported ethers.js version" s), [])
        | _ => (fst (setProvider true s), [InitAccounts w])
        end
      else (s, [])
  | Connect c w =>
      if negb (metamask w) then (s, [])
      else (fst (setIsConnecting true s), [ConnectAccounts c w])
  | Disconnect => (fst (disconnectWallet s), [])
  | AccountsChanged c w accounts =>
      match accounts with
      | [] => (fst ((setAccount "" ;;; setBalance "0" ;;; setIsConnected false)%js s), [])
      | a :: _ =>
          if negb (String.eqb a (c_account c)) then
            (fst ((setAccount a ;;; setIsConnected true ;;; called RefreshBalance)%js s),
             if skips c then [] else [RefreshFetch c w])
          else (s, [])
      end
  end.

(** The Refresh button: [refreshBalance] of the current render. *)
Definition refresh (w : Wallet) (s : State) : State * list Await :=
  let c := mkClosure (account s) (provider s) in
  (fst (called RefreshBalance s), if skips c then [] else [RefreshFetch c w]).

(** A suspended call from the answer it waited for up to its next
    [await] or its end. *)
Definition resume (p : Await) (s : State) : State * list Await :=
  match p with
  | InitAccounts w =>
      match eth_accounts w with
      | Ok (a :: _) => (fst ((setAccount a ;;; setIsConnected true)%js s), [InitBalance w a])
      | Ok [] => (s, [])
      | Throw _ => (fst (console_error "Failed to get accounts" s), [])
      end
  | InitBalance w a =>
      match getBalance w a with
      | Ok ethBalance => (fst (setBalance ethBalance s), [])
      | Throw _ => (fst ((console_error "Failed to get balance" ;;; setBalance "0")%js s), [])
      end
  | ConnectAccounts c w =>
      match eth_requestAccounts w with
      | Ok (a :: _) =>
          let s1 := fst ((setAccount a ;;; setIsConnected true ;;; called RefreshBalance)%js s) in
          if skips c then (fst (setIsConnecting false s1), [])
          else (s1, [ConnectBalance c w])
      | Ok [] => (fst (setIsConnecting false s), [])
      | Throw _ => (fst (setIsConnecting false s), [])
      end
  | ConnectBalance c w =>
      (fst (setIsConnecting false (fst (refresh_lands c w s))), [])
  | RefreshFetch c w => (fst (refresh_lands c w s), [])
  end.

(** The adapter with the calls it has in flight. *)
Record System := mkSystem {
  state : State;
  awaiting : list Await
}.

Inductive Action :=
| Start (op : Op)
| Refresh (w : Wallet)
| Resume (i : nat).

Definition step (sys : System) (act : Action) : System :=
  match act with
  | Start op =>
      let (s', new) := start op (state sys) in mkSystem s' (awaiting sys ++ new)
  | Refresh w =>
      let (s', new) := refresh w (state sys) in mkSystem s' (awaiting sys ++ new)
  | Resume i =>
      match awaiting sys !! i with
      | Some p =>
          let (s', new) := resume p (state sys) in
          mkSystem s' (delete i (awaiting sys) ++ new)
      | None => sys
      end
  end.

Definition steps (acts : list Action) (sys : System) : System :=
  fold_left step acts sys.

(** Answer the oldest suspended call, [n] times. *)
Definition settle (n : nat) (sys : System) : System :=
  steps (replicate n (Resume 0)) sys.

(** The extension never reports an empty address, also to the calls in
    flight. *)
Definition await_ok (p : Await) : Prop :=
  match p with
  | InitAccounts w => reports_addresses (eth_accounts w)
  | ConnectAccounts _ w => reports_addresses (eth_requestAccounts w)
  | _ => True
  end.

Definition action_ok (act : Action) : Prop :=
  match act with
  | Start op => well_formed op
  | _ => True
  end.

(** The answer to a balance fetch. *)
Definition lands_balance (p : Await) : bool :=
  match p with
  | InitBalance _ _ | ConnectBalance _ _ | RefreshFetch _ _ => true
  | _ => false
  end.

(** The first half of the invariant. *)
Definition flag_matches (s : State) : Prop :=
  isConnected s = true <-> account s <> "".

End Adapter.

(** ** The dashboard page (app/dashboard/page.tsx) *)
Module Dashboard.

(** [linkWalletToUser] as obtained from one render: [user] is the
    session user of that render, whatever [setUser] has written since. *)
Definition linkWalletToUser_of (closure : option Auth.UserData) (env : Auth.Env)
    (walletAddress : string) : M Auth.World unit :=
  (initialized <- Auth.isFirestoreInitialized env ;;
   if negb initialized then throw (Error "Firestore is not initialized") else
   match closure with
   | None => throw (Error "No user logged in")
   | Some user =>
     try_catch
       (let userRef := Auth.uid user in
        try_catch
          (userSnap <- Auth.getDoc env userRef ;;
           match userSnap with
           | Some userData =>
               let walletAddresses := default [] (Auth.d_walletAddresses userData) in
               if negb (includes walletAddresses walletAddress) then
                 Auth.updateDoc env userRef (walletAddresses ++ [walletAddress]) ;;;
                 Auth.setUser
                   (Some (Auth.with_wallets user (walletAddresses ++ [walletAddress])))
               else ret tt
           | None =>
               let userData :=
                 Auth.mkUserDoc (Auth.uid user) (Auth.email user) (Auth.displayName user)
                   (Auth.photoURL user) (Some [walletAddress]) (Some (Auth.now env)) in
               Auth.setDoc env userRef userData ;;;
               Auth.setUser (Some (Auth.with_wallets user [walletAddress]))
           end)
          (fun error =>
             Auth.console_error "Error accessing Firestore, updating local state only:" ;;;
             _ <- Auth.handleFirestoreError error ;;
             let walletAddresses := default [] (Auth.walletAddresses user) in
             if negb (includes walletAddresses walletAddress) then
               Auth.setUser
                 (Some (Auth.with_wallets user (walletAddresses ++ [walletAddress])))
             else ret tt))
       (fun error =>
          _ <- Auth.handleFirestoreError error ;;
          throw (Error ("Failed to link wallet: " ++ message error)))
   end)%js.

(** A call of [linkWalletToUser] the effect is waiting for: the
    session user of the render it was made from and the address
    passed. *)
Record LinkCall := mkLinkCall {
  l_user : Auth.UserData;
  l_account : string
}.

(** The page's own state ([walletLinked]), the two contexts it reads,
    its toasts and console, the addresses it has passed to
    [linkWalletToUser] so far (newest last) and the calls that have not
    settled yet. *)
Record State := mkState {
  auth : Auth.World;
  web3 : Adapter.System;
  walletLinked : bool;
  toasts : list Auth.Toast;
  console : list string;
  linkCalls : list string;
  linking : list LinkCall
}.

Definition account (s : State) : string := Web3.account (Adapter.state (web3 s)).
Definition isConnected (s : State) : bool := Web3.isConnected (Adapter.state (web3 s)).

(** The effect [linkWalletIfConnected] up to its [await]: with the
    values of the render it runs in, it makes the call and waits. *)
Definition linkWalletIfConnected (s : State) : State :=
  match Auth.user (auth s) with
  | Some user =>
      if isConnected s && negb (walletLinked s) then
        mkState (auth s) (web3 s) (walletLinked s) (toasts s) (console s)
          (linkCalls s ++ [account s])
          (linking s ++ [mkLinkCall user (account s)])
      else s
  | None => s
  end.

(** The rest of the effect, once call [i] has settled against the
    store [env]: the call's own reads and writes are taken at this
    moment, and the page's writes follow in the same batch. *)
Definition settled (i : nat) (env : Auth.Env) (s : State) : State :=
  match linking s !! i with
  | Some call =>
      match linkWalletToUser_of (Some (l_user call)) env (l_account call) (auth s) with
      | (a', Ok _) =>
          mkState a' (web3 s) true
            (toasts s ++ [Auth.mkToast "Wallet linked"
                            "Your wallet has been linked to your account" None])
            (console s) (linkCalls s) (delete i (linking s))
      | (a', Throw error) =>
          mkState a' (web3 s) (walletLinked s) (toasts s)
            (console s ++ ["Error linking wallet:"])
            (linkCalls s) (delete i (linking s))
      end
  | None => s
  end.

(** A freshly mounted page, before and after its first effect. *)
Definition fresh (a : Auth.World) (w : Adapter.System) : State :=
  mkState a w false [] [] [] [].

Definition mounted (a : Auth.World) (w : Adapter.System) : State :=
  linkWalletIfConnected (fresh a w).

(** What makes the page render again.
    - [Rerender]: a render in which no dependency of the effect has
      changed (typing in the form, a toast);
    - [Wallet]: the wallet context moves on;
    - [AuthRender u]: the auth provider has rendered again (the
      listener or a call has written its state): the session user is
      [u] and [linkWalletToUser] is a new function;
    - [LinkSettled i env]: call [i] of the effect settles. *)
Inductive Event :=
| Rerender
| Wallet (act : Adapter.Action)
| AuthRender (u : option Auth.UserData)
| LinkSettled (i : nat) (env : Auth.Env).

Definition setWeb3 (w : Adapter.System) (s : State) : State :=
  mkState (auth s) w (walletLinked s) (toasts s) (console s) (linkCalls s) (linking s).

Definition setSessionUser (u : option Auth.UserData) (s : State) : State :=
  mkState (Auth.mkWorld (Auth.persisted (auth s)) u (Auth.firestoreError (auth s))
             (Auth.toasts (auth s)) (Auth.console (auth s)))
    (web3 s) (walletLinked s) (toasts s) (console s) (linkCalls s) (linking s).

(** One render. The effect runs again only when one of its
    dependencies [isConnected, user, account, linkWalletToUser,
    walletLinked, toast] has changed. *)
Definition step (s : State) (ev : Event) : State :=
  match ev with
  | Rerender => s
  | Wallet act =>
      let s' := setWeb3 (Adapter.step (web3 s) act) s in
      if Bool.eqb (isConnected s') (isConnected s) && String.eqb (account s') (account s)
      then s' else linkWalletIfConnected s'
  | AuthRender u => linkWalletIfConnected (setSessionUser u s)
  | LinkSettled i env =>
      let s' := settled i env s in
      if Bool.eqb (walletLinked s') (walletLinked s) then s' else linkWalletIfConnected s'
  end.

Definition session (evs : list Event) (s : State) : State :=
  fold_left step evs s.

(** Every call of the session that settles finds [db] as given. *)
Definition store_is (b : bool) (ev : Event) : Prop :=
  match ev with
  | LinkSettled _ env => Auth.db env = b
  | _ => True
  end.

End Dashboard.

(** ** Concrete sessions used to exercise the model *)
Module Scenario.
Import Auth.

Definition u1 : UserData :=
  mkUserData "u1" (Some "ada@example.org") (Some "Ada") None None.

Definition doc_u1 (l : list string) : UserDoc :=
  mkUserDoc "u1" (Some "ada@example.org") (Some "Ada") None (Some l) (Some "2024-01-01T00:00:00.000Z").

(** A working store at a fixed time. *)
Definition env_ok : Env := mkEnv true None None "2024-05-01T12:00:00.000Z".

Definition permission_denied : JsError :=
  mkJsError (Some "permission-denied") "Missing or insufficient permissions.".

(** The read of this call is refused. *)
Definition env_read_denied : Env :=
  mkEnv true (Some permission_denied) None "2024-05-01T12:00:00.000Z".

(** [db] is undefined (missing environment variables). *)
Definition env_no_db : Env := mkEnv false None None "2024-05-01T12:00:00.000Z".

(** Signed in, nothing persisted yet. *)
Definition w_fresh : World := mkWorld ∅ (Some u1) None [] [].

(** Signed in with the minimal user (no list in memory), while the
    persisted document already lists a wallet. *)
Definition w_minimal (l : list string) : World :=
  mkWorld {[ "u1" := doc_u1 l ]} (Some u1) None [] [].

(** Signed in with a profile whose list is present but empty, while
    the persisted document lists a wallet. *)
Definition w_empty_list (l : list string) : World :=
  mkWorld {[ "u1" := doc_u1 l ]} (Some (with_wallets u1 [])) None [] [].

(** An extension that grants access to the given accounts. *)
Definition wallet_with (accounts : list string) : Web3.Wallet :=
  Web3.mkWallet true Web3.EthersV6 JsNumber.hex_digits (Ok accounts) (Ok accounts)
    (fun _ => Ok "1.5") (fun _ => Ok "0xhash").

(** The adapter starts up and finds no account, the user connects the
    wallet ["0xAAA"] and the link call settles, the page renders again,
    then the user switches to ["0xBBB"] in the extension. *)
Definition switch_accounts : list Dashboard.Event :=
  [ Dashboard.Wallet (Adapter.Start (Web3.Initialize (wallet_with [])));
    Dashboard.Wallet (Adapter.Resume 0);
    Dashboard.Wallet (Adapter.Start (Web3.Connect (Web3.mkClosure "" true)
                                       (wallet_with ["0xAAA"])));
    Dashboard.Wallet (Adapter.Resume 0);
    Dashboard.LinkSettled 0 env_ok;
    Dashboard.Rerender;
    Dashboard.Wallet (Adapter.Start (Web3.AccountsChanged (Web3.mkClosure "0xAAA" true)
                                       (wallet_with ["0xBBB"]) ["0xBBB"])) ].

(** The wallet context before anything has happened. *)
Definition idle : Adapter.System := Adapter.mkSystem Web3.initial [].

(** The wallet context with the given address connected and no call in
    flight. *)
Definition connected (a : string) : Adapter.System :=
  Adapter.mkSystem (Web3.mkState a "0" true false true [] []) [].

(** The user switches to ["0xBBB"] in the extension. *)
Definition switch_to_BBB : Dashboard.Event :=
  Dashboard.Wallet (Adapter.Start (Web3.AccountsChanged (Web3.mkClosure "0xAAA" true)
                                     (wallet_with ["0xBBB"]) ["0xBBB"])).


(** A wallet whose balances differ by address. *)
Definition wallet_of_two : Web3.Wallet :=
  Web3.mkWallet true Web3.EthersV6 JsNumber.hex_digits (Ok ["0xAAA"]) (Ok ["0xAAA"])
    (fun a => if String.eqb a "0xAAA" then Ok "1.5" else Ok "7.0")
    (fun _ => Ok "0xhash").

(** Nobody is signed in. *)
Definition w_signed_out : World :=
  mkWorld {[ "u1" := doc_u1 ["0xAAA"] ]} None None [] [].

End Scenario.

(** ** Environment configuration (lib/firebase.ts, app/env-check.tsx) *)
Module Config.

(** [process.env[name] && process.env[name].length > 0] *)
Definition is_set (env : gmap string string) (name : string) : bool :=
  match env !! name with
  | Some v => negb (String.eqb v "")
  | None => false
  end.

(** [isConfigValid] of lib/firebase.ts: three variables are required
    before Firebase is initialised. *)
Definition isConfigValid (env : gmap string string) : bool :=
  forallb (is_set env)
    ["NEXT_PUBLIC_FIREBASE_API_KEY";
     "NEXT_PUBLIC_FIREBASE_AUTH_DOMAIN";
     "NEXT_PUBLIC_FIREBASE_PROJECT_ID"].

(** [requiredVars] of app/env-check.tsx. *)
Definition requiredVars : list string :=
  ["NEXT_PUBLIC_FIREBASE_API_KEY";
   "NEXT_PUBLIC_FIREBASE_AUTH_DOMAIN";
   "NEXT_PUBLIC_FIREBASE_PROJECT_ID";
   "NEXT_PUBLIC_FIREBASE_STORAGE_BUCKET";
   "NEXT_PUBLIC_FIREBASE_MESSAGING_SENDER_ID";
   "NEXT_PUBLIC_FIREBASE_APP_ID";
   "NEXT_PUBLIC_FIREBASE_MEASUREMENT_ID"].

(** The names [EnvCheck] reports as missing or empty. *)
Definition missingVars (env : gmap string string) : list string :=
  List.filter (fun varName => negb (is_set env varName)) requiredVars.

End Config.

(** ** Signing in and out (context/auth-context.tsx) *)
Module AuthFlows.
Import Auth.

(** [User] of firebase/auth, as far as the provider reads it. *)
Record FirebaseUser := mkFirebaseUser {
  fu_uid : string;
  fu_email : option string;
  fu_displayName : option string;
  fu_photoURL : option string
}.

(** The provider's state with its [loading] flag and the routes pushed
    to the router (newest last). *)
Record Session := mkSession {
  world : World;
  loading : bool;
  pushed : list string
}.

(** The authentication service as one call sees it: whether [auth] was
    initialised, how the store behaves, and the answer to each request. *)
Record Service := mkService {
  auth : bool;
  store : Env;
  signInWithEmailAndPassword : outcome FirebaseUser;
  signInWithPopup : outcome FirebaseUser;
  signOut : outcome unit
}.

Definition lift {A} (m : M World A) : M Session A :=
  fun s => let (w', r) := m (world s) in (mkSession w' (loading s) (pushed s), r).

Definition setLoading (b : bool) : M Session unit :=
  modify (fun s => mkSession (world s) b (pushed s)).

(** [router.push(route)] *)
Definition push (route : string) : M Session unit :=
  modify (fun s => mkSession (world s) (loading s) (pushed s ++ [route])).

Definition answer {S A} (r : outcome A) : M S A := fun s => (s, r).

(** [try { m } finally { f }] *)
Definition finally {S A} (m : M S A) (f : M S unit) : M S A :=
  fun s => let (s', r) := m s in (fst (f s'), r).

(** The session user built from the auth user alone: no wallet list. *)
Definition minimalUser (user : FirebaseUser) : UserData :=
  mkUserData (fu_uid user) (fu_email user) (fu_displayName user) (fu_photoURL user) None.

(** [userSnap.data() as UserData] *)
Definition user_of_doc (d : UserDoc) : UserData :=
  mkUserData (d_uid d) (d_email d) (d_displayName d) (d_photoURL d) (d_walletAddresses d).

(** The table [errorMessages] of [handleAuthError], with the keys
    written in it; a code that names a member every object inherits
    (["constructor"], ["toString"]) is not an auth error code and is
    looked up here like any other absent key. *)
Definition errorMessages : list (string * string) :=
  [("auth/email-already-in-use", "This email is already in use. Try logging in instead.");
   ("auth/invalid-email", "Please enter a valid email address.");
   ("auth/user-disabled", "This account has been disabled. Please contact support.");
   ("auth/user-not-found", "No account found with this email. Please sign up.");
   ("auth/wrong-password", "Incorrect password. Please try again.");
   ("auth/weak-password", "Password should be at least 6 characters.");
   ("auth/popup-closed-by-user", "Sign-in popup was closed before completing the sign-in.");
   ("auth/cancelled-popup-request", "The sign-in popup was cancelled.");
   ("auth/popup-blocked", "The sign-in popup was blocked by your browser.");
   ("auth/network-request-failed", "Network error. Please check your internet connection.")].

Fixpoint assoc (k : string) (l : list (string * string)) : option string :=
  match l with
  | [] => None
  | (k', v) :: l' => if String.eqb k' k then Some v else assoc k l'
  end.

(** [errorMessages[error.code] || error.message || "An unexpected ..."] *)
Definition authMessage (error : JsError) : string :=
  match from_option (fun c => assoc c errorMessages) None (code error) with
  | Some m => m
  | None =>
      if String.eqb (message error) "" then "An unexpected authentication error occurred."
      else message error
  end.

Definition handleAuthError (error : JsError) : M World string :=
  (console_error "Firebase Auth Error:" ;;;
   if bool_decide (code error = Some "auth/configuration-not-found") then
     toast (mkToast "Authentication Error"
              "Firebase Authentication is not properly configured. Please make sure you've enabled Authentication in the Firebase Console."
              (Some "destructive")) ;;;
     ret "Firebase Authentication is not properly configured. Please contact support."
   else if bool_decide (code error = Some "auth/invalid-api-key") then
     toast (mkToast "Configuration Error"
              "Invalid Firebase API key. Please check your environment variables."
              (Some "destructive")) ;;;
     ret "Invalid Firebase configuration. Please contact support."
   else ret (authMessage error))%js.

Definition isFirebaseInitialized (svc : Service) : M World bool :=
  (if negb (auth svc) then
     toast (mkToast "Firebase Error"
              "Firebase Authentication is not properly initialized. Check your environment variables."
              (Some "destructive")) ;;;
     ret false
   else ret true)%js.

(** [createUserProfile]: the new document, or [None] for [null].
    [collection(db, "users")], on a constant path, does not throw. *)
Definition createUserProfile (env : Env) (user : FirebaseUser) : M World (option UserDoc) :=
  (initialized <- isFirestoreInitialized env ;;
   if negb initialized then ret None else
   try_catch
     (let userData :=
        mkUserDoc (fu_uid user) (fu_email user) (fu_displayName user) (fu_photoURL user)
                  (Some []) (Some (now env)) in
      setDoc env (fu_uid user) userData ;;;
      ret (Some userData))
     (fun error =>
        console_error "Error creating user profile:" ;;;
        _ <- handleFirestoreError error ;;
        ret None))%js.

(** [getUserProfile]: the document, or [None] for [null]. *)
Definition getUserProfile (env : Env) (uid : string) : M World (option UserDoc) :=
  (initialized <- isFirestoreInitialized env ;;
   if negb initialized then ret None else
   try_catch
     (userSnap <- getDoc env uid ;;
      ret userSnap)
     (fun error =>
        console_error "Error getting user profile:" ;;;
        _ <- handleFirestoreError error ;;
        ret None))%js.

Definition login (svc : Service) : M Session unit :=
  (initialized <- lift (isFirebaseInitialized svc) ;;
   if negb initialized then throw (Error "Firebase authentication is not initialized") else
   try_catch
     (user <- answer (signInWithEmailAndPassword svc) ;;
      lift (setUser (Some (minimalUser user))) ;;;
      push "/dashboard")
     (fun error =>
        errorMessage <- lift (handleAuthError error) ;;
        throw (Error errorMessage)))%js.

Definition googleSignIn (svc : Service) : M Session unit :=
  (initialized <- lift (isFirebaseInitialized svc) ;;
   if negb initialized then throw (Error "Firebase authentication is not initialized") else
   try_catch
     (user <- answer (signInWithPopup svc) ;;
      lift (setUser (Some (minimalUser user))) ;;;
      lift (try_catch
              (userProfile <- getUserProfile (store svc) (fu_uid user) ;;
               match userProfile with
               | None => _ <- createUserProfile (store svc) user ;; ret tt
               | Some _ => ret tt
               end)
              (fun error =>
                 console_error "Error with Firestore profile, continuing with minimal user:" ;;;
                 _ <- handleFirestoreError error ;;
                 ret tt)) ;;;
      push "/dashboard")
     (fun error =>
        errorMessage <- lift (handleAuthError error) ;;
        throw (Error errorMessage)))%js.

Definition logout (svc : Service) : M Session unit :=
  (initialized <- lift (isFirebaseInitialized svc) ;;
   if negb initialized then throw (Error "Firebase authentication is not initialized") else
   try_catch
     (answer (signOut svc) ;;;
      push "/login")
     (fun error =>
        errorMessage <- lift (handleAuthError error) ;;
        throw (Error errorMessage)))%js.

(** The callback given to [onAuthStateChanged]. *)
Definition onAuthStateChanged (svc : Service) (authUser : option FirebaseUser) : M Session unit :=
  finally
    (lift
       (try_catch
          (match authUser with
           | Some authUser =>
               setUser (Some (minimalUser authUser)) ;;;
               try_catch
                 (userProfile <- getUserProfile (store svc) (fu_uid authUser) ;;
                  match userProfile with
                  | Some userProfile => setUser (Some (user_of_doc userProfile))
                  | None =>
                      try_catch
                        (newProfile <- createUserProfile (store svc) authUser ;;
                         match newProfile with
                         | Some newProfile => setUser (Some (user_of_doc newProfile))
                         | None => ret tt
                         end)
                        (fun error =>
                           console_error "Error creating user profile:" ;;;
                           _ <- handleFirestoreError error ;;
                           ret tt)
                  end)
                 (fun error =>
                    console_error "Error getting user profile:" ;;;
                    _ <- handleFirestoreError error ;;
                    ret tt)
           | None =>
               setUser None ;;;
               setFirestoreError None
           end)
          (fun error =>
             console_error "Auth state change error:" ;;;
             _ <- handleAuthError error ;;
             ret tt)))%js
    (setLoading false).

(** The profile a sign-in writes when it finds none. *)
Definition fresh_profile (env : Env) (user : FirebaseUser) : UserDoc :=
  mkUserDoc (fu_uid user) (fu_email user) (fu_displayName user) (fu_photoURL user)
            (Some []) (Some (now env)).

End AuthFlows.

(** ** The send form of the dashboard (app/dashboard/page.tsx) *)
Module SendForm.

Record State := mkState {
  recipient : string;
  amount : string;
  isLoading : bool;
  web3 : Web3.State;
  toasts : list Auth.Toast;
  console : list string
}.

Definition setRecipient (r : string) : M State unit :=
  modify (fun s => mkState r (amount s) (isLoading s) (web3 s) (toasts s) (console s)).
Definition setAmount (a : string) : M State unit :=
  modify (fun s => mkState (recipient s) a (isLoading s) (web3 s) (toasts s) (console s)).
Definition setIsLoading (b : bool) : M State unit :=
  modify (fun s => mkState (recipient s) (amount s) b (web3 s) (toasts s) (console s)).
Definition toast (t : Auth.Toast) : M State unit :=
  modify (fun s => mkState (recipient s) (amount s) (isLoading s) (web3 s) (toasts s ++ [t]) (console s)).
Definition console_error (label : string) : M State unit :=
  modify (fun s => mkState (recipient s) (amount s) (isLoading s) (web3 s) (toasts s) (console s ++ [label])).

(** A call into the wallet context. *)
Definition lift {A} (m : M Web3.State A) : M State A :=
  fun s => let (w', r) := m (web3 s) in
           (mkState (recipient s) (amount s) (isLoading s) w' (toasts s) (console s), r).

(** [handleSendTransaction]; [console.log] is not recorded. *)
Definition handleSendTransaction (c : Web3.Closure) (w : Web3.Wallet) : M State unit :=
  (recipient <- gets recipient ;;
   amount <- gets amount ;;
   if String.eqb recipient "" || String.eqb amount "" then
     toast (Auth.mkToast "Error" "Please enter recipient address and amount"
              (Some "destructive"))
   else
     AuthFlows.finally
       (try_catch
          (setIsLoading true ;;;
           _ <- lift (Web3.sendTransaction c w recipient amount) ;;
           setRecipient "" ;;;
           setAmount "" ;;;
           toast (Auth.mkToast "Success" "Transaction sent successfully" None))
          (fun error =>
             console_error "Transaction error in dashboard:" ;;;
             toast (Auth.mkToast "Error"
                      (if String.eqb (message error) "" then "Failed to send transaction"
                       else message error)
                      (Some "destructive"))))
       (setIsLoading false))%js.

(** The transfer requests among a list of calls. *)
Definition requests (l : list Web3.Call) : list Web3.TxParams :=
  omap (fun c => match c with
                 | Web3.SendTransaction p => Some p
                 | Web3.RefreshBalance => None
                 end) l.

End SendForm.

(** ** The connect button (components/wallet-connect.tsx) *)
Module WalletConnect.

Record State := mkState {
  web3 : Web3.State;
  toasts : list Auth.Toast
}.

Definition toast (t : Auth.Toast) : M State unit :=
  modify (fun s => mkState (web3 s) (toasts s ++ [t])).

Definition lift {A} (m : M Web3.State A) : M State A :=
  fun s => let (w', r) := m (web3 s) in (mkState w' (toasts s), r).

Definition handleConnect (c : Web3.Closure) (w : Web3.Wallet) : M State unit :=
  try_catch
    (lift (Web3.connectWallet c w))
    (fun error =>
       toast (Auth.mkToast "Connection Error"
                (if String.eqb (message error) "" then "Failed to connect wallet"
                 else message error)
                (Some "destructive"))).

End WalletConnect.

(** ** The profile page (app/profile/page.tsx) *)
Module Profile.
Import Auth.

Record State := mkState {
  auth : World;
  web3 : Web3.State;
  linkedWallets : list string;
  isLinking : bool;
  error : string;
  toasts : list Toast
}.

Definition setLinkedWallets (l : list string) : M State unit :=
  modify (fun s => mkState (auth s) (web3 s) l (isLinking s) (error s) (toasts s)).
Definition setIsLinking (b : bool) : M State unit :=
  modify (fun s => mkState (auth s) (web3 s) (linkedWallets s) b (error s) (toasts s)).
Definition setError (e : string) : M State unit :=
  modify (fun s => mkState (auth s) (web3 s) (linkedWallets s) (isLinking s) e (toasts s)).
Definition toast (t : Toast) : M State unit :=
  modify (fun s => mkState (auth s) (web3 s) (linkedWallets s) (isLinking s) (error s) (toasts s ++ [t])).

(** A call into the auth context. *)
Definition lift {A} (m : M World A) : M State A :=
  fun s => let (a', r) := m (auth s) in
           (mkState a' (web3 s) (linkedWallets s) (isLinking s) (error s) (toasts s), r).

(** [getUserWallets] as obtained from one render: [user] is the session
    user of that render, whatever [setUser] has written since. *)
Definition getUserWallets_of (closure : option UserData) (env : Env) : M World (list string) :=
  (match closure with
   | None => ret []
   | Some user =>
     match walletAddresses user with
     | Some (w :: ws) => ret (w :: ws)
     | _ =>
       initialized <- isFirestoreInitialized env ;;
       if negb initialized then ret [] else
       try_catch
         (userSnap <- getDoc env (uid user) ;;
          match userSnap with
          | Some userData =>
              let wallets := default [] (d_walletAddresses userData) in
              (if bool_decide (0 < length wallets)%nat && negb (truthy (walletAddresses user))
               then setUser (Some (with_wallets user wallets))
               else ret tt) ;;;
              ret wallets
          | None => ret []
          end)
         (fun error =>
            console_error "Error getting user wallets:" ;;;
            _ <- handleFirestoreError error ;;
            ret (default [] (walletAddresses user)))
     end
   end)%js.

(** The effect [fetchWallets], run to completion at a render. *)
Definition fetchWallets (env : Env) : M State unit :=
  (user <- gets (fun s => user (auth s)) ;;
   match user with
   | Some _ =>
       wallets <- lift (getUserWallets env) ;;
       setLinkedWallets wallets
   | None => ret tt
   end)%js.

(** [handleLinkWallet]: both context functions are those of the render
    the handler was created in; [env_link] and [env_read] are the
    store as the two calls find it. *)
Definition handleLinkWallet (env_link env_read : Env) : M State unit :=
  (setError "" ;;;
   isConnected <- gets (fun s => Web3.isConnected (web3 s)) ;;
   if negb isConnected then
     toast (mkToast "Wallet not connected" "Please connect your wallet first"
              (Some "destructive"))
   else
     account <- gets (fun s => Web3.account (web3 s)) ;;
     closure <- gets (fun s => user (auth s)) ;;
     AuthFlows.finally
       (try_catch
          (setIsLinking true ;;;
           lift (linkWalletToUser env_link account) ;;;
           wallets <- lift (getUserWallets_of closure env_read) ;;
           setLinkedWallets wallets ;;;
           toast (mkToast "Wallet linked successfully"
                    "Your wallet has been linked to your account" None))
          (fun error => setError (message error)))
       (setIsLinking false))%js.

End Profile.

(** ** More concrete sessions *)
Module Examples.
Import Auth AuthFlows.

(** Every variable the environment check looks for is set. *)
Definition env_complete : gmap string string :=
  <["NEXT_PUBLIC_FIREBASE_API_KEY" := "k"]>
  (<["NEXT_PUBLIC_FIREBASE_AUTH_DOMAIN" := "etherflow.firebaseapp.com"]>
  (<["NEXT_PUBLIC_FIREBASE_PROJECT_ID" := "etherflow"]>
  (<["NEXT_PUBLIC_FIREBASE_STORAGE_BUCKET" := "etherflow.appspot.com"]>
  (<["NEXT_PUBLIC_FIREBASE_MESSAGING_SENDER_ID" := "1"]>
  (<["NEXT_PUBLIC_FIREBASE_APP_ID" := "1:1:web:1"]>
  (<["NEXT_PUBLIC_FIREBASE_MEASUREMENT_ID" := "G-1"]> ∅)))))).

(** The auth user behind [Scenario.u1]. *)
Definition ada : FirebaseUser :=
  mkFirebaseUser "u1" (Some "ada@example.org") (Some "Ada") None.

(** A working service that signs [ada] in. *)
Definition svc_ok : Service :=
  mkService true Scenario.env_ok (Ok ada) (Ok ada) (Ok tt).

(** The same service while the profile read is refused. *)
Definition svc_read_denied : Service :=
  mkService true Scenario.env_read_denied (Ok ada) (Ok ada) (Ok tt).

(** The provider before the first auth event, with [ada]'s document
    listing the given wallets. *)
Definition s_loading (l : list string) : Session :=
  mkSession (mkWorld {[ "u1" := Scenario.doc_u1 l ]} None None [] []) true [].

(** [ada] signed in with her profile loaded. *)
Definition s_signed_in (l : list string) : Session :=
  mkSession (mkWorld {[ "u1" := Scenario.doc_u1 l ]}
               (Some (with_wallets Scenario.u1 l)) None [] []) false [].

(** The wallet context with ["0xBBB"] connected. *)
Definition connected_BBB : Web3.State :=
  Web3.mkState "0xBBB" "1.5" true false true [] [].

(** The profile page over a session, with ["0xBBB"] connected and the
    given list on display. *)
Definition profile_page (a : World) (shown : list string) : Profile.State :=
  Profile.mkState a connected_BBB shown false "" [].

End Examples.

(** ** Facts about the helpers *)

Lemma includes_spec (l : list string) (x : string) :
  includes l x = true <-> x ∈ l.
Proof.
  induction l as [|y l IH]; simpl.
  - split; [discriminate | intros H; inversion H].
  - destruct (String.eqb_spec y x) as [->|Hne].
    + split; [intros _; left | reflexivity].
    + rewrite IH. split; [intros H; by right |].
      intros H. inversion H; subst; [congruence | done].
Qed.

Lemma includes_false (l : list string) (x : string) :
  includes l x = false <-> x ∉ l.
Proof.
  rewrite <- includes_spec. destruct (includes l x); split; congruence.
Qed.

Lemma occurrences_app (x : string) (l1 l2 : list string) :
  occurrences x (l1 ++ l2) = (occurrences x l1 + occurrences x l2)%nat.
Proof. unfold occurrences. by rewrite filter_app, length_app. Qed.

Lemma occurrences_absent (x : string) (l : list string) :
  x ∉ l -> occurrences x l = 0%nat.
Proof.
  unfold occurrences. induction l as [|y l IH]; intros Hx; [done|].
  rewrite filter_cons. apply not_elem_of_cons in Hx as [Hne Hx].
  destruct (decide (y = x)); [congruence | by apply IH].
Qed.

Lemma occurrences_self (x : string) : occurrences x [x] = 1%nat.
Proof.
  unfold occurrences. rewrite filter_cons.
  destruct (decide (x = x)); [done | congruence].
Qed.

Module AuthFacts.
Import Auth.

Ltac run_js :=
  unfold linkWalletToUser, getUserWallets, isFirestoreInitialized,
    handleFirestoreError, getDoc, setDoc, updateDoc, setUser,
    setFirestoreError, toast, console_error, try_catch, bind, ret,
    throw, gets, modify; simpl.

(** The document holds the address: the call changes nothing. *)
Lemma link_listed env w u d a :
  healthy env -> user w = Some u -> persisted w !! uid u = Some d ->
  a ∈ default [] (d_walletAddresses d) ->
  linkWalletToUser env a w = (w, Ok tt).
Proof.
  intros (Hdb & Hr & Hw) Hu Hd Ha. apply includes_spec in Ha.
  run_js. rewrite Hdb, Hr; simpl. rewrite Hu; simpl. rewrite Hd; simpl.
  rewrite Ha; simpl. reflexivity.
Qed.

(** The document lacks the address: one field is replaced and the
    session user mirrors it. *)
Lemma link_append env w u d a :
  healthy env -> user w = Some u -> persisted w !! uid u = Some d ->
  a ∉ default [] (d_walletAddresses d) ->
  linkWalletToUser env a w =
    (mkWorld
       (<[uid u := mkUserDoc (d_uid d) (d_email d) (d_displayName d) (d_photoURL d)
                     (Some (default [] (d_walletAddresses d) ++ [a])%list) (d_createdAt d)]>
          (persisted w))
       (Some (with_wallets u (default [] (d_walletAddresses d) ++ [a])%list))
       (firestoreError w) (toasts w) (console w),
     Ok tt).
Proof.
  intros (Hdb & Hr & Hw) Hu Hd Ha. apply includes_false in Ha.
  run_js. rewrite Hdb, Hr, Hw; simpl. rewrite Hu; simpl. rewrite Hd; simpl.
  rewrite Ha; simpl. rewrite Hd. reflexivity.
Qed.

(** No document: it is created. *)
Lemma link_create env w u a :
  healthy env -> user w = Some u -> persisted w !! uid u = None ->
  linkWalletToUser env a w =
    (mkWorld
       (<[uid u := mkUserDoc (uid u) (email u) (displayName u) (photoURL u)
                     (Some [a]) (Some (now env))]> (persisted w))
       (Some (with_wallets u [a]))
       (firestoreError w) (toasts w) (console w),
     Ok tt).
Proof.
  intros (Hdb & Hr & Hw) Hu Hd.
  run_js. rewrite Hdb, Hr, Hw; simpl. rewrite Hu; simpl. rewrite Hd; simpl.
  reflexivity.
Qed.

(** A listed address comes from an existing document. *)
Lemma persisted_wallets_listed w id :
  forall a, a ∈ persisted_wallets w id ->
    exists d, persisted w !! id = Some d /\ a ∈ default [] (d_walletAddresses d).
Proof.
  intros a. unfold persisted_wallets.
  destruct (persisted w !! id) as [d|]; [eauto | intros H; inversion H].
Qed.

(** In a healthy call the three cases collapse to one equation on the
    persisted list. *)
Lemma link_fresh env w u a :
  healthy env -> user w = Some u -> a ∉ persisted_wallets w (uid u) ->
  exists w',
    linkWalletToUser env a w = (w', Ok tt) /\
    persisted_wallets w' (uid u) = (persisted_wallets w (uid u) ++ [a])%list /\
    user w' = Some (with_wallets u (persisted_wallets w (uid u) ++ [a])%list).
Proof.
  intros Henv Hu Ha. unfold persisted_wallets in Ha |- *.
  destruct (persisted w !! uid u) as [d|] eqn:Hd.
  - eexists. split; [by apply (link_append env w u d a) |].
    simpl. by rewrite lookup_insert_eq.
  - eexists. split; [by apply link_create |].
    simpl. by rewrite lookup_insert_eq.
Qed.

(** [handleFirestoreError] never throws; its effects in closed form. *)
Lemma handleFirestoreError_ok error w :
  handleFirestoreError error w = (reported error w, Ok (errorMessage_of error)).
Proof.
  unfold reported, errorMessage_of, firestoreError_after. run_js.
  destruct (bool_decide (code error = Some "unavailable") || str_includes (message error) "offline");
    simpl; [reflexivity|].
  destruct (bool_decide (code error = Some "permission-denied"));
    simpl; [reflexivity|].
  destruct (bool_decide (code error = Some "not-found")); simpl; reflexivity.
Qed.

(** A failed read is caught and falls back to the session user. *)
Lemma link_read_fault env w u a error :
  db env = true -> user w = Some u -> getDoc_fault env = Some error ->
  linkWalletToUser env a w = (after_fault error u a w, Ok tt).
Proof.
  intros Hdb Hu Hr. unfold after_fault.
  unfold linkWalletToUser, isFirestoreInitialized, getDoc, bind, try_catch, gets, ret, throw.
  rewrite Hdb, Hr; simpl. rewrite Hu; simpl.
  rewrite handleFirestoreError_ok; simpl.
  destruct (includes (default [] (walletAddresses u)) a); simpl;
    unfold setUser, modify, reported; simpl; rewrite ?Hu; reflexivity.
Qed.

(** So is a failed write, whether it updates or creates the document. *)
Lemma link_write_fault env w u a error :
  db env = true -> user w = Some u -> getDoc_fault env = None ->
  write_fault env = Some error -> a ∉ persisted_wallets w (uid u) ->
  linkWalletToUser env a w = (after_fault error u a w, Ok tt).
Proof.
  intros Hdb Hu Hr Hw Ha. unfold after_fault.
  unfold persisted_wallets in Ha.
  unfold linkWalletToUser, isFirestoreInitialized, getDoc, updateDoc, setDoc,
    bind, try_catch, gets, ret, throw.
  rewrite Hdb, Hr, Hw; simpl. rewrite Hu; simpl.
  destruct (persisted w !! uid u) as [d|]; simpl.
  - apply includes_false in Ha. rewrite Ha; simpl.
    rewrite handleFirestoreError_ok; simpl.
    destruct (includes (default [] (walletAddresses u)) a); simpl;
      unfold setUser, modify, reported; simpl; rewrite ?Hu; reflexivity.
  - rewrite handleFirestoreError_ok; simpl.
    destruct (includes (default [] (walletAddresses u)) a); simpl;
      unfold setUser, modify, reported; simpl; rewrite ?Hu; reflexivity.
Qed.

(** What the fallback leaves behind. *)
Lemma after_fault_spec error u a w :
  user w = Some u ->
  let w' := after_fault error u a w in
  persisted w' = persisted w /\
  a ∈ session_wallets w' /\
  (a ∈ session_wallets w -> user w' = user w) /\
  (a ∉ session_wallets w -> session_wallets w' = (session_wallets w ++ [a])%list) /\
  toasts w' = (toasts w ++ [mkToast "Database Error" (errorMessage_of error)
                                     (Some "destructive")])%list /\
  console w' = (console w ++ ["Error accessing Firestore, updating local state only:";
                             "Firestore Error:"])%list.
Proof.
  intros Hu. unfold after_fault, reported, session_wallets. simpl. rewrite Hu.
  destruct (includes (default [] (walletAddresses u)) a) eqn:Hin; simpl; rewrite ?Hu.
  - apply includes_spec in Hin. repeat split; eauto.
    + intros Hn; contradiction.
    + by rewrite <- app_assoc.
  - apply includes_false in Hin. repeat split; eauto.
    + apply elem_of_app; right; by left.
    + intros Hn; contradiction.
    + by rewrite <- app_assoc.
Qed.

(** With [db] initialised and a user signed in, the call returns
    normally whatever the store does. *)
Lemma link_succeeds env w u a :
  db env = true -> user w = Some u -> snd (linkWalletToUser env a w) = Ok tt.
Proof.
  intros Hdb Hu.
  destruct (getDoc_fault env) as [error|] eqn:Hr.
  { by rewrite (link_read_fault env w u a error). }
  destruct (decide (a ∈ persisted_wallets w (uid u))) as [Hin|Hout].
  - destruct (persisted_wallets_listed _ _ _ Hin) as (d & Hd & Had).
    apply includes_spec in Had.
    run_js. rewrite Hdb, Hr; simpl. rewrite Hu; simpl. rewrite Hd; simpl.
    by rewrite Had.
  - destruct (write_fault env) as [error|] eqn:Hw.
    + by rewrite (link_write_fault env w u a error).
    + destruct (link_fresh env w u a) as (w' & E & _); [done..|]. by rewrite E.
Qed.

(** *** Linking twice *)

(** C1, as amended. When the persisted document already lists the
    address, [linkWalletToUser] succeeds and changes nothing: no write,
    and the session user is left as it was. Linking the same address
    twice against a working store makes the second call a no-op; when
    the persisted list did not hold the address before, both the
    persisted and the in-memory list end as the old persisted list
    followed by the address, which therefore occurs exactly once in
    each. *)
Theorem link_twice_same_address env1 env2 w u a :
  healthy env1 -> healthy env2 -> user w = Some u ->
  let w1 := fst (linkWalletToUser env1 a w) in
  let w2 := fst (linkWalletToUser env2 a w1) in
  snd (linkWalletToUser env1 a w) = Ok tt /\
  snd (linkWalletToUser env2 a w1) = Ok tt /\
  w2 = w1 /\
  (a ∈ persisted_wallets w (uid u) -> w1 = w) /\
  (a ∉ persisted_wallets w (uid u) ->
     persisted_wallets w2 (uid u) = (persisted_wallets w (uid u) ++ [a])%list /\
     session_wallets w2 = (persisted_wallets w (uid u) ++ [a])%list /\
     occurrences a (persisted_wallets w2 (uid u)) = 1%nat /\
     occurrences a (session_wallets w2) = 1%nat).
Proof.
  intros H1 H2 Hu.
  destruct (decide (a ∈ persisted_wallets w (uid u))) as [Hin|Hout].
  - destruct (persisted_wallets_listed _ _ _ Hin) as (d & Hd & Had).
    pose proof (link_listed env1 w u d a H1 Hu Hd Had) as E1.
    pose proof (link_listed env2 w u d a H2 Hu Hd Had) as E2.
    simpl. rewrite E1; simpl. rewrite E2; simpl.
    repeat split; try done.
  - destruct (link_fresh env1 w u a H1 Hu Hout) as (w1 & E1 & Hp1 & Hu1).
    simpl. rewrite E1; simpl.
    assert (Hin1 : a ∈ persisted_wallets w1 (uid u)).
    { rewrite Hp1. apply elem_of_app; right; by left. }
    destruct (persisted_wallets_listed _ _ _ Hin1) as (d & Hd & Had).
    pose proof (link_listed env2 w1 (with_wallets u (persisted_wallets w (uid u) ++ [a])) d a
                  H2 Hu1 Hd Had) as E2.
    rewrite E2; simpl.
    assert (Hs1 : session_wallets w1 = (persisted_wallets w (uid u) ++ [a])%list).
    { unfold session_wallets. by rewrite Hu1. }
    repeat split; try done.
    + rewrite Hp1, occurrences_app, occurrences_self, (occurrences_absent _ _ Hout). done.
    + rewrite Hs1, occurrences_app, occurrences_self, (occurrences_absent _ _ Hout). done.
Qed.

Lemma link_twice_same_address_witness :
  occurrences "0xBBB"
    (session_wallets
       (fst (linkWalletToUser Scenario.env_ok "0xBBB"
          (fst (linkWalletToUser Scenario.env_ok "0xBBB" (Scenario.w_minimal ["0xAAA"])))))) = 1%nat.
Proof.
  refine (proj2 (proj2 (proj2 (proj2 (proj2 (proj2 (proj2
    (link_twice_same_address Scenario.env_ok Scenario.env_ok
       (Scenario.w_minimal ["0xAAA"]) Scenario.u1 "0xBBB" _ _ _)) )) _)))).
  - repeat split.
  - repeat split.
  - reflexivity.
  - vm_compute. intros H. apply list_elem_of_In in H. simpl in H.
    destruct H as [H|[]]. discriminate H.
Defined.

(** C1 as stated fails: the document lists the address, both calls
    succeed without a write, and the in-memory list holds no entry for
    the address afterwards. *)
Lemma link_twice_memory_not_refreshed :
  let w := Scenario.w_minimal ["0xAAA"] in
  let w1 := fst (linkWalletToUser Scenario.env_ok "0xAAA" w) in
  let w2 := fst (linkWalletToUser Scenario.env_ok "0xAAA" w1) in
  "0xAAA" ∈ persisted_wallets w "u1" /\
  snd (linkWalletToUser Scenario.env_ok "0xAAA" w) = Ok tt /\
  snd (linkWalletToUser Scenario.env_ok "0xAAA" w1) = Ok tt /\
  occurrences "0xAAA" (persisted_wallets w2 "u1") = 1%nat /\
  occurrences "0xAAA" (session_wallets w2) = 0%nat /\
  occurrences "0xAAA" (session_wallets w2) <> 1%nat.
Proof.
  vm_compute. repeat split; try reflexivity.
  - left.
  - discriminate.
Qed.

(** *** Store failures *)

(** C2. When the read or the write inside [linkWalletToUser] fails, the
    call still returns normally; a "Database Error" toast and two
    console errors report the failure; the persisted collection is
    unchanged; the in-memory list holds the address afterwards: it is
    appended when it was missing, and the session user is left as it
    was when it was already there. *)
Theorem link_store_failure_falls_back env w u a error :
  db env = true -> user w = Some u -> store_fails env w u a error ->
  let w' := fst (linkWalletToUser env a w) in
  snd (linkWalletToUser env a w) = Ok tt /\
  persisted w' = persisted w /\
  a ∈ session_wallets w' /\
  (a ∈ session_wallets w -> user w' = user w) /\
  (a ∉ session_wallets w -> session_wallets w' = (session_wallets w ++ [a])%list) /\
  toasts w' = (toasts w ++ [mkToast "Database Error" (errorMessage_of error)
                                     (Some "destructive")])%list /\
  console w' = (console w ++ ["Error accessing Firestore, updating local state only:";
                             "Firestore Error:"])%list.
Proof.
  intros Hdb Hu Hfail.
  assert (E : linkWalletToUser env a w = (after_fault error u a w, Ok tt)).
  { destruct Hfail as [Hr | (Hr & Hw & Ha)].
    - by apply link_read_fault.
    - by apply link_write_fault. }
  simpl. rewrite E; simpl. split; [reflexivity|].
  by apply after_fault_spec.
Qed.

Lemma link_store_failure_falls_back_witness :
  "0xBBB" ∈ session_wallets
              (fst (linkWalletToUser Scenario.env_read_denied "0xBBB" Scenario.w_fresh)).
Proof.
  refine (proj1 (proj2 (proj2
    (link_store_failure_falls_back Scenario.env_read_denied Scenario.w_fresh Scenario.u1
       "0xBBB" Scenario.permission_denied _ _ _)))).
  - reflexivity.
  - reflexivity.
  - left. reflexivity.
Defined.

(** *** Linking two addresses *)

(** C4. For distinct addresses [A] and [B], neither in the persisted
    list, linking [A] and then [B] against a working store succeeds
    twice and leaves the persisted list as the old list followed by
    [A] and then [B]; the in-memory list mirrors it. *)
Theorem link_two_addresses_in_order env1 env2 w u A B :
  healthy env1 -> healthy env2 -> user w = Some u ->
  A <> B ->
  A ∉ persisted_wallets w (uid u) -> B ∉ persisted_wallets w (uid u) ->
  let w1 := fst (linkWalletToUser env1 A w) in
  let w2 := fst (linkWalletToUser env2 B w1) in
  snd (linkWalletToUser env1 A w) = Ok tt /\
  snd (linkWalletToUser env2 B w1) = Ok tt /\
  persisted_wallets w2 (uid u) = (persisted_wallets w (uid u) ++ [A; B])%list /\
  session_wallets w2 = (persisted_wallets w (uid u) ++ [A; B])%list.
Proof.
  intros H1 H2 Hu Hne HA HB.
  destruct (link_fresh env1 w u A H1 Hu HA) as (w1 & E1 & Hp1 & Hu1).
  simpl. rewrite E1; simpl.
  assert (HB1 : B ∉ persisted_wallets w1 (uid u)).
  { rewrite Hp1. intros Hin. apply elem_of_app in Hin as [Hin|Hin]; [done|].
    apply list_elem_of_singleton in Hin. congruence. }
  destruct (link_fresh env2 w1 (with_wallets u (persisted_wallets w (uid u) ++ [A])) B
              H2 Hu1 HB1) as (w2 & E2 & Hp2 & Hu2).
  simpl in E2, Hp2, Hu2. rewrite E2; simpl.
  rewrite Hp2, Hp1, <- app_assoc. repeat split; try done.
  unfold session_wallets. rewrite Hu2. simpl. by rewrite Hp1, <- app_assoc.
Qed.

Lemma link_two_addresses_in_order_witness :
  persisted_wallets
    (fst (linkWalletToUser Scenario.env_ok "0xCCC"
       (fst (linkWalletToUser Scenario.env_ok "0xBBB" (Scenario.w_minimal ["0xAAA"])))))
    "u1" = ["0xAAA"; "0xBBB"; "0xCCC"].
Proof.
  refine (proj1 (proj2 (proj2
    (link_two_addresses_in_order Scenario.env_ok Scenario.env_ok
       (Scenario.w_minimal ["0xAAA"]) Scenario.u1 "0xBBB" "0xCCC" _ _ _ _ _ _)))).
  - repeat split.
  - repeat split.
  - reflexivity.
  - discriminate.
  - vm_compute. intros H. apply list_elem_of_In in H. simpl in H.
    destruct H as [H|[]]. discriminate H.
  - vm_compute. intros H. apply list_elem_of_In in H. simpl in H.
    destruct H as [H|[]]. discriminate H.
Defined.

(** *** Creating the document *)

(** C6. When the signed-in user has no persisted document, a healthy
    [linkWalletToUser] creates it with uid, email, displayName and
    photoURL copied from the session user, the creation time, and the
    singleton list of the address; no other document changes, and the
    in-memory list becomes that singleton. *)
Theorem link_creates_missing_document env w u a :
  healthy env -> user w = Some u -> persisted w !! uid u = None ->
  let w' := fst (linkWalletToUser env a w) in
  snd (linkWalletToUser env a w) = Ok tt /\
  persisted w' =
    <[uid u := mkUserDoc (uid u) (email u) (displayName u) (photoURL u)
                 (Some [a]) (Some (now env))]> (persisted w) /\
  persisted_wallets w' (uid u) = [a] /\
  user w' = Some (mkUserData (uid u) (email u) (displayName u) (photoURL u) (Some [a])) /\
  session_wallets w' = [a].
Proof.
  intros Henv Hu Hd. simpl. rewrite (link_create env w u a Henv Hu Hd). simpl.
  repeat split. unfold persisted_wallets; simpl. by rewrite lookup_insert_eq.
Qed.

Lemma link_creates_missing_document_witness :
  persisted (fst (linkWalletToUser Scenario.env_ok "0xAAA" Scenario.w_fresh)) !! "u1"
  = Some (mkUserDoc "u1" (Some "ada@example.org") (Some "Ada") None (Some ["0xAAA"])
            (Some "2024-05-01T12:00:00.000Z")).
Proof.
  rewrite (proj1 (proj2
    (link_creates_missing_document Scenario.env_ok Scenario.w_fresh Scenario.u1 "0xAAA"
       ltac:(repeat split) eq_refl eq_refl))).
  reflexivity.
Defined.

(** *** Calling without a user *)

(** C8, as amended. A call made while nobody is signed in throws and
    changes neither the session user nor the persisted collection. With
    [db] initialised the error is "No user logged in" and nothing at
    all changes; without it the initialisation check comes first: the
    error is "Firestore is not initialized", and the state afterwards
    is the old one with the "Firestore Error" toast added and
    [firestoreError] set to the initialisation message. *)
Theorem link_without_user_fails env w a :
  user w = None ->
  let w' := fst (linkWalletToUser env a w) in
  succeeded (snd (linkWalletToUser env a w)) = false /\
  persisted w' = persisted w /\
  user w' = None /\
  (db env = true ->
     snd (linkWalletToUser env a w) = Throw (Error "No user logged in") /\ w' = w) /\
  (db env = false ->
     snd (linkWalletToUser env a w) = Throw (Error "Firestore is not initialized") /\
     w' = mkWorld (persisted w) None
            (Some "Firestore is not initialized. Check your environment variables.")
            (toasts w ++
             [mkToast "Firestore Error"
                "Firestore database is not properly initialized. Check your environment variables."
                (Some "destructive")])%list
            (console w)).
Proof.
  intros Hu. run_js. destruct (db env); simpl; rewrite ?Hu; simpl.
  - repeat split; try done.
  - repeat split; try done.
Qed.

Lemma link_without_user_fails_witness :
  snd (linkWalletToUser Scenario.env_ok "0xAAA" Scenario.w_signed_out)
  = Throw (Error "No user logged in").
Proof.
  exact (proj1 (proj1 (proj2 (proj2 (proj2
    (link_without_user_fails Scenario.env_ok Scenario.w_signed_out "0xAAA" eq_refl))))
    eq_refl)).
Defined.

(** C8 as stated fails: without an initialised [db] the error is not
    the not-authenticated one, and the provider's state has changed. *)
Lemma link_without_user_no_db :
  let r := linkWalletToUser Scenario.env_no_db "0xAAA" Scenario.w_signed_out in
  user Scenario.w_signed_out = None /\
  snd r = Throw (Error "Firestore is not initialized") /\
  snd r <> Throw (Error "No user logged in") /\
  firestoreError (fst r)
    = Some "Firestore is not initialized. Check your environment variables." /\
  fst r <> Scenario.w_signed_out.
Proof.
  vm_compute. repeat split; try reflexivity; discriminate.
Qed.

(** *** Reading the linked wallets *)

(** The five ways through [getUserWallets], one equation each. *)
Lemma wallets_no_user env w :
  user w = None -> getUserWallets env w = (w, Ok []).
Proof. intros Hu. run_js. by rewrite Hu. Qed.

Lemma wallets_populated env w u x xs :
  user w = Some u -> walletAddresses u = Some (x :: xs) ->
  getUserWallets env w = (w, Ok (x :: xs)).
Proof. intros Hu Hwa. run_js. rewrite Hu; simpl. by rewrite Hwa. Qed.

Lemma wallets_no_db env w u :
  user w = Some u -> default [] (walletAddresses u) = [] -> db env = false ->
  getUserWallets env w =
    (mkWorld (persisted w) (user w)
       (Some "Firestore is not initialized. Check your environment variables.")
       (toasts w ++ [mkToast "Firestore Error"
          "Firestore database is not properly initialized. Check your environment variables."
          (Some "destructive")])
       (console w),
     Ok []).
Proof.
  intros Hu Hwa Hdb. run_js. rewrite Hu; simpl.
  destruct (walletAddresses u) as [[|x xs]|]; try discriminate;
    rewrite Hdb; simpl; rewrite ?Hu; reflexivity.
Qed.

Lemma wallets_read env w u :
  user w = Some u -> default [] (walletAddresses u) = [] ->
  db env = true -> getDoc_fault env = None ->
  getUserWallets env w =
    (if bool_decide (0 < length (persisted_wallets w (uid u)))%nat
        && negb (truthy (walletAddresses u))
     then mkWorld (persisted w) (Some (with_wallets u (persisted_wallets w (uid u))))
                  (firestoreError w) (toasts w) (console w)
     else w,
     Ok (persisted_wallets w (uid u))).
Proof.
  intros Hu Hwa Hdb Hr. unfold persisted_wallets. run_js. rewrite Hu; simpl.
  destruct (walletAddresses u) as [[|x xs]|]; try discriminate;
    rewrite Hdb, Hr; simpl;
    destruct (persisted w !! uid u) as [d|]; simpl; try reflexivity.
  - by rewrite !andb_false_r.
  - rewrite !andb_true_r.
    destruct (bool_decide (0 < length (default [] (d_walletAddresses d)))%nat); reflexivity.
Qed.

Lemma wallets_read_fault env w u error :
  user w = Some u -> default [] (walletAddresses u) = [] ->
  db env = true -> getDoc_fault env = Some error ->
  getUserWallets env w =
    (reported error (fst (console_error "Error getting user wallets:" w)), Ok []).
Proof.
  intros Hu Hwa Hdb Hr.
  unfold getUserWallets, isFirestoreInitialized, getDoc, bind, try_catch, gets, ret, throw.
  rewrite Hu; simpl.
  destruct (walletAddresses u) as [[|x xs]|]; try discriminate;
    rewrite Hdb, Hr; simpl; rewrite handleFirestoreError_ok; reflexivity.
Qed.

(** C5, as amended. [getUserWallets] always returns a list and never
    writes to the store. Without a user it returns the empty list; a
    non-empty in-memory list is returned as it is, whatever the store
    would answer; otherwise, with [db] missing it returns the empty
    list, on a successful read it returns the persisted list, and when
    that list is non-empty and the session user holds no list at all it
    is stored in the session user; on a failed read it reports the
    error and returns the in-memory list, which is empty here. *)
Theorem getUserWallets_never_throws env w :
  let r := getUserWallets env w in
  (exists l, snd r = Ok l) /\
  persisted (fst r) = persisted w /\
  (user w = None -> r = (w, Ok [])) /\
  (forall u x xs, user w = Some u -> walletAddresses u = Some (x :: xs) ->
     r = (w, Ok (x :: xs))) /\
  (forall u, user w = Some u -> default [] (walletAddresses u) = [] ->
     (db env = false -> snd r = Ok []) /\
     (db env = true -> getDoc_fault env = None ->
        snd r = Ok (persisted_wallets w (uid u)) /\
        toasts (fst r) = toasts w /\ console (fst r) = console w /\
        (walletAddresses u = None -> persisted_wallets w (uid u) <> [] ->
           user (fst r) = Some (with_wallets u (persisted_wallets w (uid u))))) /\
     (forall error, db env = true -> getDoc_fault env = Some error ->
        snd r = Ok [] /\ user (fst r) = user w /\
        toasts (fst r) = (toasts w ++ [mkToast "Database Error" (errorMessage_of error)
                                               (Some "destructive")])%list /\
        console (fst r) = (console w ++ ["Error getting user wallets:";
                                         "Firestore Error:"])%list)).
Proof.
  simpl. destruct (user w) as [u|] eqn:Hu.
  2: { rewrite (wallets_no_user env w Hu). simpl. split_and!; eauto; intros; simplify_eq. }
  destruct (walletAddresses u) as [[|x xs]|] eqn:Hwa.
  2: { rewrite (wallets_populated env w u x xs Hu Hwa). simpl.
       split_and!; eauto; intros; simplify_eq; try done.
       all: match goal with H : default _ (walletAddresses _) = [] |- _ =>
              rewrite Hwa in H; discriminate H end. }
  all: assert (Hempty : default [] (walletAddresses u) = []) by (by rewrite Hwa).
  all: destruct (db env) eqn:Hdb;
    [ destruct (getDoc_fault env) as [error|] eqn:Hr;
      [ rewrite (wallets_read_fault env w u error Hu Hempty Hdb Hr)
      | rewrite (wallets_read env w u Hu Hempty Hdb Hr) ]
    | rewrite (wallets_no_db env w u Hu Hempty Hdb) ].
  all: rewrite ?Hwa; simpl; rewrite ?andb_false_r, ?andb_true_r.
  all: try (destruct (persisted_wallets w (uid u)) as [|y ys] eqn:Hl; simpl).
  all: split_and!; eauto; intros; simplify_eq;
    repeat (split_and!; intros; simplify_eq);
    rewrite ?Hl, ?Hu; simpl; rewrite <- ?app_assoc; try done.
Qed.

Lemma getUserWallets_never_throws_witness :
  snd (getUserWallets Scenario.env_ok (Scenario.w_minimal ["0xAAA"])) = Ok ["0xAAA"] /\
  session_wallets (fst (getUserWallets Scenario.env_ok (Scenario.w_minimal ["0xAAA"])))
  = ["0xAAA"].
Proof.
  destruct (getUserWallets_never_throws Scenario.env_ok (Scenario.w_minimal ["0xAAA"]))
    as (_ & _ & _ & _ & H).
  destruct (H Scenario.u1 eq_refl eq_refl) as (_ & Hread & _).
  destruct (Hread eq_refl eq_refl) as (Hres & _ & _ & Hcache).
  split; [exact Hres|].
  unfold session_wallets. rewrite (Hcache eq_refl ltac:(discriminate)). reflexivity.
Defined.

(** C5 as stated fails: with an empty list in memory the persisted list
    is read and returned but not kept; the session user is unchanged
    and the next call needs the store again. *)
Lemma getUserWallets_not_cached :
  let w := Scenario.w_empty_list ["0xAAA"] in
  let r := getUserWallets Scenario.env_ok w in
  snd r = Ok ["0xAAA"] /\
  fst r = w /\
  session_wallets (fst r) = [] /\
  snd (getUserWallets Scenario.env_read_denied (fst r)) = Ok [].
Proof. vm_compute. repeat split. Qed.

End AuthFacts.

(** ** Rounding to a double *)
Module JsNumberFacts.
Import JsNumber.
Local Open Scope Z_scope.

(** [rne n d] is an integer nearest to [n / d]. *)
Lemma rne_nearest (n d : Z) :
  0 <= n -> 0 < d -> 2 * Z.abs (rne n d * d - n) <= d.
Proof.
  intros Hn Hd. unfold rne.
  pose proof (Z.div_mod n d ltac:(lia)) as Hdm.
  pose proof (Z.mod_pos_bound n d Hd) as Hr.
  set (q := n / d) in *. set (r := n mod d) in *.
  destruct (Z.ltb_spec (2 * r) d); [nia|].
  destruct (Z.ltb_spec d (2 * r)); [nia|].
  destruct (Z.even q); nia.
Qed.

Lemma rne_monotone_bound (n d b : Z) :
  0 <= n -> 0 < d -> n <= b * d -> rne n d <= b.
Proof.
  intros Hn Hd Hb. unfold rne.
  pose proof (Z.div_mod n d ltac:(lia)) as Hdm.
  pose proof (Z.mod_pos_bound n d Hd) as Hr.
  set (q := n / d) in *. set (r := n mod d) in *.
  assert (Hq : q <= b) by nia.
  assert (Hlt : q = b -> r = 0) by nia.
  destruct (Z.ltb_spec (2 * r) d); [lia|].
  destruct (Z.ltb_spec d (2 * r)); [|destruct (Z.even q)]; nia.
Qed.

Lemma below_mono (n d t t' : Z) :
  0 < n -> 0 < d -> t <= t' -> below n d t -> below n d t'.
Proof.
  unfold below. intros Hn Hd Ht H.
  destruct (Z.le_gt_cases 0 t) as [H0|H0].
  - rewrite (Z.max_l 0 (- t)), (Z.max_r 0 t) in H by lia.
    rewrite (Z.max_l 0 (- t')), (Z.max_r 0 t') by lia.
    pose proof (Z.pow_le_mono_r 2 t t' ltac:(lia) Ht).
    change (2 ^ 0) with 1 in *. nia.
  - rewrite (Z.max_r 0 (- t)), (Z.max_l 0 t) in H by lia.
    change (2 ^ 0) with 1 in H.
    destruct (Z.le_gt_cases 0 t') as [H1|H1].
    + rewrite (Z.max_l 0 (- t')), (Z.max_r 0 t') by lia. change (2 ^ 0) with 1.
      assert (0 < 2 ^ (- t)) by (apply Z.pow_pos_nonneg; lia).
      assert (0 < 2 ^ t') by (apply Z.pow_pos_nonneg; lia). nia.
    + rewrite (Z.max_r 0 (- t')), (Z.max_l 0 t') by lia. change (2 ^ 0) with 1.
      pose proof (Z.pow_le_mono_r 2 (- t') (- t) ltac:(lia) ltac:(lia)).
      assert (0 < 2 ^ (- t')) by (apply Z.pow_pos_nonneg; lia). nia.
Qed.

(** [floor_log2 n d] is above the binary logarithm of the quotient by
    less than one. *)
Lemma floor_log2_below (n d : Z) :
  0 < n -> 0 < d -> below n d (floor_log2 n d + 1).
Proof.
  intros Hn Hd. unfold floor_log2, scaled_le.
  pose proof (Z.log2_spec n Hn) as [_ Hna].
  pose proof (Z.log2_spec d Hd) as [Hdb _].
  pose proof (Z.log2_nonneg n) as Ha. pose proof (Z.log2_nonneg d) as Hb.
  set (a := Z.log2 n) in *. set (b := Z.log2 d) in *.
  destruct (Z.leb_spec 0 (a - b)) as [Hk|Hk].
  - destruct (Z.leb_spec (d * 2 ^ (a - b)) n) as [_|Hlt]; unfold below.
    + rewrite Z.max_l, Z.max_r by lia. change (2 ^ 0) with 1.
      replace (Z.succ a) with (b + (a - b + 1)) in Hna by lia.
      rewrite Z.pow_add_r in Hna by lia.
      assert (0 < 2 ^ (a - b + 1)) by (apply Z.pow_pos_nonneg; lia). nia.
    + replace (a - b - 1 + 1) with (a - b) by lia.
      rewrite Z.max_l, Z.max_r by lia. change (2 ^ 0) with 1. lia.
  - destruct (Z.leb_spec d (n * 2 ^ (- (a - b)))) as [_|Hlt]; unfold below.
    + destruct (Z.eq_dec (a - b) (-1)) as [E|E].
      * rewrite E. change (-1 + 1) with 0.
        replace (Z.max 0 (- 0)) with 0 by lia. replace (Z.max 0 0) with 0 by lia.
        change (2 ^ 0) with 1.
        replace (Z.succ a) with b in Hna by lia. lia.
      * rewrite Z.max_r, Z.max_l by lia. change (2 ^ 0) with 1.
        replace (Z.succ a) with ((a + 1) + 0) in Hna by lia.
        assert (E2 : 2 ^ b = 2 ^ (a + 1) * 2 ^ (- (a - b + 1))).
        { rewrite <- Z.pow_add_r by lia. f_equal. lia. }
        rewrite Z.add_0_r in Hna.
        assert (0 < 2 ^ (- (a - b + 1))) by (apply Z.pow_pos_nonneg; lia). nia.
    + replace (a - b - 1 + 1) with (a - b) by lia.
      rewrite Z.max_r, Z.max_l by lia. change (2 ^ 0) with 1. lia.
Qed.

(** A finite result of [round] lies within half a unit in the last
    place of [n / d], and its significand does not exceed [2^53]. *)
Lemma round_nearest (s : bool) (n d m e : Z) :
  0 < n -> 0 < d -> round s n d = Finite s m e ->
  -1074 <= e /\ m <= 2 ^ 53 /\
  (if 0 <=? e then 2 * Z.abs (m * (d * 2 ^ e) - n) <= d * 2 ^ e
   else 2 * Z.abs (m * d - n * 2 ^ (- e)) <= d).
Proof.
  intros Hn Hd. unfold round.
  destruct (Z.eqb_spec n 0); [lia|].
  set (e0 := Z.max (floor_log2 n d - 52) (-1074)).
  assert (Hbelow : below n d (e0 + 53)).
  { apply (below_mono n d (floor_log2 n d + 1)); [done | done | unfold e0; lia |].
    by apply floor_log2_below. }
  unfold below in Hbelow.
  destruct (Z.leb_spec 0 e0) as [He|He]; simpl.
  - destruct (2 ^ 1024 <=? rne n (d * 2 ^ e0) * 2 ^ e0); [discriminate|].
    intros [= <- <-]. split; [lia|].
    assert (0 < 2 ^ e0) by (apply Z.pow_pos_nonneg; lia).
    split.
    + apply rne_monotone_bound; [lia | nia |].
      rewrite Z.max_l, Z.max_r in Hbelow by lia. change (2 ^ 0) with 1 in Hbelow.
      rewrite Z.pow_add_r in Hbelow by lia. nia.
    + destruct (Z.leb_spec 0 e0); [|lia]. apply rne_nearest; [lia | nia].
  - intros [= <- <-]. split; [lia|].
    assert (0 < 2 ^ (- e0)) by (apply Z.pow_pos_nonneg; lia).
    split.
    + apply rne_monotone_bound; [nia | lia |].
      destruct (Z.le_gt_cases 0 (e0 + 53)) as [H53|H53].
      * rewrite Z.max_l, Z.max_r in Hbelow by lia. change (2 ^ 0) with 1 in Hbelow.
        assert (E : 2 ^ 53 = 2 ^ (e0 + 53) * 2 ^ (- e0)).
        { rewrite <- Z.pow_add_r by lia. f_equal. lia. }
        rewrite E. nia.
      * rewrite Z.max_r, Z.max_l in Hbelow by lia. change (2 ^ 0) with 1 in Hbelow.
        assert (E : 2 ^ (- e0) = 2 ^ (- (e0 + 53)) * 2 ^ 53).
        { rewrite <- Z.pow_add_r by lia. f_equal. lia. }
        rewrite E. nia.
    + destruct (Z.leb_spec 0 e0); [lia|]. apply rne_nearest; [nia | lia].
Qed.

End JsNumberFacts.

(** ** The wallet session adapter *)
Module Web3Facts.
Import Web3.

Ltac run_web3 :=
  unfold handleAccountsChanged, connectWallet, disconnectWallet, initProvider,
    refreshBalance, detached, finally, request, setAccount, setBalance,
    setIsConnected, setIsConnecting, setProvider, called, console_error,
    try_catch, bind, ret, throw, gets, modify; simpl.

Lemma eqb_empty (a : string) : String.eqb a "" = false <-> a <> "".
Proof. destruct (String.eqb_spec a ""); split; congruence. Qed.

(** [refreshBalance] writes nothing but the balance and the logs. *)
Lemma refreshBalance_frame c w s :
  let s' := fst (refreshBalance c w s) in
  account s' = account s /\ isConnected s' = isConnected s /\
  isConnecting s' = isConnecting s /\ provider s' = provider s /\
  calls s' = (calls s ++ [RefreshBalance])%list.
Proof.
  run_web3. destruct (negb (c_provider c) || String.eqb (c_account c) ""); simpl.
  - repeat split.
  - destruct (getBalance w (c_account c)); simpl; repeat split.
Qed.

Lemma consistent_frame s s' :
  account s' = account s -> isConnected s' = isConnected s ->
  balance s' = balance s -> consistent s -> consistent s'.
Proof. unfold consistent. intros -> -> ->. done. Qed.

Lemma consistent_refresh c w s :
  isConnected s = true -> consistent s -> consistent (fst (refreshBalance c w s)).
Proof.
  intros Hc [Hiff _]. destruct (refreshBalance_frame c w s) as (Ha & Hi & _).
  unfold consistent. rewrite Ha, Hi. split; [done | congruence].
Qed.

(** *** Account-change notifications *)

(** The refresh a notification starts reads the balance of the account
    the handler was created with, not of the address just reported. *)
Lemma accounts_changed_refresh_uses_closure c w s a rest b :
  a <> c_account c -> c_provider c = true -> c_account c <> "" ->
  getBalance w (c_account c) = Ok b ->
  balance (fst (handleAccountsChanged c w (a :: rest) s)) = b.
Proof.
  intros Hne Hp Hc Hb. unfold handleAccountsChanged.
  destruct (String.eqb_spec a (c_account c)) as [|_]; [done|]. simpl.
  apply eqb_empty in Hc. run_web3. rewrite Hp, Hc, Hb. reflexivity.
Qed.

(** *** The invariant *)

Lemma consistent_disconnect s : consistent (fst (disconnectWallet s)).
Proof. run_web3. split; simpl; [split; [discriminate | done] | done]. Qed.

Lemma consistent_accounts_changed c w accounts s :
  reports_addresses (Ok accounts) -> consistent s ->
  consistent (fst (handleAccountsChanged c w accounts s)).
Proof.
  intros Hok Hs. destruct accounts as [|a rest].
  - run_web3. split; simpl; [split; [discriminate | done] | done].
  - simpl in Hok. unfold handleAccountsChanged.
    destruct (String.eqb a (c_account c)); simpl; [exact Hs|].
    unfold bind, detached, setAccount, setIsConnected, modify. simpl.
    apply consistent_refresh; [reflexivity|].
    split; simpl; [split; done | discriminate].
Qed.

Lemma consistent_connect c w s :
  reports_addresses (eth_requestAccounts w) -> consistent s ->
  consistent (fst (connectWallet c w s)).
Proof.
  intros Hok Hs. unfold connectWallet.
  destruct (metamask w); simpl; [|exact Hs].
  unfold finally, try_catch, bind, request, setIsConnecting, setAccount,
    setIsConnected, modify, throw, ret. simpl.
  destruct (eth_requestAccounts w) as [[|a rest]|error]; simpl in *.
  - eapply consistent_frame; [..|exact Hs]; reflexivity.
  - match goal with |- context [refreshBalance c w ?s0] =>
      pose proof (consistent_refresh c w s0 eq_refl) as Hr;
      destruct (refreshBalance c w s0) as [s1 [[]|e]] end; simpl in *.
    + eapply consistent_frame; [..|apply Hr]; try reflexivity.
      split; simpl; [split; done | discriminate].
    + destruct (bool_decide (code e = Some "4001")); simpl;
        (eapply consistent_frame; [..|apply Hr]; try reflexivity;
         split; simpl; [split; done | discriminate]).
  - destruct (bool_decide (code error = Some "4001")); simpl;
      (eapply consistent_frame; [..|exact Hs]; reflexivity).
Qed.

Lemma consistent_initialize w s :
  reports_addresses (eth_accounts w) -> consistent s ->
  consistent (fst (initProvider w s)).
Proof.
  intros Hok Hs. unfold initProvider.
  destruct (metamask w); simpl; [|exact Hs].
  destruct (ethers w); run_web3;
    try (by apply (consistent_frame s));
    (destruct (eth_accounts w) as [[|a rest]|error]; simpl in *;
     [ by apply (consistent_frame s)
     | destruct (getBalance w a); simpl;
         (split; simpl; [split; done | discriminate])
     | by apply (consistent_frame s) ]).
Qed.

(** *** Amounts *)

Import JsNumber.
Local Open Scope Z_scope.

Lemma digits_value_acc (ds : list ascii) (acc : Z) :
  fold_left (fun acc c => 10 * acc + digit_value c) ds acc
  = acc * 10 ^ Z.of_nat (length ds) + digits_value ds.
Proof.
  unfold digits_value. revert acc.
  induction ds as [|c ds IH]; intros acc; simpl fold_left.
  - simpl. lia.
  - rewrite IH, (IH (10 * 0 + digit_value c)).
    rewrite length_cons, Nat2Z.inj_succ, Z.pow_succ_r by lia. lia.
Qed.

Lemma digits_value_cons (c : ascii) (ds : list ascii) :
  digits_value (c :: ds) = digit_value c * 10 ^ Z.of_nat (length ds) + digits_value ds.
Proof.
  unfold digits_value at 1. simpl fold_left. rewrite digits_value_acc. lia.
Qed.

Lemma digits_value_app (a b : list ascii) :
  digits_value (a ++ b) = digits_value a * 10 ^ Z.of_nat (length b) + digits_value b.
Proof.
  unfold digits_value at 1. rewrite fold_left_app.
  fold (digits_value a). apply digits_value_acc.
Qed.

Lemma digit_zero (c : ascii) : Ascii.eqb c "0" = true -> digit_value c = 0.
Proof. intros H. apply Ascii.eqb_eq in H. by subst. Qed.

(** Dropping trailing zeros divides by a power of ten. *)
Lemma drop_trailing_zeros_value (ds : list ascii) :
  (length (drop_trailing_zeros ds) <= length ds)%nat /\
  digits_value ds
  = digits_value (drop_trailing_zeros ds)
    * 10 ^ (Z.of_nat (length ds) - Z.of_nat (length (drop_trailing_zeros ds))).
Proof.
  induction ds as [|c ds [IHl IHv]]; [simpl; split; [lia | reflexivity]|].
  simpl drop_trailing_zeros.
  destruct (drop_trailing_zeros ds) as [|d r] eqn:Hr.
  - destruct (Ascii.eqb c "0") eqn:Hc.
    + split; [simpl; lia|].
      rewrite digits_value_cons, IHv, (digit_zero c Hc).
      unfold digits_value; simpl. lia.
    + split; [simpl; lia|].
      rewrite digits_value_cons, IHv. simpl length.
      replace (Z.of_nat (S (length ds)) - Z.of_nat 1) with (Z.of_nat (length ds)) by lia.
      rewrite (digits_value_cons c []). unfold digits_value; simpl. lia.
  - split; [simpl in *; lia|].
    rewrite digits_value_cons, IHv, (digits_value_cons c (d :: r)).
    simpl length in *.
    replace (Z.of_nat (S (length ds)) - Z.of_nat (S (S (length r))))
      with (Z.of_nat (length ds) - Z.of_nat (S (length r))) by lia.
    set (j := Z.of_nat (length ds) - Z.of_nat (S (length r))).
    assert (Hj : 0 <= j) by (unfold j; lia).
    replace (Z.of_nat (length ds)) with (Z.of_nat (S (length r)) + j) by (unfold j; lia).
    rewrite Z.pow_add_r by lia. ring.
Qed.

Lemma span_digits_all (l : list ascii) :
  forallb is_digit (fst (span_digits l)) = true.
Proof.
  induction l as [|c l IH]; simpl; [done|].
  destruct (is_digit c) eqn:Hc; [|done].
  destruct (span_digits l) as [ds rest]. simpl in *. by rewrite Hc.
Qed.

Lemma digit_value_nonneg (c : ascii) : is_digit c = true -> 0 <= digit_value c.
Proof.
  unfold is_digit, digit_value. intros H. apply andb_true_iff in H as [H _].
  apply N.leb_le in H. lia.
Qed.

Lemma digits_value_nonneg (ds : list ascii) :
  forallb is_digit ds = true -> 0 <= digits_value ds.
Proof.
  induction ds as [|c ds IH]; intros H; [unfold digits_value; simpl; lia|].
  simpl in H. apply andb_true_iff in H as [Hc Hds].
  rewrite digits_value_cons. pose proof (digit_value_nonneg c Hc).
  specialize (IH Hds). nia.
Qed.

Lemma digit_not_minus (c : ascii) : is_digit c = true -> Ascii.eqb c "-" = false.
Proof.
  intros H. destruct (Ascii.eqb_spec c "-") as [->|]; [discriminate H | done].
Qed.

(** On a plain decimal string with at most 18 fractional digits the
    library helper returns the exact number of wei. *)
Lemma ethers_parseEther_exact (s : string) (n : Z) (k : nat) :
  decimal s = Some (n, k) -> (k <= 18)%nat ->
  ethers_parseEther s = Some (n * 10 ^ (18 - Z.of_nat k)) /\ 0 <= n.
Proof.
  unfold decimal, ethers_parseEther.
  destruct (String.list_ascii_of_string s) as [|c0 l0] eqn:Hl; [simpl; discriminate|].
  pose proof (span_digits_all (c0 :: l0)) as Hall.
  destruct (span_digits (c0 :: l0)) as [whole rest] eqn:Hspan.
  destruct whole as [|w ws]; [discriminate|].
  assert (Hc0 : is_digit c0 = true).
  { simpl in Hspan. destruct (is_digit c0); [done|]. discriminate Hspan. }
  rewrite (digit_not_minus c0 Hc0), Hspan. simpl in Hall.
  destruct rest as [|c r].
  - intros [= <- <-] _. simpl drop_trailing_zeros. simpl length.
    split; [|by apply (digits_value_nonneg (w :: ws))].
    f_equal. unfold digits_value at 2. simpl. lia.
  - destruct (Ascii.eqb c "."); [|discriminate].
    pose proof (span_digits_all r) as Hall'.
    destruct (span_digits r) as [[|f fs] [|x rest']]; try discriminate.
    intros [= <- <-] Hk. simpl in Hall'.
    destruct (drop_trailing_zeros_value (f :: fs)) as [Hlen Hval].
    set (fs' := drop_trailing_zeros (f :: fs)) in *.
    change (S (length fs)) with (length (f :: fs)) in *.
    change (w :: ws ++ f :: fs)%list with ((w :: ws) ++ f :: fs)%list.
    assert (Hle : (Z.of_nat (length fs') <= 18)) by lia.
    destruct (18 <? length fs')%nat eqn:Hlt; [apply Nat.ltb_lt in Hlt; lia|].
    split.
    + f_equal. rewrite digits_value_app, Hval.
      set (a := Z.of_nat (length (f :: fs))) in *.
      set (b := Z.of_nat (length fs')) in *.
      assert (0 <= b <= a) by (unfold a, b; lia).
      assert (a <= 18) by (unfold a; lia).
      replace (10 ^ 18) with (10 ^ a * 10 ^ (18 - a))
        by (rewrite <- Z.pow_add_r by lia; f_equal; lia).
      replace (10 ^ (18 - b)) with (10 ^ (a - b) * 10 ^ (18 - a))
        by (rewrite <- Z.pow_add_r by lia; f_equal; lia).
      ring.
    + rewrite digits_value_app.
      pose proof (digits_value_nonneg (w :: ws) Hall).
      pose proof (digits_value_nonneg (f :: fs) Hall').
      assert (0 < 10 ^ Z.of_nat (length (f :: fs))) by (apply Z.pow_pos_nonneg; lia).
      nia.
Qed.

Lemma of_pos_hex (p : positive) (rest : string) :
  all_hex (HexString.Raw.of_pos p rest) = all_hex rest /\
  HexString.Raw.of_pos p rest <> EmptyString.
Proof.
  remember (Pos.to_nat p) as n eqn:Hn. revert p Hn rest.
  induction n as [n IH] using lt_wf_ind. intros p Hn rest.
  do 4 (try destruct p as [p|p|]); cbn [HexString.Raw.of_pos];
    try (split; [reflexivity | discriminate]);
    (match goal with |- context [HexString.Raw.of_pos p ?r] =>
       destruct (IH (Pos.to_nat p) ltac:(lia) p eq_refl r) as [-> Hne] end;
     split; [reflexivity | exact Hne]).
Qed.

Lemma hex_digits_spec (z : Z) :
  0 <= z ->
  all_hex (hex_digits z) = true /\ hex_digits z <> EmptyString /\
  HexString.Raw.to_N (hex_digits z) 0 = Z.to_N z.
Proof.
  intros Hz. destruct z as [|p|p]; [by repeat split | | lia].
  simpl. destruct (of_pos_hex p "") as [Hall Hne].
  split_and!; [by rewrite Hall | done |].
  by rewrite HexString.Raw.to_N_of_pos.
Qed.

Lemma hex_quantity_digits (ds : string) :
  all_hex ds = true -> ds <> EmptyString ->
  hex_quantity ("0x" ++ ds) = Some (Z.of_N (HexString.Raw.to_N ds 0)).
Proof.
  intros Hall Hne. destruct ds as [|a ds]; [done|].
  change ("0x" ++ String a ds)%string with (String "0" (String "x" (String a ds))).
  unfold hex_quantity. by rewrite Hall.
Qed.

(** Both ways of printing a non-negative integer read back as it. *)
Lemma hex_quantity_toHexString (z : Z) :
  0 <= z -> hex_quantity (toHexString z) = Some z.
Proof.
  intros Hz. unfold toHexString.
  destruct (Z.ltb_spec z 0); [lia|]. rewrite Z.abs_eq by lia.
  destruct (hex_digits_spec z Hz) as (Hall & Hne & Hv).
  change (("" ++ "0x" ++ ?x)%string) with (("0x" ++ x)%string).
  destruct (Nat.even (String.length (hex_digits z))).
  - rewrite hex_quantity_digits, Hv by done. f_equal. lia.
  - rewrite hex_quantity_digits; [| exact Hall | discriminate].
    change (HexString.Raw.to_N ("0" ++ hex_digits z) 0)
      with (HexString.Raw.to_N (hex_digits z) 0).
    rewrite Hv. f_equal. lia.
Qed.

Lemma hex_quantity_bigint (z : Z) :
  0 <= z -> hex_quantity ("0x" ++ bigint_toString16 z) = Some z.
Proof.
  intros Hz. unfold bigint_toString16.
  destruct (Z.ltb_spec z 0); [lia|]. rewrite Z.abs_eq by lia.
  destruct (hex_digits_spec z Hz) as (Hall & Hne & Hv).
  change (("" ++ ?x)%string) with x.
  rewrite hex_quantity_digits, Hv by done. f_equal. lia.
Qed.

(** C9, as amended. With a library helper the value sent is exact: for
    a plain decimal amount [n / 10^k] with at most 18 fractional
    digits, the hexadecimal quantity in the request denotes
    [n * 10^(18-k)], for every amount with the v5 helper and for those
    below [2^511] wei with the v6 helper. Without a helper, when the
    helper rejects the amount, or when the v6 helper overflows (from
    [2^511] wei on), the value is the double-precision product
    [Number(amount) * 1e18], floored and printed in base 16. In each
    case this is the [value] field of the request [sendTransaction]
    submits. *)
Theorem transfer_value_conversion :
  (forall large lib s n k,
     lib <> NoHelpers -> decimal s = Some (n, k) -> (k <= 18)%nat ->
     lib = EthersV5 \/ n * 10 ^ (18 - Z.of_nat k) < 2 ^ 511 ->
     hex_quantity (valueInHex large lib s) = Some (n * 10 ^ (18 - Z.of_nat k))) /\
  (forall large lib s,
     lib = NoHelpers \/ ethers_parseEther s = None ->
     valueInHex large lib s
     = ("0x" ++ toString16 large (floor (mul (Number s) _1e18)))%string) /\
  (forall large s n k,
     decimal s = Some (n, k) -> (k <= 18)%nat -> 2 ^ 511 <= n * 10 ^ (18 - Z.of_nat k) ->
     valueInHex large EthersV6 s
     = ("0x" ++ toString16 large (floor (mul (Number s) _1e18)))%string) /\
  (forall c w to amount st,
     c_account c <> "" ->
     SendTransaction (mkTx to (c_account c) (valueInHex (radix16 w) (ethers w) amount) "0x5208")
       ∈ calls (fst (sendTransaction c w to amount st))).
Proof.
  split_and!.
  - intros large lib s n k Hlib Hdec Hk Hfit.
    destruct (ethers_parseEther_exact s n k Hdec Hk) as [Hparse Hn].
    assert (Hwei : 0 <= n * 10 ^ (18 - Z.of_nat k)).
    { apply Z.mul_nonneg_nonneg; [done|]. apply Z.pow_nonneg. lia. }
    unfold valueInHex, parseEther. destruct lib; [| |done]; rewrite Hparse.
    + by apply hex_quantity_toHexString.
    + destruct Hfit as [Hfit | Hfit]; [discriminate|].
      assert (Hfits : fits_fixed (n * 10 ^ (18 - Z.of_nat k)) = true).
      { unfold fits_fixed. apply andb_true_iff. split; [apply Z.leb_le | apply Z.ltb_lt]; lia. }
      rewrite Hfits. by apply hex_quantity_bigint.
  - intros large lib s [->|Hnone]; [reflexivity|].
    unfold valueInHex, parseEther. destruct lib; rewrite ?Hnone; reflexivity.
  - intros large s n k Hdec Hk Hbig.
    destruct (ethers_parseEther_exact s n k Hdec Hk) as [Hparse Hn].
    unfold valueInHex, parseEther. rewrite Hparse.
    assert (Hfits : fits_fixed (n * 10 ^ (18 - Z.of_nat k)) = false).
    { unfold fits_fixed. apply andb_false_iff. right. apply Z.ltb_ge. lia. }
    by rewrite Hfits.
  - intros c w to amount st Hc. apply eqb_empty in Hc.
    unfold sendTransaction. rewrite Hc.
    unfold try_catch, bind, called, modify, request. simpl.
    set (tx := mkTx to (c_account c) (valueInHex (radix16 w) (ethers w) amount) "0x5208").
    assert (Hin : SendTransaction tx ∈ (calls st ++ [SendTransaction tx])%list).
    { apply elem_of_app. right. by left. }
    destruct (eth_sendTransaction w tx) as [h|error]; simpl.
    + match goal with |- context [refreshBalance c w ?s0] =>
        destruct (refreshBalance_frame c w s0) as (_ & _ & _ & _ & Hcalls);
        destruct (refreshBalance c w s0) as [s1 [[]|error]] end; simpl in *.
      * rewrite Hcalls. apply elem_of_app. by left.
      * assert (Hs1 : SendTransaction tx ∈ calls s1).
        { rewrite Hcalls. apply elem_of_app. by left. }
        unfold throw.
        destruct (bool_decide (code error = Some "4001")); simpl; [done|].
        destruct (bool_decide (code error = Some "-32603")
                  && str_includes (message error) "insufficient funds"); simpl; done.
    + unfold throw.
      destruct (bool_decide (code error = Some "4001")); simpl; [done|].
      destruct (bool_decide (code error = Some "-32603")
                && str_includes (message error) "insufficient funds"); simpl; done.
Qed.

Lemma transfer_value_conversion_witness :
  hex_quantity (valueInHex hex_digits EthersV5 "0.0021") = Some 2100000000000000.
Proof.
  exact (proj1 transfer_value_conversion hex_digits EthersV5 "0.0021" 21 4%nat
           ltac:(discriminate) eq_refl ltac:(repeat constructor) (or_introl eq_refl)).
Defined.

(** C9 as stated fails on the manual path: for the amount "0.0021" the
    product is 2099999999999999.8 and the request carries
    2099999999999999, one wei less than 21 * 10^14. *)
Lemma manual_conversion_inexact :
  decimal "0.0021" = Some (21, 4%nat) /\
  mul (Number "0.0021") _1e18 = Number "2099999999999999.8" /\
  valueInHex hex_digits NoHelpers "0.0021" = "0x775f05a073fff" /\
  hex_quantity (valueInHex hex_digits NoHelpers "0.0021") = Some 2099999999999999 /\
  hex_quantity (valueInHex hex_digits NoHelpers "0.0021") <> Some (21 * 10 ^ (18 - 4)).
Proof. vm_compute. repeat split. discriminate. Qed.

(** The integer is below [2^53], so the engine's printing of larger
    ones plays no part in it. *)
Lemma manual_conversion_any_engine (large : Z -> string) :
  valueInHex large NoHelpers "0.0021" = "0x775f05a073fff".
Proof. reflexivity. Qed.

End Web3Facts.

(** ** The adapter, one await at a time *)
Module AdapterStepFacts.
Import Web3 Web3Facts.

Ltac run_steps :=
  unfold Adapter.settle, Adapter.steps, Adapter.step, Adapter.start, Adapter.resume,
    Adapter.refresh, Adapter.refresh_lands, Adapter.skips; simpl;
  run_web3.

(** Answering each await of a call at once gives the call run to
    completion. *)
Lemma settle_start op s :
  Adapter.state (Adapter.settle 2 (Adapter.step (Adapter.mkSystem s []) (Adapter.Start op)))
  = run op s /\
  Adapter.awaiting (Adapter.settle 2 (Adapter.step (Adapter.mkSystem s []) (Adapter.Start op)))
  = [].
Proof.
  destruct op as [w|c w| |c w accounts].
  - run_steps. destruct (metamask w); simpl; [|done].
    destruct (ethers w); simpl; try done;
      (destruct (eth_accounts w) as [[|a rest]|e]; simpl; try done;
       destruct (getBalance w a); simpl; done).
  - run_steps. destruct (metamask w); simpl; [|done].
    destruct (eth_requestAccounts w) as [[|a rest]|e]; simpl; try done.
    + destruct (negb (c_provider c) || String.eqb (c_account c) ""); simpl; [done|].
      destruct (getBalance w (c_account c)); simpl; [done|].
      destruct (bool_decide (code e = Some "4001")); done.
    + destruct (bool_decide (code e = Some "4001")); done.
  - run_steps. done.
  - run_steps. destruct accounts as [|a rest]; simpl; [done|].
    destruct (String.eqb a (c_account c)); simpl; [done|].
    destruct (negb (c_provider c) || String.eqb (c_account c) ""); simpl; [done|].
    destruct (getBalance w (c_account c)); simpl; done.
Qed.

Lemma refresh_lands_frame c w s :
  let s' := fst (Adapter.refresh_lands c w s) in
  account s' = account s /\ isConnected s' = isConnected s /\
  balance s' = match getBalance w (c_account c) with Ok b => b | Throw _ => balance s end.
Proof.
  unfold Adapter.refresh_lands. run_web3. destruct (getBalance w (c_account c)); done.
Qed.

(** What a step leaves of address, flag and balance, and what it
    waits for. *)
Lemma start_flag op s :
  well_formed op -> Adapter.flag_matches s ->
  Adapter.flag_matches (fst (Adapter.start op s)) /\
  Forall Adapter.await_ok (snd (Adapter.start op s)).
Proof.
  unfold Adapter.flag_matches. intros Hok Hs.
  destruct op as [w|c w| |c w accounts]; simpl in *.
  - destruct (metamask w); [|by split]. destruct (ethers w); simpl; split; try done;
      by repeat constructor.
  - destruct (metamask w); simpl; [|by split]. split; [done|]. by repeat constructor.
  - split; [|done]. simpl. split; [discriminate|done].
  - destruct accounts as [|a rest]; simpl.
    + split; [|done]. split; [discriminate|done].
    + destruct (String.eqb a (c_account c)); simpl; [by split|].
      split; [by split|]. destruct (Adapter.skips c); by repeat constructor.
Qed.

Lemma resume_flag p s :
  Adapter.await_ok p -> Adapter.flag_matches s ->
  Adapter.flag_matches (fst (Adapter.resume p s)) /\
  Forall Adapter.await_ok (snd (Adapter.resume p s)).
Proof.
  unfold Adapter.flag_matches. intros Hok Hs.
  destruct p as [w|w a|c w|c w|c w]; simpl in *.
  - destruct (eth_accounts w) as [[|a rest]|e]; simpl in *; [by split| |by split].
    split; [by split|]. by repeat constructor.
  - destruct (getBalance w a); simpl; by split.
  - destruct (eth_requestAccounts w) as [[|a rest]|e]; simpl in *; [by split| |by split].
    destruct (Adapter.skips c); simpl; (split; [by split|]); by repeat constructor.
  - destruct (refresh_lands_frame c w s) as (Ha & Hi & _). simpl in *.
    split; [|done]. by rewrite Ha, Hi.
  - destruct (refresh_lands_frame c w s) as (Ha & Hi & _). simpl in *.
    split; [|done]. by rewrite Ha, Hi.
Qed.

Lemma step_flag sys act :
  Adapter.action_ok act ->
  Adapter.flag_matches (Adapter.state sys) -> Forall Adapter.await_ok (Adapter.awaiting sys) ->
  Adapter.flag_matches (Adapter.state (Adapter.step sys act)) /\
  Forall Adapter.await_ok (Adapter.awaiting (Adapter.step sys act)).
Proof.
  intros Hok Hs Hp. destruct act as [op|w|i]; simpl.
  - destruct (start_flag op (Adapter.state sys) Hok Hs) as [H1 H2].
    destruct (Adapter.start op (Adapter.state sys)) as [s' new]. simpl in *.
    split; [done|]. by apply Forall_app.
  - unfold Adapter.refresh. simpl. split; [done|].
    apply Forall_app. split; [done|]. destruct (Adapter.skips _); by repeat constructor.
  - destruct (Adapter.awaiting sys !! i) as [p|] eqn:Hi; [|done].
    assert (Hpok : Adapter.await_ok p).
    { rewrite Forall_lookup in Hp. by apply (Hp i). }
    destruct (resume_flag p (Adapter.state sys) Hpok Hs) as [H1 H2].
    destruct (Adapter.resume p (Adapter.state sys)) as [s' new]. simpl in *.
    split; [done|]. apply Forall_app. split; [|done]. by apply Forall_delete.
Qed.

Lemma steps_flag acts sys :
  Forall Adapter.action_ok acts ->
  Adapter.flag_matches (Adapter.state sys) -> Forall Adapter.await_ok (Adapter.awaiting sys) ->
  Adapter.flag_matches (Adapter.state (Adapter.steps acts sys)) /\
  Forall Adapter.await_ok (Adapter.awaiting (Adapter.steps acts sys)).
Proof.
  revert sys. induction acts as [|act acts IH]; intros sys Hall Hs Hp; [done|].
  apply Forall_cons in Hall as [Hok Hall]. simpl.
  destruct (step_flag sys act Hok Hs Hp) as [H1 H2]. by apply IH.
Qed.

(** The balance part survives every step but the answer to a balance
    fetch that arrives while no wallet is connected. *)
Lemma step_balance sys act :
  (isConnected (Adapter.state sys) = false -> balance (Adapter.state sys) = "0") ->
  (forall i p, act = Adapter.Resume i -> Adapter.awaiting sys !! i = Some p ->
     Adapter.lands_balance p = true -> isConnected (Adapter.state sys) = true) ->
  isConnected (Adapter.state (Adapter.step sys act)) = false ->
  balance (Adapter.state (Adapter.step sys act)) = "0".
Proof.
  intros Hs Hland. destruct act as [op|w|i]; simpl.
  - destruct op as [w|c w| |c w accounts]; simpl.
    + destruct (metamask w); [|done]. by destruct (ethers w).
    + by destruct (metamask w).
    + done.
    + destruct accounts as [|a rest]; simpl; [done|].
      by destruct (String.eqb a (c_account c)).
  - done.
  - destruct (Adapter.awaiting sys !! i) as [p|] eqn:Hi; [|done].
    specialize (Hland i p eq_refl Hi).
    destruct p as [w|w a|c w|c w|c w]; simpl in *.
    + by destruct (eth_accounts w) as [[|a rest]|e].
    + specialize (Hland eq_refl). destruct (getBalance w a); simpl; congruence.
    + destruct (eth_requestAccounts w) as [[|a rest]|e]; simpl; try done.
      by destruct (Adapter.skips c).
    + specialize (Hland eq_refl).
      destruct (refresh_lands_frame c w (Adapter.state sys)) as (_ & Hi' & _).
      simpl in *. congruence.
    + specialize (Hland eq_refl).
      destruct (refresh_lands_frame c w (Adapter.state sys)) as (_ & Hi' & _).
      simpl in *. congruence.
Qed.

(** *** Account-change notifications *)

(** C7. A notification with no address is a disconnection: the address
    is emptied, the flag cleared and the balance reset to "0", and
    nothing is fetched. A notification whose first address differs from
    the one the handler knows stores that address and sets the flag,
    but the [refreshBalance] it calls is the one of the render the
    handler was created in: it fetches nothing when that render had no
    provider or no account, and otherwise the balance of that render's
    account, which is not the address just reported. The balance of the
    new address is not fetched. *)
Theorem accounts_changed_updates_connection c w s :
  Adapter.start (AccountsChanged c w []) s =
    (mkState "" "0" false (isConnecting s) (provider s) (calls s) (console s), []) /\
  (forall a rest, a <> c_account c ->
     let r := Adapter.start (AccountsChanged c w (a :: rest)) s in
     account (fst r) = a /\ isConnected (fst r) = true /\ balance (fst r) = balance s /\
     snd r = (if negb (c_provider c) || String.eqb (c_account c) "" then []
              else [Adapter.RefreshFetch c w])) /\
  (forall s',
     let s'' := fst (Adapter.resume (Adapter.RefreshFetch c w) s') in
     account s'' = account s' /\ isConnected s'' = isConnected s' /\
     balance s'' = match getBalance w (c_account c) with
                   | Ok b => b
                   | Throw _ => balance s'
                   end) /\
  (forall a rest, a <> c_account c ->
     let r := handleAccountsChanged c w (a :: rest) s in
     snd r = Ok tt /\ account (fst r) = a /\ isConnected (fst r) = true /\
     balance (fst r) =
       if negb (c_provider c) || String.eqb (c_account c) "" then balance s
       else match getBalance w (c_account c) with
            | Ok b => b
            | Throw _ => balance s
            end).
Proof.
  split_and!.
  - reflexivity.
  - intros a rest Hne. simpl.
    destruct (String.eqb_spec a (c_account c)) as [|_]; [done|]. simpl.
    unfold Adapter.skips. done.
  - intros s'. simpl. by destruct (refresh_lands_frame c w s') as (Ha & Hi & Hb).
  - intros a rest Hne. simpl. unfold handleAccountsChanged.
    destruct (String.eqb_spec a (c_account c)) as [|_]; [done|]. simpl.
    run_web3.
    destruct (negb (c_provider c) || String.eqb (c_account c) ""); simpl; [done|].
    destruct (getBalance w (c_account c)); done.
Qed.

(** C7 at work: a handler created while ["0xAAA"] was connected is told
    of ["0xBBB"]; it fetches the balance of ["0xAAA"], so the page
    shows ["0xBBB"] with the balance of ["0xAAA"]. A handler created
    before any account was known fetches nothing at all. *)
Lemma accounts_changed_stale_refresh :
  (let sys := Adapter.steps
                [Adapter.Start (AccountsChanged (mkClosure "0xAAA" true)
                                  Scenario.wallet_of_two ["0xBBB"]);
                 Adapter.Resume 0]
                (Adapter.mkSystem (mkState "0xAAA" "1.5" true false true [] []) []) in
   account (Adapter.state sys) = "0xBBB" /\ balance (Adapter.state sys) = "1.5" /\
   getBalance Scenario.wallet_of_two "0xBBB" = Ok "7.0" /\ Adapter.awaiting sys = []) /\
  (let r := Adapter.start (AccountsChanged (mkClosure "" true) Scenario.wallet_of_two ["0xBBB"])
              (mkState "" "0" false false true [] []) in
   account (fst r) = "0xBBB" /\ isConnected (fst r) = true /\ balance (fst r) = "0" /\
   snd r = []).
Proof. vm_compute. repeat split. Qed.

(** *** The invariant *)

(** C10, as amended. The defaults satisfy the invariant. The flag is
    set exactly when the address is non-empty after every step of
    initialisation, [connectWallet], [disconnectWallet] and the
    account-change notifications, however their awaited parts
    interleave, for an extension that never reports an empty address.
    The balance is "0" whenever the flag is clear as long as no answer
    to a balance fetch arrives while no wallet is connected: every
    other step preserves the whole invariant, and so does every
    sequence of operations each run to completion. *)
Theorem connection_state_consistent :
  consistent initial /\
  (forall acts, Forall Adapter.action_ok acts ->
     Adapter.flag_matches
       (Adapter.state (Adapter.steps acts (Adapter.mkSystem initial [])))) /\
  (forall sys act,
     Adapter.action_ok act -> Forall Adapter.await_ok (Adapter.awaiting sys) ->
     consistent (Adapter.state sys) ->
     (forall i p, act = Adapter.Resume i -> Adapter.awaiting sys !! i = Some p ->
        Adapter.lands_balance p = true -> isConnected (Adapter.state sys) = true) ->
     consistent (Adapter.state (Adapter.step sys act))) /\
  (forall ops, Forall well_formed ops ->
     consistent (fold_left (fun s op => run op s) ops initial)).
Proof.
  assert (Hinit : consistent initial).
  { split; simpl; [split; [discriminate | done] | done]. }
  assert (Hstep : forall op s, well_formed op -> consistent s -> consistent (run op s)).
  { intros [w|c w| |c w accounts] s Hok Hs; simpl in *.
    - by apply consistent_initialize.
    - by apply consistent_connect.
    - apply consistent_disconnect.
    - by apply consistent_accounts_changed. }
  split_and!; [done | | |].
  - intros acts Hall. by apply steps_flag; [|apply Hinit|].
  - intros sys act Hok Hp [Hflag Hbal] Hland. split.
    + by apply step_flag.
    + by apply step_balance.
  - intros ops. generalize initial Hinit.
    induction ops as [|op ops IH]; intros s Hs Hall; simpl; [done|].
    inversion Hall; subst. apply IH; [|done]. by apply Hstep.
Qed.

Lemma connection_state_consistent_witness :
  Adapter.flag_matches
    (Adapter.state
       (Adapter.steps
          [Adapter.Start (Initialize (Scenario.wallet_with ["0xAAA"]));
           Adapter.Resume 0;
           Adapter.Start Disconnect;
           Adapter.Resume 0;
           Adapter.Start (Connect (mkClosure "" true) (Scenario.wallet_with ["0xBBB"]));
           Adapter.Resume 0]
          (Adapter.mkSystem initial []))).
Proof.
  apply (proj1 (proj2 connection_state_consistent)).
  repeat constructor; simpl; discriminate.
Defined.

(** C10 as stated fails: the adapter starts up and finds ["0xAAA"]
    connected, the user disconnects while the balance is still being
    fetched, then the answer arrives: the flag is clear and the balance
    is "1.5". *)
Lemma late_balance_after_disconnect :
  let acts := [Adapter.Start (Initialize (Scenario.wallet_with ["0xAAA"]));
               Adapter.Resume 0;
               Adapter.Start Disconnect;
               Adapter.Resume 0] in
  let s := Adapter.state (Adapter.steps acts (Adapter.mkSystem initial [])) in
  Forall Adapter.action_ok acts /\
  isConnected s = false /\ account s = "" /\ balance s = "1.5" /\
  ~ consistent s.
Proof.
  split; [repeat constructor; simpl; discriminate|].
  split; [reflexivity|]. split; [reflexivity|]. split; [reflexivity|].
  intros [_ H]. specialize (H eq_refl). discriminate H.
Qed.

End AdapterStepFacts.

(** ** The dashboard page *)
Module DashboardFacts.
Import Dashboard.

#[local] Arguments Auth.handleFirestoreError : simpl never.

(** Called from the current render, [linkWalletToUser_of] is
    [linkWalletToUser]. *)
Lemma linkWalletToUser_of_current env a w :
  linkWalletToUser_of (Auth.user w) env a w = Auth.linkWalletToUser env a w.
Proof.
  unfold linkWalletToUser_of, Auth.linkWalletToUser, Auth.isFirestoreInitialized, bind, gets.
  by destruct (Auth.db env).
Qed.

(** With [db] initialised and a user in the closure the call returns
    normally, whatever the store does. *)
Lemma link_of_succeeds env u a w :
  Auth.db env = true -> snd (linkWalletToUser_of (Some u) env a w) = Ok tt.
Proof.
  intros Hdb.
  unfold linkWalletToUser_of, Auth.isFirestoreInitialized, Auth.getDoc, Auth.updateDoc,
    Auth.setDoc, Auth.setUser, Auth.console_error, try_catch, bind, ret, throw, gets, modify.
  rewrite Hdb. simpl.
  destruct (Auth.getDoc_fault env) as [e|]; simpl.
  { rewrite AuthFacts.handleFirestoreError_ok. simpl.
    by destruct (includes (default [] (Auth.walletAddresses u)) a). }
  destruct (Auth.persisted w !! Auth.uid u) as [d|] eqn:Hd; simpl.
  - destruct (includes (default [] (Auth.d_walletAddresses d)) a); simpl; [done|].
    destruct (Auth.write_fault env) as [e|]; simpl.
    + rewrite AuthFacts.handleFirestoreError_ok. simpl.
      by destruct (includes (default [] (Auth.walletAddresses u)) a).
    + rewrite Hd. done.
  - destruct (Auth.write_fault env) as [e|]; simpl; [|done].
    rewrite AuthFacts.handleFirestoreError_ok. simpl.
    by destruct (includes (default [] (Auth.walletAddresses u)) a).
Qed.

(** Without it the call throws at once. *)
Lemma link_of_no_db env closure a w :
  Auth.db env = false ->
  exists w', linkWalletToUser_of closure env a w
             = (w', Throw (Error "Firestore is not initialized")) /\
             Auth.user w' = Auth.user w /\ Auth.persisted w' = Auth.persisted w.
Proof.
  intros Hdb. unfold linkWalletToUser_of, Auth.isFirestoreInitialized, bind, throw, ret.
  rewrite Hdb. simpl. by eexists.
Qed.

(** The guard: once [walletLinked] is set the effect does nothing. *)
Lemma effect_when_linked s :
  walletLinked s = true -> linkWalletIfConnected s = s.
Proof.
  intros H. unfold linkWalletIfConnected.
  destruct (Auth.user (auth s)); [|done]. by rewrite H, andb_false_r.
Qed.

Lemma settled_frame i env s :
  linkCalls (settled i env s) = linkCalls s /\ web3 (settled i env s) = web3 s /\
  (walletLinked s = true -> walletLinked (settled i env s) = true).
Proof.
  unfold settled. destruct (linking s !! i) as [call|]; [|done].
  by destruct (linkWalletToUser_of _ _ _ _) as [a' [[]|e]].
Qed.

Lemma step_when_linked s ev :
  walletLinked s = true ->
  walletLinked (step s ev) = true /\ linkCalls (step s ev) = linkCalls s.
Proof.
  intros H. destruct ev as [|act|u|i env]; simpl.
  - done.
  - destruct (_ && _); [done|]. by rewrite effect_when_linked.
  - by rewrite effect_when_linked.
  - destruct (settled_frame i env s) as (Hc & _ & Hl). specialize (Hl H).
    destruct (Bool.eqb _ _); [done|]. by rewrite effect_when_linked.
Qed.

Lemma session_when_linked evs s :
  walletLinked s = true ->
  walletLinked (session evs s) = true /\ linkCalls (session evs s) = linkCalls s.
Proof.
  revert s. induction evs as [|ev evs IH]; intros s H; [done|].
  simpl. destruct (step_when_linked s ev H) as [Hl Hc].
  destruct (IH (step s ev) Hl) as [Hl' Hc']. split; congruence.
Qed.

(** The settlement of a call never makes a call. *)
Lemma settled_calls s i env :
  linkCalls (step s (LinkSettled i env)) = linkCalls s /\
  web3 (step s (LinkSettled i env)) = web3 s.
Proof.
  simpl. destruct (settled_frame i env s) as (Hc & Hw & Hl).
  destruct (Bool.eqb (walletLinked (settled i env s)) (walletLinked s)) eqn:E; [done|].
  destruct (walletLinked s) eqn:Hs.
  - rewrite (Hl eq_refl) in E. discriminate E.
  - destruct (walletLinked (settled i env s)) eqn:Hs'; [|discriminate E].
    by rewrite effect_when_linked.
Qed.

Lemma settled_with_store s i env call :
  linking s !! i = Some call -> Auth.db env = true ->
  walletLinked (step s (LinkSettled i env)) = true.
Proof.
  intros Hi Hdb. simpl.
  assert (H : walletLinked (settled i env s) = true).
  { unfold settled. rewrite Hi.
    pose proof (link_of_succeeds env (l_user call) (l_account call) (auth s) Hdb) as Hok.
    destruct (linkWalletToUser_of _ _ _ _) as [a' [[]|e]]; [done|discriminate Hok]. }
  destruct (Bool.eqb _ _); [done|]. by rewrite effect_when_linked.
Qed.

Lemma effect_when_ready s u :
  Auth.user (auth s) = Some u -> isConnected s = true -> walletLinked s = false ->
  linkWalletIfConnected s =
    mkState (auth s) (web3 s) false (toasts s) (console s)
      (linkCalls s ++ [account s]) (linking s ++ [mkLinkCall u (account s)]).
Proof.
  intros Hu Hc Hl. unfold linkWalletIfConnected. by rewrite Hu, Hc, Hl.
Qed.

(** A balance refresh, asked for or answered, leaves address and flag. *)
Lemma balance_refresh_frame sys act :
  (exists w, act = Adapter.Refresh w) \/
  (exists i p, act = Adapter.Resume i /\ Adapter.awaiting sys !! i = Some p /\
     Adapter.lands_balance p = true) ->
  Web3.isConnected (Adapter.state (Adapter.step sys act)) = Web3.isConnected (Adapter.state sys) /\
  Web3.account (Adapter.state (Adapter.step sys act)) = Web3.account (Adapter.state sys).
Proof.
  intros [(w & ->) | (i & p & -> & Hi & Hp)]; simpl; [done|].
  rewrite Hi. destruct p as [w|w a|c w|c w|c w]; simpl in *; try discriminate.
  - by destruct (Web3.getBalance w a).
  - by destruct (AdapterStepFacts.refresh_lands_frame c w (Adapter.state sys)) as (-> & -> & _).
  - by destruct (AdapterStepFacts.refresh_lands_frame c w (Adapter.state sys)) as (-> & -> & _).
Qed.

Lemma wallet_step_quiet s act :
  Web3.isConnected (Adapter.state (Adapter.step (web3 s) act)) = isConnected s ->
  Web3.account (Adapter.state (Adapter.step (web3 s) act)) = account s ->
  linkCalls (step s (Wallet act)) = linkCalls s.
Proof.
  intros Hc Ha. simpl. unfold isConnected, account, setWeb3 in *. simpl.
  by rewrite Hc, Ha, eqb_reflx, String.eqb_refl.
Qed.

(** C3, as amended. The effect that finds a wallet connected and a user
    signed in, with the flag clear, calls the link operation for the
    address connected then. Renders in which no dependency of the
    effect changed call nothing: plain re-renders, balance refreshes
    (asked for or answered), wallet events that leave address and flag,
    and the settlement of a call. A call that settles with [db]
    initialised sets [walletLinked]; from then on no render of the
    mount calls the link operation again, whatever happens: another
    user object, a balance refresh, another address connected. So when
    the call settles before the next change of a dependency, the
    operation has been called exactly once, for the first address. *)
Theorem link_not_repeated_after_success :
  (forall s u,
     Auth.user (auth s) = Some u -> isConnected s = true -> walletLinked s = false ->
     linkCalls (linkWalletIfConnected s) = (linkCalls s ++ [account s])%list) /\
  (forall s ev,
     ev = Rerender \/ (exists i env, ev = LinkSettled i env) \/
     (exists act, ev = Wallet act /\
        Web3.isConnected (Adapter.state (Adapter.step (web3 s) act)) = isConnected s /\
        Web3.account (Adapter.state (Adapter.step (web3 s) act)) = account s) ->
     linkCalls (step s ev) = linkCalls s) /\
  (forall s act,
     (exists w, act = Adapter.Refresh w) \/
     (exists i p, act = Adapter.Resume i /\ Adapter.awaiting (web3 s) !! i = Some p /\
        Adapter.lands_balance p = true) ->
     linkCalls (step s (Wallet act)) = linkCalls s) /\
  (forall s i env call,
     linking s !! i = Some call -> Auth.db env = true ->
     walletLinked (step s (LinkSettled i env)) = true) /\
  (forall evs s,
     walletLinked s = true ->
     walletLinked (session evs s) = true /\ linkCalls (session evs s) = linkCalls s) /\
  (forall s u env evs,
     Auth.user (auth s) = Some u -> isConnected s = true -> walletLinked s = false ->
     linking s = [] -> Auth.db env = true ->
     linkCalls (session (LinkSettled 0 env :: evs) (linkWalletIfConnected s))
     = (linkCalls s ++ [account s])%list).
Proof.
  split_and!.
  - intros s u Hu Hc Hl. by rewrite (effect_when_ready s u).
  - intros s ev [-> | [(i & env & ->) | (act & -> & Hc & Ha)]].
    + done.
    + apply settled_calls.
    + by apply wallet_step_quiet.
  - intros s act H. destruct (balance_refresh_frame (web3 s) act H) as [Hc Ha].
    by apply wallet_step_quiet.
  - intros s i env call. apply settled_with_store.
  - intros evs s. apply session_when_linked.
  - intros s u env evs Hu Hc Hl Hp Hdb.
    rewrite (effect_when_ready s u) by done. rewrite Hp. simpl app.
    change (session (LinkSettled 0 env :: evs) ?s0)
      with (session evs (step s0 (LinkSettled 0 env))).
    match goal with |- context [step ?s0 (LinkSettled 0 env)] =>
      pose proof (settled_with_store s0 0 env (mkLinkCall u (account s)) eq_refl Hdb) as Hlinked;
      destruct (settled_calls s0 0 env) as [Hcalls _];
      destruct (session_when_linked evs (step s0 (LinkSettled 0 env)) Hlinked) as [_ Hsame]
    end.
    rewrite Hsame, Hcalls. done.
Qed.

Lemma link_not_repeated_after_success_witness :
  linkCalls (session [LinkSettled 0 Scenario.env_ok; Rerender; Scenario.switch_to_BBB]
               (mounted Scenario.w_fresh (Scenario.connected "0xAAA")))
  = ["0xAAA"].
Proof.
  exact (proj2 (proj2 (proj2 (proj2 (proj2 link_not_repeated_after_success))))
           (fresh Scenario.w_fresh (Scenario.connected "0xAAA"))
           Scenario.u1 Scenario.env_ok [Rerender; Scenario.switch_to_BBB]
           eq_refl eq_refl eq_refl eq_refl eq_refl).
Defined.

(** C3 as stated fails: the wallet "0xAAA" is connected and linked,
    then "0xBBB" becomes the connected address, and the link operation
    is never called for it. *)
Lemma second_address_not_linked :
  let s := session Scenario.switch_accounts (mounted Scenario.w_fresh Scenario.idle) in
  isConnected s = true /\
  account s = "0xBBB" /\
  is_Some (Auth.user (auth s)) /\
  walletLinked s = true /\ linking s = [] /\
  linkCalls s = ["0xAAA"] /\
  ("0xBBB" ∉ linkCalls s) /\
  Auth.persisted_wallets (auth s) "u1" = ["0xAAA"].
Proof.
  vm_compute. split_and!; try reflexivity.
  - eexists; reflexivity.
  - intros H. apply list_elem_of_In in H. simpl in H. destruct H as [H|[]]. discriminate H.
Qed.

End DashboardFacts.

(** ** The dashboard while a call is pending or the store is missing *)
Module DashboardPendingFacts.
Import Dashboard DashboardFacts.

#[local] Arguments Auth.handleFirestoreError : simpl never.
#[local] Arguments linkWalletToUser_of : simpl never.



(** X25. Without [db] the dashboard never records the wallet as
    linked: every call that settles throws, is logged as "Error linking
    wallet:" and leaves [walletLinked] clear, for any sequence of
    events; and while the flag is clear, every render of the auth
    provider with a user, a wallet being connected, calls
    [linkWalletToUser] once more. *)
Theorem link_never_recorded_without_store :
  (forall evs s,
     Forall (store_is false) evs -> walletLinked s = false ->
     walletLinked (session evs s) = false) /\
  (forall s i env call,
     linking s !! i = Some call -> Auth.db env = false -> walletLinked s = false ->
     let s' := step s (LinkSettled i env) in
     walletLinked s' = false /\
     console s' = (console s ++ ["Error linking wallet:"])%list /\
     linking s' = delete i (linking s) /\ linkCalls s' = linkCalls s) /\
  (forall s u,
     walletLinked s = false -> isConnected s = true ->
     linkCalls (step s (AuthRender (Some u))) = (linkCalls s ++ [account s])%list).
Proof.
  assert (Hsettle : forall s i env call,
    linking s !! i = Some call -> Auth.db env = false -> walletLinked s = false ->
    step s (LinkSettled i env) =
      mkState (fst (linkWalletToUser_of (Some (l_user call)) env (l_account call) (auth s)))
        (web3 s) false (toasts s) (console s ++ ["Error linking wallet:"])
        (linkCalls s) (delete i (linking s))).
  { intros s i env call Hi Hdb Hl. simpl. unfold settled. rewrite Hi.
    destruct (link_of_no_db env (Some (l_user call)) (l_account call) (auth s) Hdb)
      as (w' & -> & _). simpl. by rewrite Hl. }
  split_and!.
  - intros evs. induction evs as [|ev evs IH]; intros s Hall Hl; [done|].
    apply Forall_cons in Hall as [Hev Hall]. simpl. apply IH; [done|].
    destruct ev as [|act|u|i env]; simpl in *.
    + done.
    + destruct (_ && _); [done|]. unfold linkWalletIfConnected, setWeb3. simpl.
      destruct (Auth.user (auth s)); [|done]. by destruct (_ && _).
    + unfold linkWalletIfConnected, setSessionUser. simpl.
      destruct u; [|done]. by destruct (_ && _).
    + destruct (linking s !! i) as [call|] eqn:Hi.
      * pose proof (Hsettle s i env call Hi Hev Hl) as E. simpl in E. by rewrite E.
      * unfold settled. rewrite Hi. by rewrite eqb_reflx.
  - intros s i env call Hi Hdb Hl s'. subst s'. rewrite (Hsettle s i env call Hi Hdb Hl). done.
  - intros s u Hl Hc. simpl.
    rewrite (effect_when_ready (setSessionUser (Some u) s) u); done.
Qed.

Lemma link_never_recorded_without_store_witness :
  walletLinked
    (session [LinkSettled 0 Scenario.env_no_db; AuthRender (Some Scenario.u1);
              LinkSettled 0 Scenario.env_no_db]
       (mounted Scenario.w_fresh (Scenario.connected "0xAAA"))) = false.
Proof.
  apply (proj1 link_never_recorded_without_store).
  - repeat constructor.
  - reflexivity.
Defined.



End DashboardPendingFacts.

(** ** More on linking: what every call keeps *)
Module LinkInvariants.
Import Auth AuthFacts.

(** Every way a call can end, for any store behaviour: nothing rewritten;
    the address appended to the persisted list and mirrored; or the
    address appended to the in-memory list only. *)
Lemma link_cases env w a :
  let w' := fst (linkWalletToUser env a w) in
  (persisted w' = persisted w /\ user w' = user w) \/
  (exists u, user w = Some u /\ (a ∉ persisted_wallets w (uid u)) /\
     persisted_wallets w' (uid u) = (persisted_wallets w (uid u) ++ [a])%list /\
     (forall id, id <> uid u -> persisted w' !! id = persisted w !! id) /\
     user w' = Some (with_wallets u (persisted_wallets w (uid u) ++ [a])%list)) \/
  (exists u, user w = Some u /\ (a ∉ session_wallets w) /\
     persisted w' = persisted w /\
     user w' = Some (with_wallets u (session_wallets w ++ [a])%list)).
Proof.
  simpl. destruct (db env) eqn:Hdb.
  2: { left. run_js. rewrite Hdb. simpl. done. }
  destruct (user w) as [u|] eqn:Hu.
  2: { left. run_js. rewrite Hdb. simpl. rewrite Hu. simpl. done. }
  assert (Hfault : forall error,
            linkWalletToUser env a w = (after_fault error u a w, Ok tt) ->
            (persisted (fst (linkWalletToUser env a w)) = persisted w /\
             user (fst (linkWalletToUser env a w)) = Some u) \/
            ((a ∉ session_wallets w) /\
             persisted (fst (linkWalletToUser env a w)) = persisted w /\
             user (fst (linkWalletToUser env a w))
             = Some (with_wallets u (session_wallets w ++ [a])%list))).
  { intros error E. rewrite E. simpl.
    unfold after_fault, reported, session_wallets. simpl. rewrite Hu.
    destruct (includes (default [] (walletAddresses u)) a) eqn:Hin; simpl.
    - left. rewrite ?Hu. done.
    - right. apply includes_false in Hin. rewrite ?Hu. done. }
  destruct (getDoc_fault env) as [error|] eqn:Hr.
  { destruct (Hfault error (link_read_fault env w u a error Hdb Hu Hr)) as [H|H].
    - by left.
    - right; right. exists u. destruct H as (? & ? & ?). done. }
  destruct (decide (a ∈ persisted_wallets w (uid u))) as [Hin|Hout].
  { left. destruct (persisted_wallets_listed _ _ _ Hin) as (d & Hd & Had).
    apply includes_spec in Had.
    run_js. rewrite Hdb, Hr; simpl. rewrite Hu; simpl. rewrite Hd; simpl.
    rewrite Had. simpl. done. }
  destruct (write_fault env) as [error|] eqn:Hw.
  { destruct (Hfault error (link_write_fault env w u a error Hdb Hu Hr Hw Hout)) as [H|H].
    - by left.
    - right; right. exists u. destruct H as (? & ? & ?). done. }
  right; left. exists u. split; [done|]. split; [done|].
  unfold persisted_wallets in *.
  destruct (persisted w !! uid u) as [d|] eqn:Hd.
  - rewrite (link_append env w u d a); [|done..]. simpl.
    rewrite lookup_insert_eq. split_and!; [done | | done].
    intros id Hid. by rewrite lookup_insert_ne.
  - rewrite (link_create env w u a); [|done..]. simpl.
    rewrite lookup_insert_eq. split_and!; [done | | done].
    intros id Hid. by rewrite lookup_insert_ne.
Qed.

(** X1. Whatever the store does, a call removes nothing: every address
    persisted for any user before the call is persisted for that user
    after it, and the documents of other users are not touched. *)
Theorem link_never_unlinks env w a :
  let w' := fst (linkWalletToUser env a w) in
  (forall id b, b ∈ persisted_wallets w id -> b ∈ persisted_wallets w' id) /\
  (forall u id, user w = Some u -> id <> uid u -> persisted w' !! id = persisted w !! id) /\
  (user w = None -> persisted w' = persisted w).
Proof.
  simpl. destruct (link_cases env w a) as [[Hp Hu]|[(u & Hu & Ha & Hl & Hother & Hu')|(u & Hu & Ha & Hp & Hu')]];
    simpl in *.
  - rewrite Hp. unfold persisted_wallets. rewrite Hp. done.
  - split_and!.
    + intros id b Hb. destruct (decide (id = uid u)) as [->|Hne].
      * rewrite Hl. apply elem_of_app. by left.
      * unfold persisted_wallets in *. by rewrite (Hother id Hne).
    + intros u0 id Hu0 Hne. rewrite Hu in Hu0. injection Hu0 as <-. by apply Hother.
    + intros Hnone. congruence.
  - rewrite Hp. unfold persisted_wallets. rewrite Hp. done.
Qed.

(** X2. The call keeps the lists free of duplicates: when no persisted
    list and not the in-memory list holds an address twice before the
    call, none does afterwards, whatever the store does. *)
Theorem link_keeps_lists_duplicate_free env w a :
  (forall id, NoDup (persisted_wallets w id)) -> NoDup (session_wallets w) ->
  let w' := fst (linkWalletToUser env a w) in
  (forall id, NoDup (persisted_wallets w' id)) /\ NoDup (session_wallets w').
Proof.
  intros Hp Hs. simpl.
  assert (Hsnoc : forall l : list string, NoDup l -> a ∉ l -> NoDup (l ++ [a])).
  { intros l Hl Ha. apply NoDup_app. split_and!; [done | | apply NoDup_singleton].
    intros x Hx Hx'. apply list_elem_of_singleton in Hx'. by subst. }
  destruct (link_cases env w a)
    as [[E Eu]|[(u & Hu & Ha & Hl & Hother & Hu')|(u & Hu & Ha & E & Hu')]];
    simpl in *.
  - split.
    + intros id. specialize (Hp id). unfold persisted_wallets in *. by rewrite E.
    + unfold session_wallets in *. by rewrite Eu.
  - split.
    + intros id. destruct (decide (id = uid u)) as [->|Hne].
      * rewrite Hl. by apply Hsnoc.
      * specialize (Hp id). unfold persisted_wallets in *. by rewrite (Hother id Hne).
    + unfold session_wallets. rewrite Hu'. simpl. by apply Hsnoc.
  - split.
    + intros id. specialize (Hp id). unfold persisted_wallets in *. by rewrite E.
    + unfold session_wallets at 1. rewrite Hu'. simpl. by apply Hsnoc.
Qed.

Lemma link_keeps_lists_duplicate_free_witness :
  NoDup (session_wallets
           (fst (linkWalletToUser Scenario.env_read_denied "0xBBB" Scenario.w_fresh))).
Proof.
  refine (proj2 (link_keeps_lists_duplicate_free Scenario.env_read_denied
                   Scenario.w_fresh "0xBBB" _ _)).
  - intros id. unfold persisted_wallets. simpl. rewrite lookup_empty. apply NoDup_nil_2.
  - apply NoDup_nil_2.
Defined.

(** X3. After a call made with the store initialised and a user signed
    in, the address is linked somewhere: in the persisted list or in the
    in-memory list; and against a working store it is in the persisted
    list. *)
Theorem link_leaves_address_linked env w u a :
  db env = true -> user w = Some u ->
  let w' := fst (linkWalletToUser env a w) in
  (a ∈ persisted_wallets w' (uid u) \/ a ∈ session_wallets w') /\
  (healthy env -> a ∈ persisted_wallets w' (uid u)).
Proof.
  intros Hdb Hu. simpl.
  assert (Hfault : forall error,
            linkWalletToUser env a w = (after_fault error u a w, Ok tt) ->
            a ∈ session_wallets (fst (linkWalletToUser env a w))).
  { intros error E. rewrite E. simpl. by apply after_fault_spec. }
  assert (Hfresh : healthy env -> a ∉ persisted_wallets w (uid u) ->
            a ∈ persisted_wallets (fst (linkWalletToUser env a w)) (uid u)).
  { intros Henv Hout.
    destruct (link_fresh env w u a Henv Hu Hout) as (w' & E & Hl & _).
    rewrite E. simpl. rewrite Hl. apply elem_of_app. right. by left. }
  assert (Hlisted : a ∈ persisted_wallets w (uid u) -> getDoc_fault env = None ->
            a ∈ persisted_wallets (fst (linkWalletToUser env a w)) (uid u)).
  { intros Hin Hr. destruct (link_cases env w a)
      as [[E _]|[(u' & Hu' & Ha & _)|(u' & _ & _ & E & _)]]; simpl in *.
    - unfold persisted_wallets in *. by rewrite E.
    - congruence.
    - unfold persisted_wallets in *. by rewrite E. }
  split.
  - destruct (getDoc_fault env) as [error|] eqn:Hr.
    { right. apply (Hfault error). by apply link_read_fault. }
    destruct (decide (a ∈ persisted_wallets w (uid u))) as [Hin|Hout].
    { left. by apply Hlisted. }
    destruct (write_fault env) as [error|] eqn:Hw.
    { right. apply (Hfault error). by apply link_write_fault. }
    left. by apply Hfresh.
  - intros Henv. destruct (decide (a ∈ persisted_wallets w (uid u))) as [Hin|Hout].
    + apply Hlisted; [done|]. apply Henv.
    + by apply Hfresh.
Qed.

Lemma link_leaves_address_linked_witness :
  "0xBBB" ∈ persisted_wallets
              (fst (linkWalletToUser Scenario.env_ok "0xBBB" (Scenario.w_minimal ["0xAAA"])))
              "u1".
Proof.
  exact (proj2 (link_leaves_address_linked Scenario.env_ok (Scenario.w_minimal ["0xAAA"])
                  Scenario.u1 "0xBBB" eq_refl eq_refl)
           ltac:(repeat split)).
Defined.

(** X4. Reading the wallets twice against a reachable store gives the
    same list the second time, and the second call changes nothing. *)
Theorem getUserWallets_twice env1 env2 w :
  db env1 = true -> getDoc_fault env1 = None ->
  db env2 = true -> getDoc_fault env2 = None ->
  let r1 := getUserWallets env1 w in
  let r2 := getUserWallets env2 (fst r1) in
  snd r2 = snd r1 /\ fst r2 = fst r1.
Proof.
  intros Hdb1 Hr1 Hdb2 Hr2. simpl.
  destruct (user w) as [u|] eqn:Hu.
  2: { rewrite (wallets_no_user env1 w Hu). simpl. by rewrite (wallets_no_user env2 w Hu). }
  destruct (walletAddresses u) as [[|x xs]|] eqn:Hwa.
  2: { rewrite (wallets_populated env1 w u x xs Hu Hwa). simpl.
       by rewrite (wallets_populated env2 w u x xs Hu Hwa). }
  all: assert (Hempty : default [] (walletAddresses u) = []) by (by rewrite Hwa).
  all: rewrite (wallets_read env1 w u Hu Hempty Hdb1 Hr1), Hwa; simpl.
  - rewrite andb_false_r.
    by rewrite (wallets_read env2 w u Hu Hempty Hdb2 Hr2), Hwa, andb_false_r.
  - rewrite andb_true_r.
    destruct (persisted_wallets w (uid u)) as [|y ys] eqn:Hl; simpl.
    + rewrite (wallets_read env2 w u Hu Hempty Hdb2 Hr2), Hwa, Hl. done.
    + done.
Qed.

Lemma getUserWallets_twice_witness :
  snd (getUserWallets Scenario.env_ok
         (fst (getUserWallets Scenario.env_ok (Scenario.w_minimal ["0xAAA"]))))
  = snd (getUserWallets Scenario.env_ok (Scenario.w_minimal ["0xAAA"])).
Proof.
  exact (proj1 (getUserWallets_twice Scenario.env_ok Scenario.env_ok
                  (Scenario.w_minimal ["0xAAA"]) eq_refl eq_refl eq_refl eq_refl)).
Defined.

End LinkInvariants.

(** ** Negative amounts on the manual path *)
Module NegativeAmounts.
Import JsNumber Web3 Web3Facts.
Local Open Scope Z_scope.

Lemma floor_log2_lower (n d : Z) :
  0 < d -> d <= n -> 0 <= floor_log2 n d /\ d * 2 ^ floor_log2 n d <= n.
Proof.
  intros Hd Hn. unfold floor_log2, scaled_le.
  pose proof (Z.log2_spec n ltac:(lia)) as [Hnb _].
  pose proof (Z.log2_spec d Hd) as [_ Hda].
  pose proof (Z.log2_le_mono d n Hn) as Hmono.
  pose proof (Z.log2_nonneg d) as Hb0.
  set (a := Z.log2 n) in *. set (b := Z.log2 d) in *.
  destruct (Z.leb_spec 0 (a - b)) as [Hk|Hk]; [|lia].
  destruct (Z.leb_spec (d * 2 ^ (a - b)) n) as [Hle|Hlt]; cbv beta iota; [lia|].
  assert (Hab : a - b <> 0).
  { intros E. rewrite E in Hlt. change (2 ^ 0) with 1 in Hlt. lia. }
  split; [lia|].
  assert (E : 2 ^ a = 2 ^ (b + 1) * 2 ^ (a - b - 1)).
  { rewrite <- Z.pow_add_r by lia. f_equal. lia. }
  assert (0 < 2 ^ (a - b - 1)) by (apply Z.pow_pos_nonneg; lia).
  replace (Z.succ b) with (b + 1) in Hda by lia. nia.
Qed.

Lemma rne_lower (n d b : Z) : 0 <= n -> 0 < d -> b * d <= n -> b <= rne n d.
Proof.
  intros Hn Hd Hb. unfold rne.
  assert (b <= n / d) by (apply Z.div_le_lower_bound; lia).
  destruct (2 * (n mod d) <? d); [lia|].
  destruct (d <? 2 * (n mod d)); [lia|]. destruct (Z.even (n / d)); lia.
Qed.

(** A ratio of at least one rounds to an infinity or to a double with a
    full significand. *)
Lemma round_large (s : bool) (n d : Z) :
  0 < d -> d <= n ->
  round s n d = Infinity s \/
  exists m e, round s n d = Finite s m e /\ 2 ^ 52 <= m /\ -52 <= e.
Proof.
  intros Hd Hn. unfold round.
  destruct (Z.eqb_spec n 0); [lia|].
  destruct (floor_log2_lower n d Hd Hn) as [Hfl Hlow].
  set (fl := floor_log2 n d) in *.
  rewrite Z.max_l by lia.
  assert (Hsplit : 0 <= fl - 52 -> 2 ^ fl = 2 ^ 52 * 2 ^ (fl - 52)).
  { intros. rewrite <- Z.pow_add_r by lia. f_equal. lia. }
  destruct (Z.leb_spec 0 (fl - 52)) as [He|He].
  - match goal with |- context [if ?c then _ else _] => destruct c end; [by left|].
    right. eexists _, _. split; [reflexivity|]. split; [|lia].
    assert (0 < 2 ^ (fl - 52)) by (apply Z.pow_pos_nonneg; lia).
    apply rne_lower; [lia | nia |]. rewrite Hsplit in Hlow by lia. nia.
  - simpl. right. eexists _, _. split; [reflexivity|]. split; [|lia].
    assert (0 < 2 ^ (- (fl - 52))) by (apply Z.pow_pos_nonneg; lia).
    apply rne_lower; [nia | lia |].
    assert (E : 2 ^ 52 = 2 ^ fl * 2 ^ (- (fl - 52))).
    { rewrite <- Z.pow_add_r by lia. f_equal. lia. }
    rewrite E. nia.
Qed.

Lemma _1e18_value : _1e18 = Finite false 7812500000000000 7.
Proof. reflexivity. Qed.

Lemma mul_1e18_large (s : bool) (m e : Z) :
  2 ^ 52 <= m -> -52 <= e ->
  mul (Finite s m e) _1e18 = Infinity s \/
  exists m' e', mul (Finite s m e) _1e18 = Finite s m' e' /\ 2 ^ 52 <= m' /\ -52 <= e'.
Proof.
  intros Hm He. rewrite _1e18_value. unfold mul. rewrite xorb_false_r.
  destruct (Z.leb_spec 0 (e + 7)) as [H|H].
  - apply round_large; [lia|].
    assert (0 < 2 ^ (e + 7)) by (apply Z.pow_pos_nonneg; lia). nia.
  - apply round_large; [apply Z.pow_pos_nonneg; lia|].
    assert (2 ^ (- (e + 7)) <= 2 ^ 52) by (apply Z.pow_le_mono_r; lia). nia.
Qed.

Lemma floor_large (s : bool) (m e : Z) :
  2 ^ 52 <= m -> -52 <= e -> exists z, floor (Finite s m e) = Whole s z /\ 1 <= z.
Proof.
  intros Hm He. unfold floor. destruct (Z.leb_spec 0 e) as [H|H].
  - eexists. split; [reflexivity|].
    assert (0 < 2 ^ e) by (apply Z.pow_pos_nonneg; lia). nia.
  - assert (0 < 2 ^ (- e)) by (apply Z.pow_pos_nonneg; lia).
    assert (2 ^ (- e) <= 2 ^ 52) by (apply Z.pow_le_mono_r; lia).
    assert (1 <= m / 2 ^ (- e)) by (apply Z.div_le_lower_bound; lia).
    destruct s; eexists; (split; [reflexivity|]); [destruct (_ =? 0)|]; lia.
Qed.

(** The product of a number of magnitude at least one, negative, with
    [1e18] is printed with a leading minus: not a hexadecimal quantity. *)
Lemma negative_product_no_quantity (large : Z -> string) (n d : Z) :
  0 < d -> d <= n ->
  hex_quantity ("0x" ++ toString16 large (floor (mul (round true n d) _1e18))) = None.
Proof.
  intros Hd Hn.
  destruct (round_large true n d Hd Hn) as [-> | (m & e & -> & Hm & He)].
  { rewrite _1e18_value. reflexivity. }
  destruct (mul_1e18_large true m e Hm He) as [-> | (m' & e' & -> & Hm' & He')].
  { reflexivity. }
  destruct (floor_large true m' e' Hm' He') as (z & -> & Hz).
  unfold toString16. destruct (Z.eqb_spec z 0); [lia|].
  destruct (z <? 2 ^ 53); reflexivity.
Qed.

Lemma span_digits_split (l : list ascii) :
  l = (fst (span_digits l) ++ snd (span_digits l))%list.
Proof.
  induction l as [|c l IH]; simpl; [done|].
  destruct (is_digit c); [|done].
  destruct (span_digits l) as [ds rest]. simpl in *. by f_equal.
Qed.

Lemma digit_not_space (c : ascii) : is_digit c = true -> is_space c = false.
Proof.
  unfold is_digit, is_space. intros H. apply andb_true_iff in H as [H1 H2].
  apply N.leb_le in H1, H2.
  apply orb_false_iff. split.
  - apply andb_false_iff. right. apply N.leb_gt. lia.
  - apply N.eqb_neq. lia.
Qed.

Lemma digit_not_I (c : ascii) : is_digit c = true -> c <> "I"%char.
Proof. intros H ->. discriminate H. Qed.

(** A string that ends with a digit keeps its end when trimmed. *)
Lemma trim_minus (l : list ascii) (c : ascii) :
  is_digit c = true -> trim ("-"%char :: l ++ [c]) = ("-"%char :: l ++ [c])%list.
Proof.
  intros Hc. unfold trim.
  assert (E1 : drop_spaces ("-"%char :: l ++ [c]) = ("-"%char :: l ++ [c])%list)
    by reflexivity.
  assert (E2 : rev ("-"%char :: l ++ [c]) = (c :: rev ("-"%char :: l))%list).
  { change ("-"%char :: l ++ [c])%list with (("-"%char :: l) ++ [c])%list.
    by rewrite rev_app_distr. }
  rewrite E1, E2. cbn [drop_spaces]. rewrite (digit_not_space c Hc).
  rewrite <- E2. apply rev_involutive.
Qed.

Lemma forallb_last (l : list ascii) (x : ascii) :
  forallb is_digit (x :: l) = true ->
  exists l' c, (x :: l = l' ++ [c])%list /\ is_digit c = true.
Proof.
  intros H. destruct (exists_last (l := x :: l) ltac:(discriminate)) as (l' & c & E).
  exists l', c. split; [done|]. rewrite E, forallb_app in H.
  apply andb_true_iff in H as [_ H]. simpl in H. by rewrite andb_true_r in H.
Qed.

(** [Number] of a plain decimal with a minus in front. *)
Lemma Number_minus_decimal (s : string) (n : Z) (k : nat) :
  decimal s = Some (n, k) ->
  Number (String "-" s) =
    if 0 <=? 0 - Z.of_nat k then round true (n * 10 ^ (0 - Z.of_nat k)) 1
    else round true n (10 ^ (- (0 - Z.of_nat k))).
Proof.
  unfold decimal, Number.
  change (String.list_ascii_of_string (String "-" s))
    with ("-"%char :: String.list_ascii_of_string s).
  set (l := String.list_ascii_of_string s).
  pose proof (span_digits_split l) as Hsplit.
  pose proof (span_digits_all l) as Hall.
  destruct (span_digits l) as [whole rest] eqn:Hspan. simpl in Hsplit, Hall.
  destruct whole as [|w ws]; [discriminate|].
  assert (Hw : is_digit w = true) by (simpl in Hall; by apply andb_true_iff in Hall as [? _]).
  assert (Hinf : bool_decide (l = String.list_ascii_of_string "Infinity") = false).
  { apply bool_decide_eq_false_2. rewrite Hsplit. simpl. intros [= E _].
    by apply (digit_not_I w Hw). }
  destruct rest as [|c r].
  - intros [= <- <-].
    destruct (forallb_last ws w Hall) as (l' & c' & E & Hc').
    rewrite app_nil_r in Hsplit. rewrite Hsplit, E, (trim_minus l' c' Hc'), <- E, <- Hsplit.
    cbn [Ascii.eqb Bool.eqb]. unfold unsigned_decimal.
    rewrite Hinf, Hspan. cbn [exponent_part length]. rewrite app_nil_r. by rewrite <- Hsplit.
  - destruct (Ascii.eqb c ".") eqn:Hdot; [|discriminate].
    pose proof (span_digits_split r) as Hsplit'.
    pose proof (span_digits_all r) as Hall'.
    destruct (span_digits r) as [[|f fs] [|x rest']] eqn:Hspan'; try discriminate.
    simpl in Hsplit', Hall'. rewrite app_nil_r in Hsplit'.
    intros [= <- <-].
    destruct (forallb_last fs f Hall') as (l' & c' & E & Hc').
    assert (El : l = (((w :: ws) ++ c :: l') ++ [c'])%list).
    { rewrite Hsplit, Hsplit', E. by rewrite <- app_assoc. }
    rewrite El, (trim_minus _ c' Hc'), <- El.
    cbn [Ascii.eqb Bool.eqb]. unfold unsigned_decimal.
    rewrite Hinf, Hspan, Hdot, Hspan'. cbn [exponent_part]. reflexivity.
Qed.

(** X10's case of a helper that overflows: the manual path prints the
    negative product with its sign. *)
Lemma negative_manual_no_quantity (large : Z -> string) (s : string) (n : Z) (k : nat) :
  decimal s = Some (n, k) -> 10 ^ Z.of_nat k <= n ->
  hex_quantity
    ("0x" ++ toString16 large (floor (mul (Number (String "-" s)) _1e18))) = None.
Proof.
  intros Hdec Hn. rewrite (Number_minus_decimal s n k Hdec).
  assert (0 < 10 ^ Z.of_nat k) by (apply Z.pow_pos_nonneg; lia).
  destruct (Z.leb_spec 0 (0 - Z.of_nat k)) as [Hk|Hk].
  - assert (E : Z.of_nat k = 0) by lia. rewrite E in *. simpl (0 - 0).
    change (10 ^ 0) with 1 in *. apply negative_product_no_quantity; lia.
  - replace (- (0 - Z.of_nat k)) with (Z.of_nat k) by lia.
    apply negative_product_no_quantity; lia.
Qed.

End NegativeAmounts.

(** ** More on the wallet session adapter *)
Module AdapterFacts.
Import Web3 Web3Facts.

(** X5. [refreshBalance] reads the balance of the account it was created
    with. Without a provider or with no account it fetches nothing and
    leaves the balance; when the fetch fails it rethrows the same error,
    leaves the balance and logs twice; when it succeeds the balance is
    the fetched one. *)
Theorem refreshBalance_outcomes c w s :
  let r := refreshBalance c w s in
  (c_provider c = false \/ c_account c = "" ->
     snd r = Ok tt /\ balance (fst r) = balance s /\ console (fst r) = console s) /\
  (c_provider c = true -> c_account c <> "" ->
     (forall b, getBalance w (c_account c) = Ok b ->
        snd r = Ok tt /\ balance (fst r) = b) /\
     (forall error, getBalance w (c_account c) = Throw error ->
        snd r = Throw error /\ balance (fst r) = balance s /\
        console (fst r) = (console s ++ ["Failed to fetch balance"; "Failed to fetch balance"])%list)).
Proof.
  simpl. split.
  - intros Hc. run_web3.
    assert (E : negb (c_provider c) || String.eqb (c_account c) "" = true).
    { destruct Hc as [->| ->]; [done | by rewrite orb_true_r]. }
    rewrite E. done.
  - intros Hp Ha. apply eqb_empty in Ha. run_web3. rewrite Hp, Ha. simpl. split.
    + intros b ->. done.
    + intros error ->. simpl. by rewrite <- app_assoc.
Qed.

Lemma refreshBalance_outcomes_witness :
  balance (fst (refreshBalance (mkClosure "" true) (Scenario.wallet_with ["0xAAA"])
                  (mkState "0xAAA" "0" true false true [] []))) = "0".
Proof.
  exact (proj1 (proj2 (proj1 (refreshBalance_outcomes (mkClosure "" true)
           (Scenario.wallet_with ["0xAAA"]) (mkState "0xAAA" "0" true false true [] []))
           (or_intror eq_refl)))).
Defined.

(** X6. [connectWallet] never leaves the connecting flag set. Without
    MetaMask it throws before touching any state. When the extension
    refuses, the address, the flag and the balance are as before and the
    error is "User rejected the connection request" for code 4001 and
    "Failed to connect to MetaMask" otherwise. *)
Theorem connectWallet_failures c w s :
  let r := connectWallet c w s in
  (metamask w = false ->
     r = (s, Throw (Error "MetaMask is not installed. Please install MetaMask to continue."))) /\
  (metamask w = true -> isConnecting (fst r) = false) /\
  (forall error, metamask w = true -> eth_requestAccounts w = Throw error ->
     account (fst r) = account s /\ isConnected (fst r) = isConnected s /\
     balance (fst r) = balance s /\
     snd r = Throw (Error (if bool_decide (code error = Some "4001")
                           then "User rejected the connection request"
                           else "Failed to connect to MetaMask"))).
Proof.
  simpl. split_and!.
  - intros Hm. unfold connectWallet. by rewrite Hm.
  - intros Hm. unfold connectWallet. rewrite Hm. simpl.
    unfold finally. destruct (try_catch _ _ s). reflexivity.
  - intros error Hm Hreq. unfold connectWallet. rewrite Hm. simpl.
    unfold finally, try_catch, bind, request, setIsConnecting, modify, throw. simpl.
    rewrite Hreq. simpl.
    destruct (bool_decide (code error = Some "4001")); done.
Qed.

Lemma connectWallet_failures_witness :
  snd (connectWallet (mkClosure "" true)
         (mkWallet true EthersV6 JsNumber.hex_digits (Ok [])
            (Throw (mkJsError (Some "4001") "User rejected the request."))
            (fun _ => Ok "0") (fun _ => Ok "0x0"))
         initial)
  = Throw (Error "User rejected the connection request").
Proof.
  exact (proj2 (proj2 (proj2 (proj2 (proj2 (connectWallet_failures (mkClosure "" true)
           (mkWallet true EthersV6 JsNumber.hex_digits (Ok [])
              (Throw (mkJsError (Some "4001") "User rejected the request."))
              (fun _ => Ok "0") (fun _ => Ok "0x0"))
           initial)) _ eq_refl eq_refl)))).
Defined.

(** X7. [sendTransaction] sends nothing without a connected account: it
    throws "Wallet not connected" and the state is as before. Whatever
    happens it leaves the address, the connection flag and the provider
    alone; and after a request the extension refuses, the balance is not
    refreshed. *)
Theorem sendTransaction_guards c w to amount s :
  let r := sendTransaction c w to amount s in
  let tx := mkTx to (c_account c) (valueInHex (radix16 w) (ethers w) amount) "0x5208" in
  (c_account c = "" -> r = (s, Throw (Error "Wallet not connected"))) /\
  (account (fst r) = account s /\ isConnected (fst r) = isConnected s /\
   provider (fst r) = provider s) /\
  (forall error, c_account c <> "" -> eth_sendTransaction w tx = Throw error ->
     balance (fst r) = balance s /\
     calls (fst r) = (calls s ++ [SendTransaction tx])%list).
Proof.
  simpl. unfold sendTransaction.
  destruct (String.eqb_spec (c_account c) "") as [Hc|Hc].
  { split; [done|]. split; [done|]. intros error Hne. done. }
  split; [done|].
  unfold try_catch, bind, called, modify, request, throw. simpl.
  set (tx := mkTx to (c_account c) (valueInHex (radix16 w) (ethers w) amount) "0x5208").
  destruct (eth_sendTransaction w tx) as [h|error] eqn:Hreq; simpl.
  - match goal with |- context [refreshBalance c w ?s0] =>
      destruct (refreshBalance_frame c w s0) as (Ha & Hi & _ & Hp & _);
      destruct (refreshBalance c w s0) as [s1 [[]|error]] end; simpl in *.
    + split; [done|]. intros error _ [=].
    + split; [|intros error' _ [=]].
      destruct (bool_decide (code error = Some "4001")); simpl; [done|].
      destruct (bool_decide (code error = Some "-32603")
                && str_includes (message error) "insufficient funds"); simpl; done.
  - destruct (bool_decide (code error = Some "4001")); simpl; [done|].
    destruct (bool_decide (code error = Some "-32603")
              && str_includes (message error) "insufficient funds"); simpl; done.
Qed.

Lemma sendTransaction_guards_witness :
  sendTransaction (mkClosure "" true) (Scenario.wallet_with []) "0xBBB" "0.5" initial
  = (initial, Throw (Error "Wallet not connected")).
Proof.
  exact (proj1 (sendTransaction_guards (mkClosure "" true) (Scenario.wallet_with [])
                  "0xBBB" "0.5" initial) eq_refl).
Defined.

(** X8. Whatever fails, [sendTransaction] throws a plain error with a
    message: never the provider's error object, never an empty text. A
    refusal with code 4001 reads "Transaction rejected by user". *)
Theorem sendTransaction_errors c w to amount s :
  let r := sendTransaction c w to amount s in
  let tx := mkTx to (c_account c) (valueInHex (radix16 w) (ethers w) amount) "0x5208" in
  (forall e, snd r = Throw e -> code e = None /\ message e <> "") /\
  (forall error, c_account c <> "" -> eth_sendTransaction w tx = Throw error ->
     code error = Some "4001" -> snd r = Throw (Error "Transaction rejected by user")).
Proof.
  simpl. unfold sendTransaction.
  destruct (String.eqb_spec (c_account c) "") as [Hc|Hc].
  { split; [intros e [= <-]; done | done]. }
  assert (Hmap : forall (error : JsError) (st : State) e,
            snd ((if bool_decide (code error = Some "4001")
                  then throw (Error "Transaction rejected by user")
                  else if bool_decide (code error = Some "-32603")
                          && str_includes (message error) "insufficient funds"
                  then throw (Error "Insufficient funds for this transaction")
                  else throw (Error (if String.eqb (message error) ""
                                     then "Failed to send transaction"
                                     else message error))) st : State * outcome string)
            = Throw e -> code e = None /\ message e <> "").
  { intros error st e.
    destruct (bool_decide (code error = Some "4001")); [intros [= <-]; done|].
    destruct (bool_decide (code error = Some "-32603")
              && str_includes (message error) "insufficient funds"); [intros [= <-]; done|].
    destruct (String.eqb_spec (message error) ""); intros [= <-]; done. }
  unfold try_catch, bind, called, modify, request. simpl.
  set (tx := mkTx to (c_account c) (valueInHex (radix16 w) (ethers w) amount) "0x5208").
  destruct (eth_sendTransaction w tx) as [h|error] eqn:Hreq; simpl.
  - destruct (refreshBalance c w _) as [s1 [[]|error]]; simpl.
    + split; [intros e [=] | intros error _ [=]].
    + split; [apply Hmap | intros error' _ [=]].
  - split; [apply Hmap|].
    intros error' _ [= <-] Hcode. by rewrite bool_decide_eq_true_2.
Qed.

(** X9. [initProvider] never throws. Without MetaMask it changes
    nothing; with an ethers build it does not know it only logs, leaving
    the provider unset and the connection as it was; otherwise it sets
    the provider, and when the extension already grants an account it
    connects to the first one, with the fetched balance or "0" when the
    fetch fails. *)
Theorem initProvider_outcomes w s :
  let r := initProvider w s in
  snd r = Ok tt /\
  (metamask w = false -> fst r = s) /\
  (metamask w = true -> ethers w = NoHelpers ->
     provider (fst r) = provider s /\ account (fst r) = account s /\
     isConnected (fst r) = isConnected s /\ balance (fst r) = balance s) /\
  (forall a rest, metamask w = true -> ethers w <> NoHelpers ->
     eth_accounts w = Ok (a :: rest) ->
     provider (fst r) = true /\ account (fst r) = a /\ isConnected (fst r) = true /\
     balance (fst r) = match getBalance w a with Ok b => b | Throw _ => "0" end) /\
  (metamask w = true -> ethers w <> NoHelpers ->
     eth_accounts w = Ok [] \/ (exists error, eth_accounts w = Throw error) ->
     provider (fst r) = true /\ account (fst r) = account s /\
     isConnected (fst r) = isConnected s /\ balance (fst r) = balance s).
Proof.
  simpl. unfold initProvider.
  destruct (metamask w); simpl.
  2: { split_and!; try done. }
  destruct (ethers w) eqn:He; run_web3.
  3: { split_and!; try done. }
  all: destruct (eth_accounts w) as [[|a rest]|error]; simpl.
  all: try (destruct (getBalance w a) as [b|error] eqn:Hb; simpl).
  all: split_and!; try done; intros;
    repeat match goal with
           | H : _ \/ _ |- _ => destruct H
           | H : exists _, _ |- _ => destruct H
           end; simplify_eq; rewrite ?Hb; done.
Qed.

Lemma initProvider_outcomes_witness :
  account (fst (initProvider (Scenario.wallet_with ["0xAAA"; "0xBBB"]) initial)) = "0xAAA".
Proof.
  exact (proj1 (proj2 (proj1 (proj2 (proj2 (proj2
           (initProvider_outcomes (Scenario.wallet_with ["0xAAA"; "0xBBB"]) initial))))
           "0xAAA" ["0xBBB"] eq_refl ltac:(discriminate) eq_refl))).
Defined.

(** *** Amounts with a sign *)

Import JsNumber.
Local Open Scope Z_scope.

(** The library helper reads a leading minus as negation. *)
Lemma ethers_parseEther_minus (s : string) (n : Z) (k : nat) :
  decimal s = Some (n, k) ->
  ethers_parseEther (String "-" s) = Z.opp <$> ethers_parseEther s.
Proof.
  unfold decimal, ethers_parseEther.
  change (String.list_ascii_of_string (String "-" s))
    with ("-"%char :: String.list_ascii_of_string s).
  cbn [Ascii.eqb Bool.eqb].
  destruct (String.list_ascii_of_string s) as [|c0 l0] eqn:Hl; [simpl; discriminate|].
  destruct (is_digit c0) eqn:Hc0.
  2: { simpl. rewrite Hc0. discriminate. }
  intros _. rewrite (digit_not_minus c0 Hc0).
  destruct (span_digits (c0 :: l0)) as [whole rest].
  destruct rest as [|c r];
    [|destruct (Ascii.eqb c "."); [destruct (span_digits r) as [fs [|x rest']]|]];
    try reflexivity.
  - destruct whole; [reflexivity|]. simpl drop_trailing_zeros.
    destruct (18 <? length [])%nat; reflexivity.
  - destruct whole, fs; try reflexivity;
      destruct (18 <? length (drop_trailing_zeros _))%nat; reflexivity.
Qed.

(** X10. A negative amount does not become a transfer value: with a
    library helper, for a plain decimal amount [n / 10^k] with [0 < n]
    and at most 18 fractional digits written with a leading minus, the
    [value] field is not a hexadecimal quantity. *)
Theorem negative_amount_is_no_quantity large lib s n k :
  lib <> NoHelpers -> decimal s = Some (n, k) -> (k <= 18)%nat -> 0 < n ->
  hex_quantity (valueInHex large lib (String "-" s)) = None.
Proof.
  intros Hlib Hdec Hk Hn.
  destruct (ethers_parseEther_exact s n k Hdec Hk) as [Hparse _].
  pose proof (ethers_parseEther_minus s n k Hdec) as Hminus.
  rewrite Hparse in Hminus. simpl in Hminus.
  assert (Hneg : - (n * 10 ^ (18 - Z.of_nat k)) < 0).
  { assert (0 < 10 ^ (18 - Z.of_nat k)) by (apply Z.pow_pos_nonneg; lia). nia. }
  unfold valueInHex, parseEther. destruct lib; [| |done]; rewrite Hminus.
  - unfold toHexString. destruct (Z.ltb_spec (- (n * 10 ^ (18 - Z.of_nat k))) 0); [|lia].
    reflexivity.
  - destruct (fits_fixed (- (n * 10 ^ (18 - Z.of_nat k)))) eqn:Hfits.
    + unfold bigint_toString16.
      destruct (Z.ltb_spec (- (n * 10 ^ (18 - Z.of_nat k))) 0); [|lia].
      reflexivity.
    + apply (NegativeAmounts.negative_manual_no_quantity large s n k Hdec).
      unfold fits_fixed in Hfits. apply andb_false_iff in Hfits as [Hlow | Hhigh].
      * apply Z.leb_gt in Hlow.
        assert (0 < 10 ^ (18 - Z.of_nat k)) by (apply Z.pow_pos_nonneg; lia).
        assert (E : 10 ^ 18 = 10 ^ Z.of_nat k * 10 ^ (18 - Z.of_nat k)).
        { rewrite <- Z.pow_add_r by lia. f_equal. lia. }
        assert (10 ^ 18 < 2 ^ 511) by reflexivity.
        nia.
      * apply Z.ltb_ge in Hhigh. assert (0 < 2 ^ 511) by reflexivity. lia.
Qed.

Lemma negative_amount_is_no_quantity_witness :
  hex_quantity (valueInHex hex_digits EthersV6 "-0.5") = None.
Proof.
  exact (negative_amount_is_no_quantity hex_digits EthersV6 "0.5" 5 1%nat
           ltac:(discriminate) eq_refl ltac:(repeat constructor) ltac:(reflexivity)).
Defined.

End AdapterFacts.

(** ** Environment configuration *)
Module ConfigFacts.
Import Config.

(** X11. When the environment check reports nothing missing, every
    variable it lists is set and non-empty; the three variables
    Firebase needs are among them, so the configuration is valid. *)
Theorem env_check_covers_firebase (env : gmap string string) :
  missingVars env = [] ->
  isConfigValid env = true /\ forall v, v ∈ requiredVars -> is_set env v = true.
Proof.
  intros Hm.
  assert (Hall : forall v, v ∈ requiredVars -> is_set env v = true).
  { intros v Hv. apply list_elem_of_In in Hv.
    destruct (is_set env v) eqn:Hs; [done|].
    assert (Hin : In v (missingVars env)).
    { apply filter_In. split; [done | by rewrite Hs]. }
    rewrite Hm in Hin. destruct Hin. }
  split; [|exact Hall].
  unfold isConfigValid. apply forallb_forall. intros v Hv. apply Hall.
  apply list_elem_of_In. unfold requiredVars.
  destruct Hv as [<- | [<- | [<- | []]]]; cbn [In]; auto.
Qed.

Lemma env_check_covers_firebase_witness :
  missingVars Examples.env_complete = [] /\
  (isConfigValid Examples.env_complete = true /\
   forall v, v ∈ requiredVars -> is_set Examples.env_complete v = true).
Proof.
  split; [vm_compute; reflexivity|].
  apply (env_check_covers_firebase Examples.env_complete). vm_compute. reflexivity.
Defined.

End ConfigFacts.

(** ** Signing in and out *)
Module AuthFlowFacts.
Import Auth AuthFacts AuthFlows.

Lemma getUserProfile_read env id w :
  db env = true -> getDoc_fault env = None ->
  getUserProfile env id w = (w, Ok (persisted w !! id)).
Proof.
  intros Hdb Hr. unfold getUserProfile, isFirestoreInitialized, getDoc, try_catch, bind, ret, gets.
  rewrite Hdb, Hr. reflexivity.
Qed.

Lemma getUserProfile_fault env id w e :
  db env = true -> getDoc_fault env = Some e ->
  getUserProfile env id w =
    (reported e (fst (console_error "Error getting user profile:" w)), Ok None).
Proof.
  intros Hdb Hr. unfold getUserProfile, isFirestoreInitialized, getDoc, try_catch, bind, ret, throw.
  rewrite Hdb, Hr. simpl. rewrite handleFirestoreError_ok. reflexivity.
Qed.

Lemma getUserProfile_no_db env id w :
  db env = false ->
  getUserProfile env id w = (fst (isFirestoreInitialized env w), Ok None).
Proof.
  intros Hdb. unfold getUserProfile, isFirestoreInitialized, bind, ret.
  rewrite Hdb. reflexivity.
Qed.

Lemma createUserProfile_written env fu w :
  db env = true -> write_fault env = None ->
  createUserProfile env fu w =
    (mkWorld (<[fu_uid fu := fresh_profile env fu]> (persisted w)) (user w)
       (firestoreError w) (toasts w) (console w),
     Ok (Some (fresh_profile env fu))).
Proof.
  intros Hdb Hw. unfold createUserProfile, isFirestoreInitialized, setDoc, try_catch, bind, ret, modify.
  rewrite Hdb, Hw. reflexivity.
Qed.

Lemma createUserProfile_fault env fu w e :
  db env = true -> write_fault env = Some e ->
  createUserProfile env fu w =
    (reported e (fst (console_error "Error creating user profile:" w)), Ok None).
Proof.
  intros Hdb Hw. unfold createUserProfile, isFirestoreInitialized, setDoc, try_catch, bind, ret, throw.
  rewrite Hdb, Hw. simpl. rewrite handleFirestoreError_ok. reflexivity.
Qed.

Lemma createUserProfile_no_db env fu w :
  db env = false ->
  createUserProfile env fu w = (fst (isFirestoreInitialized env w), Ok None).
Proof.
  intros Hdb. unfold createUserProfile, isFirestoreInitialized, bind, ret.
  rewrite Hdb. reflexivity.
Qed.

Lemma assoc_value k l m : assoc k l = Some m -> m ∈ l.*2.
Proof.
  induction l as [|[k' v] l IH]; simpl; [discriminate|].
  destruct (String.eqb k' k).
  - intros [= ->]. apply elem_of_cons. by left.
  - intros H. apply elem_of_cons. right. by apply IH.
Qed.

Lemma authMessage_nonempty e : authMessage e <> "".
Proof.
  unfold authMessage.
  destruct (from_option (fun c => assoc c errorMessages) None (code e)) as [m|] eqn:Hm.
  - destruct (code e) as [c|]; [|discriminate]. cbn [from_option] in Hm.
    apply assoc_value in Hm. unfold errorMessages in Hm. cbn [fmap list_fmap snd] in Hm.
    repeat (apply elem_of_cons in Hm as [-> | Hm]; [discriminate|]).
    by apply elem_of_nil in Hm.
  - destruct (String.eqb (message e) "") eqn:H; [discriminate|].
    by apply String.eqb_neq in H.
Qed.

(** [handleAuthError] returns a non-empty message and touches only the
    error channels. *)
Lemma handleAuthError_frame e w :
  exists m w', handleAuthError e w = (w', Ok m) /\ m <> "" /\
    persisted w' = persisted w /\ user w' = user w /\
    firestoreError w' = firestoreError w.
Proof.
  unfold handleAuthError, console_error, toast, bind, ret, modify.
  destruct (bool_decide (code e = Some "auth/configuration-not-found")).
  { eexists _, _. split; [reflexivity|]. by split_and!. }
  destruct (bool_decide (code e = Some "auth/invalid-api-key")).
  { eexists _, _. split; [reflexivity|]. by split_and!. }
  eexists _, _. split; [reflexivity|]. split; [apply authMessage_nonempty|]. by split_and!.
Qed.

#[local] Arguments getUserProfile : simpl never.
#[local] Arguments createUserProfile : simpl never.
#[local] Arguments handleAuthError : simpl never.
#[local] Arguments handleFirestoreError : simpl never.

Ltac run_flow :=
  unfold onAuthStateChanged, googleSignIn, login, logout, AuthFlows.finally, lift,
    setLoading, push, answer, isFirebaseInitialized, try_catch, bind, ret, throw,
    gets, setUser, setFirestoreError, toast, console_error, modify;
  simpl.

Ltac profile_step :=
  first [ rewrite getUserProfile_read by done
        | erewrite getUserProfile_fault by done
        | rewrite getUserProfile_no_db by done
        | rewrite createUserProfile_written by done
        | erewrite createUserProfile_fault by done
        | rewrite createUserProfile_no_db by done ];
  simpl.

(** What the listener does with a signed-in user, by what the store
    does. *)
Lemma listener_cases svc fu s :
  let s' := fst (onAuthStateChanged svc (Some fu) s) in
  snd (onAuthStateChanged svc (Some fu) s) = Ok tt /\
  loading s' = false /\ pushed s' = pushed s /\
  ((exists d, db (store svc) = true /\ getDoc_fault (store svc) = None /\
      persisted (world s) !! fu_uid fu = Some d /\
      world s' = mkWorld (persisted (world s)) (Some (user_of_doc d))
                   (firestoreError (world s)) (toasts (world s)) (console (world s))) \/
   (db (store svc) = true /\ write_fault (store svc) = None /\
      (getDoc_fault (store svc) <> None \/ persisted (world s) !! fu_uid fu = None) /\
      persisted (world s') =
        <[fu_uid fu := fresh_profile (store svc) fu]> (persisted (world s)) /\
      user (world s') = Some (user_of_doc (fresh_profile (store svc) fu))) \/
   ((db (store svc) = false \/
     (write_fault (store svc) <> None /\
      (getDoc_fault (store svc) <> None \/ persisted (world s) !! fu_uid fu = None))) /\
      persisted (world s') = persisted (world s) /\
      user (world s') = Some (minimalUser fu))).
Proof.
  destruct (db (store svc)) eqn:Hdb.
  - destruct (getDoc_fault (store svc)) as [e|] eqn:Hr.
    + destruct (write_fault (store svc)) as [e'|] eqn:Hw; run_flow; do 2 profile_step.
      * split_and!; try done. right; right. split_and!; try done.
        right. split; [done|]. by left.
      * split_and!; try done. right; left. split_and!; try done. by left.
    + destruct (persisted (world s) !! fu_uid fu) as [d|] eqn:Hd; run_flow;
        profile_step; rewrite Hd; simpl.
      * split_and!; try done. left. exists d. done.
      * destruct (write_fault (store svc)) as [e'|] eqn:Hw; profile_step.
        -- split_and!; try done. right; right. split_and!; try done.
           right. split; [done|]. by right.
        -- split_and!; try done. right; left. split_and!; try done. by right.
  - run_flow. do 2 profile_step.
    unfold isFirestoreInitialized. rewrite Hdb. simpl.
    split_and!; try done. right; right. split_and!; try done. by left.
Qed.

(** The same for the Google sign-in, once the popup has answered. *)
Lemma googleSignIn_cases svc fu s :
  auth svc = true -> signInWithPopup svc = Ok fu ->
  let s' := fst (googleSignIn svc s) in
  snd (googleSignIn svc s) = Ok tt /\
  loading s' = loading s /\ pushed s' = (pushed s ++ ["/dashboard"])%list /\
  user (world s') = Some (minimalUser fu) /\
  ((exists d, db (store svc) = true /\ getDoc_fault (store svc) = None /\
      persisted (world s) !! fu_uid fu = Some d /\
      persisted (world s') = persisted (world s) /\
      toasts (world s') = toasts (world s)) \/
   (db (store svc) = true /\ write_fault (store svc) = None /\
      (getDoc_fault (store svc) <> None \/ persisted (world s) !! fu_uid fu = None) /\
      persisted (world s') =
        <[fu_uid fu := fresh_profile (store svc) fu]> (persisted (world s))) \/
   ((db (store svc) = false \/
     (write_fault (store svc) <> None /\
      (getDoc_fault (store svc) <> None \/ persisted (world s) !! fu_uid fu = None))) /\
      persisted (world s') = persisted (world s))).
Proof.
  intros Ha Hp.
  destruct (db (store svc)) eqn:Hdb.
  - destruct (getDoc_fault (store svc)) as [e|] eqn:Hr.
    + destruct (write_fault (store svc)) as [e'|] eqn:Hw;
        run_flow; rewrite Ha, Hp; simpl; do 2 profile_step.
      * split_and!; try done. right; right. split_and!; try done.
        right. split; [done|]. by left.
      * split_and!; try done. right; left. split_and!; try done. by left.
    + destruct (persisted (world s) !! fu_uid fu) as [d|] eqn:Hd;
        run_flow; rewrite Ha, Hp; simpl; profile_step; rewrite Hd; simpl.
      * split_and!; try done. left. exists d. done.
      * destruct (write_fault (store svc)) as [e'|] eqn:Hw; profile_step.
        -- split_and!; try done. right; right. split_and!; try done.
           right. split; [done|]. by right.
        -- split_and!; try done. right; left. split_and!; try done. by right.
  - run_flow. rewrite Ha, Hp; simpl. do 2 profile_step.
    unfold isFirestoreInitialized. rewrite Hdb. simpl.
    split_and!; try done. right; right. split_and!; try done. by left.
Qed.

(** A refused Google sign-in. *)
Lemma googleSignIn_refused svc s :
  auth svc = false \/ (exists e, signInWithPopup svc = Throw e) ->
  (exists msg, snd (googleSignIn svc s) = Throw (Error msg) /\ msg <> "") /\
  user (world (fst (googleSignIn svc s))) = user (world s) /\
  persisted (world (fst (googleSignIn svc s))) = persisted (world s) /\
  pushed (fst (googleSignIn svc s)) = pushed s.
Proof.
  intros H. run_flow. destruct (auth svc); simpl.
  - destruct H as [H | (e & He)]; [discriminate|]. rewrite He; simpl.
    destruct (handleAuthError_frame e (world s)) as (msg & w' & -> & Hne & Hp & Hu & _); simpl.
    split; [by exists msg|]. done.
  - split; [|done]. eexists. split; [reflexivity|discriminate].
Qed.

(** X12. The auth-state listener never throws and always ends the
    loading phase without navigating. A sign-out event clears the
    session user and the store error and leaves the store and the
    toasts alone; a sign-in event leaves a session user whatever the
    store does. *)
Theorem listener_never_throws svc authUser s :
  let s' := fst (onAuthStateChanged svc authUser s) in
  snd (onAuthStateChanged svc authUser s) = Ok tt /\
  loading s' = false /\ pushed s' = pushed s /\
  match authUser with
  | None =>
      user (world s') = None /\ firestoreError (world s') = None /\
      persisted (world s') = persisted (world s) /\
      toasts (world s') = toasts (world s)
  | Some _ => exists u, user (world s') = Some u
  end.
Proof.
  destruct authUser as [fu|].
  - destruct (listener_cases svc fu s) as (Hr & Hl & Hp & Hc).
    split_and!; try done.
    destruct Hc as [(d & _ & _ & _ & ->) | [(_ & _ & _ & _ & ->) | (_ & _ & ->)]];
      by eexists.
  - run_flow. done.
Qed.

(** X13. Against a working store, a sign-in event leaves the in-memory
    wallet list equal to the persisted one: an existing profile is
    loaded, a missing one is created with an empty list. No persisted
    wallet list changes, and no other document is touched. *)
Theorem sign_in_event_synchronises_wallets svc fu s :
  healthy (store svc) ->
  let s' := fst (onAuthStateChanged svc (Some fu) s) in
  session_wallets (world s') = persisted_wallets (world s') (fu_uid fu) /\
  persisted_wallets (world s') (fu_uid fu) = persisted_wallets (world s) (fu_uid fu) /\
  (forall id, id <> fu_uid fu -> persisted (world s') !! id = persisted (world s) !! id).
Proof.
  intros (Hdb & Hr & Hw).
  destruct (listener_cases svc fu s) as (_ & _ & _ & Hc).
  unfold session_wallets, persisted_wallets.
  destruct Hc as [(d & _ & _ & Hd & ->) | [(_ & _ & Hm & -> & ->) | ([H | (H & _)] & _)]];
    simpl; [| |congruence|congruence].
  - rewrite Hd. done.
  - destruct Hm as [Hm | Hm]; [congruence|].
    rewrite lookup_insert_eq, Hm. simpl. split_and!; try done.
    intros id Hid. by rewrite lookup_insert_ne.
Qed.

Lemma sign_in_event_synchronises_wallets_witness :
  session_wallets
    (world (fst (onAuthStateChanged Examples.svc_ok (Some Examples.ada)
                   (Examples.s_loading ["0xAAA"])))) = ["0xAAA"].
Proof.
  rewrite (proj1 (sign_in_event_synchronises_wallets Examples.svc_ok Examples.ada
                    (Examples.s_loading ["0xAAA"]) ltac:(repeat split))).
  reflexivity.
Defined.

(** X14. A profile read that fails is taken for a missing profile:
    when the write then succeeds, both the listener and the Google
    sign-in replace the user's document by a fresh profile, so that
    the persisted wallet list is empty afterwards whatever it held. *)
Theorem failed_read_resets_profile svc fu e s :
  db (store svc) = true -> getDoc_fault (store svc) = Some e ->
  write_fault (store svc) = None ->
  auth svc = true -> signInWithPopup svc = Ok fu ->
  let s1 := fst (onAuthStateChanged svc (Some fu) s) in
  let s2 := fst (googleSignIn svc s) in
  (persisted (world s1) !! fu_uid fu = Some (fresh_profile (store svc) fu) /\
   persisted_wallets (world s1) (fu_uid fu) = [] /\
   session_wallets (world s1) = []) /\
  (persisted (world s2) !! fu_uid fu = Some (fresh_profile (store svc) fu) /\
   persisted_wallets (world s2) (fu_uid fu) = [] /\
   snd (googleSignIn svc s) = Ok tt).
Proof.
  intros Hdb Hr Hw Ha Hp. split.
  - destruct (listener_cases svc fu s) as (_ & _ & _ & Hc).
    unfold session_wallets, persisted_wallets.
    destruct Hc as [(d & _ & ? & _) | [(_ & _ & _ & -> & ->) | ([H | (H & _)] & _)]];
      [congruence| |congruence|congruence].
    rewrite lookup_insert_eq. done.
  - destruct (googleSignIn_cases svc fu s Ha Hp) as (Hres & _ & _ & _ & Hc).
    unfold persisted_wallets.
    destruct Hc as [(d & _ & ? & _) | [(_ & _ & _ & ->) | ([H | (H & _)] & _)]];
      [congruence| |congruence|congruence].
    rewrite lookup_insert_eq. done.
Qed.

Lemma failed_read_resets_profile_witness :
  persisted_wallets (world (Examples.s_loading ["0xAAA"])) "u1" = ["0xAAA"] /\
  persisted_wallets
    (world (fst (onAuthStateChanged Examples.svc_read_denied (Some Examples.ada)
                   (Examples.s_loading ["0xAAA"])))) "u1" = [] /\
  persisted_wallets
    (world (fst (googleSignIn Examples.svc_read_denied (Examples.s_loading ["0xAAA"])))) "u1"
    = [].
Proof.
  pose proof (failed_read_resets_profile Examples.svc_read_denied Examples.ada
                Scenario.permission_denied (Examples.s_loading ["0xAAA"])
                eq_refl eq_refl eq_refl eq_refl eq_refl) as [(_ & H1 & _) (_ & H2 & _)].
  split; [reflexivity|]. split; [exact H1 | exact H2].
Defined.

(** X15. As long as the profile read does not fail (or the store is
    not initialised at all), no sign-in path changes a persisted
    wallet list: neither the listener, for any event, nor the Google
    sign-in, however the popup ends. *)
Theorem sign_in_keeps_persisted_wallets svc authUser s id :
  db (store svc) = false \/ getDoc_fault (store svc) = None ->
  persisted_wallets (world (fst (onAuthStateChanged svc authUser s))) id =
    persisted_wallets (world s) id /\
  persisted_wallets (world (fst (googleSignIn svc s))) id =
    persisted_wallets (world s) id.
Proof.
  intros H.
  assert (Hfresh : forall fu,
            persisted (world s) !! fu_uid fu = None ->
            persisted_wallets
              (mkWorld (<[fu_uid fu := fresh_profile (store svc) fu]> (persisted (world s)))
                 None None [] []) id = persisted_wallets (world s) id).
  { intros fu Hm. unfold persisted_wallets. simpl.
    destruct (decide (id = fu_uid fu)) as [-> | Hne].
    - by rewrite lookup_insert_eq, Hm.
    - by rewrite lookup_insert_ne. }
  split.
  - destruct authUser as [fu|]; [|by run_flow].
    destruct (listener_cases svc fu s) as (_ & _ & _ & Hc).
    destruct Hc as [(d & _ & _ & _ & ->) | [(Hdb & _ & Hm & Hp & _) | (_ & Hp & _)]].
    + done.
    + destruct Hm as [Hm | Hm]; [destruct H; congruence|].
      rewrite <- (Hfresh fu Hm). unfold persisted_wallets. by rewrite Hp.
    + unfold persisted_wallets. by rewrite Hp.
  - destruct (auth svc) eqn:Ha.
    + destruct (signInWithPopup svc) as [fu | e] eqn:Hpop.
      * destruct (googleSignIn_cases svc fu s Ha Hpop) as (_ & _ & _ & _ & Hc).
        destruct Hc as [(d & _ & _ & _ & Hp & _) | [(Hdb & _ & Hm & Hp) | (_ & Hp)]].
        -- unfold persisted_wallets. by rewrite Hp.
        -- destruct Hm as [Hm | Hm]; [destruct H; congruence|].
           rewrite <- (Hfresh fu Hm). unfold persisted_wallets. by rewrite Hp.
        -- unfold persisted_wallets. by rewrite Hp.
      * destruct (googleSignIn_refused svc s) as (_ & _ & Hp & _); [right; by exists e|].
        unfold persisted_wallets. by rewrite Hp.
    + destruct (googleSignIn_refused svc s) as (_ & _ & Hp & _); [by left|].
      unfold persisted_wallets. by rewrite Hp.
Qed.

Lemma sign_in_keeps_persisted_wallets_witness :
  persisted_wallets
    (world (fst (onAuthStateChanged Examples.svc_ok (Some Examples.ada)
                   (Examples.s_loading ["0xAAA"])))) "u1" = ["0xAAA"] /\
  persisted_wallets
    (world (fst (googleSignIn Examples.svc_ok (Examples.s_loading ["0xAAA"])))) "u1"
    = ["0xAAA"].
Proof.
  exact (sign_in_keeps_persisted_wallets Examples.svc_ok (Some Examples.ada)
           (Examples.s_loading ["0xAAA"]) "u1" (or_intror eq_refl)).
Defined.

(** X16. The Google sign-in does not depend on the store: it succeeds
    exactly when authentication is initialised and the popup returns
    a user. It then leaves the minimal session user (no wallet list)
    and navigates to the dashboard. Otherwise it throws an [Error]
    with a non-empty message and changes neither the session user,
    the store nor the route. *)
Theorem googleSignIn_outcomes svc s :
  let s' := fst (googleSignIn svc s) in
  match snd (googleSignIn svc s) with
  | Ok _ =>
      auth svc = true /\
      exists fu, signInWithPopup svc = Ok fu /\
        user (world s') = Some (minimalUser fu) /\
        session_wallets (world s') = [] /\
        pushed s' = (pushed s ++ ["/dashboard"])%list
  | Throw error =>
      (auth svc = false \/ exists e, signInWithPopup svc = Throw e) /\
      code error = None /\ message error <> "" /\
      user (world s') = user (world s) /\
      persisted (world s') = persisted (world s) /\
      pushed s' = pushed s
  end.
Proof.
  destruct (auth svc) eqn:Ha.
  - destruct (signInWithPopup svc) as [fu | e] eqn:Hpop.
    + destruct (googleSignIn_cases svc fu s Ha Hpop) as (-> & _ & Hpush & Hu & _).
      split; [done|]. exists fu. unfold session_wallets. rewrite Hu. done.
    + destruct (googleSignIn_refused svc s) as ((msg & -> & Hne) & Hu & Hp & Hpush);
        [right; by exists e|].
      split_and!; try done. right. by exists e.
  - destruct (googleSignIn_refused svc s) as ((msg & -> & Hne) & Hu & Hp & Hpush);
      [by left|].
    split_and!; try done. by left.
Qed.

(** X17. The password login never touches the store. It succeeds
    exactly when authentication is initialised and the service
    returns a user; the session user is then the minimal one, with no
    wallet list in memory, and the route is the dashboard. Otherwise
    it throws an [Error] with a non-empty message and leaves the
    session user and the route as they were. *)
Theorem login_outcomes svc s :
  let s' := fst (login svc s) in
  persisted (world s') = persisted (world s) /\
  firestoreError (world s') = firestoreError (world s) /\
  loading s' = loading s /\
  match snd (login svc s) with
  | Ok _ =>
      auth svc = true /\
      exists fu, signInWithEmailAndPassword svc = Ok fu /\
        world s' = mkWorld (persisted (world s)) (Some (minimalUser fu))
                     (firestoreError (world s)) (toasts (world s)) (console (world s)) /\
        session_wallets (world s') = [] /\
        pushed s' = (pushed s ++ ["/dashboard"])%list
  | Throw error =>
      (auth svc = false \/ exists e, signInWithEmailAndPassword svc = Throw e) /\
      code error = None /\ message error <> "" /\
      user (world s') = user (world s) /\
      pushed s' = pushed s
  end.
Proof.
  run_flow. destruct (auth svc); simpl.
  - destruct (signInWithEmailAndPassword svc) as [fu | e]; simpl.
    + split_and!; try done. by exists fu.
    + destruct (handleAuthError_frame e (world s)) as (msg & w' & -> & Hne & Hp & Hu & Hf); simpl.
      split_and!; try done. right. by exists e.
  - split_and!; try done. by left.
Qed.

(** X18. Logging out does not clear the session user itself: a
    successful [logout] only navigates to the login page, and a failed
    one throws an [Error] with a non-empty message and navigates
    nowhere. The user is cleared by the sign-out event the listener
    receives afterwards, which also resets the store error. *)
Theorem logout_then_listener svc svc' s :
  let s1 := fst (logout svc s) in
  let s2 := fst (onAuthStateChanged svc' None s1) in
  user (world s1) = user (world s) /\
  persisted (world s1) = persisted (world s) /\
  match snd (logout svc s) with
  | Ok _ =>
      auth svc = true /\ signOut svc = Ok tt /\
      pushed s1 = (pushed s ++ ["/login"])%list
  | Throw error =>
      (auth svc = false \/ exists e, signOut svc = Throw e) /\
      code error = None /\ message error <> "" /\ pushed s1 = pushed s
  end /\
  user (world s2) = None /\ firestoreError (world s2) = None /\
  persisted (world s2) = persisted (world s) /\ pushed s2 = pushed s1.
Proof.
  run_flow. destruct (auth svc); simpl.
  - destruct (signOut svc) as [[] | e]; simpl.
    + split_and!; done.
    + destruct (handleAuthError_frame e (world s)) as (msg & w' & -> & Hne & Hp & Hu & Hf); simpl.
      split_and!; try done. right. by exists e.
  - split_and!; try done. by left.
Qed.

End AuthFlowFacts.

(** ** The page handlers *)
Module PageFacts.
Import Web3 Web3Facts.

#[local] Arguments valueInHex : simpl never.
#[local] Arguments str_includes : simpl never.

(** What [sendTransaction] leaves in the call log, and what it throws. *)
Lemma sendTransaction_calls c w to amount st :
  let st' := fst (sendTransaction c w to amount st) in
  (c_account c = "" /\ st' = st) \/
  (c_account c <> "" /\
   exists rest,
     calls st' =
       (calls st ++ SendTransaction (mkTx to (c_account c)
                      (valueInHex (radix16 w) (ethers w) amount) "0x5208") :: rest)%list /\
     SendForm.requests rest = []).
Proof.
  unfold sendTransaction. destruct (String.eqb (c_account c) "") eqn:Hacc.
  - left. split; [by apply String.eqb_eq|done].
  - right. split; [by apply eqb_empty|].
    unfold try_catch, bind, called, request, ret, modify. cbn [fst snd].
    destruct (eth_sendTransaction w _) as [h | e]; cbn [fst snd].
    + pose proof (refreshBalance_frame c w
        (mkState (account st) (balance st) (isConnected st) (isConnecting st) (provider st)
           (calls st ++ [SendTransaction (mkTx to (c_account c)
                           (valueInHex (radix16 w) (ethers w) amount) "0x5208")])
           (console st))) as (_ & _ & _ & _ & Hc).
      cbn [calls] in Hc. rewrite <- app_assoc in Hc. simpl in Hc.
      exists [RefreshBalance]. split; [|done].
      destruct (refreshBalance c w _) as [st2 [[]|e2]]; cbn [fst snd] in *.
      * exact Hc.
      * destruct (bool_decide (code e2 = Some "4001")); [exact Hc|].
        destruct (bool_decide (code e2 = Some "-32603") && _); exact Hc.
    + exists []. split; [|done].
      destruct (bool_decide (code e = Some "4001")); [done|].
      destruct (bool_decide (code e = Some "-32603") && _); done.
Qed.

Lemma sendTransaction_message c w to amount st e :
  snd (sendTransaction c w to amount st) = Throw e -> message e <> "".
Proof.
  assert (Hh : forall st0 e0 e1,
    snd ((if bool_decide (code e0 = Some "4001") then
            throw (Error "Transaction rejected by user")
          else if bool_decide (code e0 = Some "-32603")
                  && str_includes (message e0) "insufficient funds" then
            throw (Error "Insufficient funds for this transaction")
          else
            throw (Error (if String.eqb (message e0) "" then "Failed to send transaction"
                          else message e0))) st0 : State * outcome string) = Throw e1 ->
    message e1 <> "").
  { intros st0 e0 e1. unfold throw.
    destruct (bool_decide (code e0 = Some "4001")); [by intros [= <-]|].
    destruct (bool_decide (code e0 = Some "-32603") && _); [by intros [= <-]|].
    destruct (String.eqb (message e0) "") eqn:Hm; intros [= <-]; [done|].
    by apply eqb_empty. }
  unfold sendTransaction. destruct (String.eqb (c_account c) "").
  - by intros [= <-].
  - unfold try_catch, bind, called, request, ret, modify. cbn [fst snd].
    destruct (eth_sendTransaction w _) as [h | e0]; cbn [fst snd].
    + destruct (refreshBalance c w _) as [st2 [[]|e2]]; cbn [fst snd]; [discriminate|].
      apply Hh.
    + apply Hh.
Qed.

(** X19. The send form never throws, and whatever it submits is
    complete: a transfer request leaves the page only when recipient
    and amount are both non-empty and an account is connected, there
    is at most one per submission, and it carries the recipient typed,
    the connected account as sender and the fixed gas limit. *)
Theorem send_form_requests_are_complete c w s :
  let s' := fst (SendForm.handleSendTransaction c w s) in
  snd (SendForm.handleSendTransaction c w s) = Ok tt /\
  exists new,
    calls (SendForm.web3 s') = (calls (SendForm.web3 s) ++ new)%list /\
    (length (SendForm.requests new) <= 1)%nat /\
    forall p, p ∈ SendForm.requests new ->
      SendForm.recipient s <> "" /\ SendForm.amount s <> "" /\ c_account c <> "" /\
      p = mkTx (SendForm.recipient s) (c_account c)
            (valueInHex (radix16 w) (ethers w) (SendForm.amount s)) "0x5208".
Proof.
  unfold SendForm.handleSendTransaction, AuthFlows.finally, SendForm.lift, try_catch, bind,
    gets, ret, SendForm.toast, SendForm.setIsLoading, SendForm.setRecipient,
    SendForm.setAmount, SendForm.console_error, modify.
  cbn [fst snd SendForm.recipient SendForm.amount SendForm.web3].
  destruct (String.eqb (SendForm.recipient s) "") eqn:Hr; cbn [orb fst snd].
  { split; [done|]. exists []. rewrite app_nil_r. split; [done|]. split; [simpl; lia|].
    intros p Hp. by apply elem_of_nil in Hp. }
  destruct (String.eqb (SendForm.amount s) "") eqn:Ha; cbn [orb fst snd].
  { split; [done|]. exists []. rewrite app_nil_r. split; [done|]. split; [simpl; lia|].
    intros p Hp. by apply elem_of_nil in Hp. }
  apply eqb_empty in Hr, Ha.
  pose proof (sendTransaction_calls c w (SendForm.recipient s) (SendForm.amount s)
                (SendForm.web3 s)) as Hc.
  destruct (sendTransaction c w (SendForm.recipient s) (SendForm.amount s) (SendForm.web3 s))
    as [st' [h | e]]; cbn [fst snd SendForm.web3] in *.
  - split; [done|].
    destruct Hc as [(Hacc & ->) | (Hacc & rest & -> & Hrest)].
    + exists []. rewrite app_nil_r. split; [done|]. split; [simpl; lia|].
      intros p Hp. by apply elem_of_nil in Hp.
    + eexists. split; [reflexivity|]. simpl. rewrite Hrest. split; [simpl; lia|].
      intros p Hp. apply list_elem_of_singleton in Hp as ->. done.
  - split; [done|].
    destruct Hc as [(Hacc & ->) | (Hacc & rest & -> & Hrest)].
    + exists []. rewrite app_nil_r. split; [done|]. split; [simpl; lia|].
      intros p Hp. by apply elem_of_nil in Hp.
    + eexists. split; [reflexivity|]. simpl. rewrite Hrest. split; [simpl; lia|].
      intros p Hp. apply list_elem_of_singleton in Hp as ->. done.
Qed.

(** A transfer the extension accepted still makes [sendTransaction]
    throw when the balance refresh that follows fails. *)
Lemma sendTransaction_refresh_failure c w to amount st h e :
  c_account c <> "" -> c_provider c = true ->
  eth_sendTransaction w (mkTx to (c_account c)
                           (valueInHex (radix16 w) (ethers w) amount) "0x5208") = Ok h ->
  getBalance w (c_account c) = Throw e ->
  exists e', snd (sendTransaction c w to amount st) = Throw e'.
Proof.
  intros Hacc Hp Hsend Hbal. apply eqb_empty in Hacc.
  unfold sendTransaction. rewrite Hacc.
  unfold try_catch, bind, called, request, ret, modify. cbn [fst snd]. rewrite Hsend.
  unfold refreshBalance, try_catch, bind, called, request, setBalance, console_error, throw,
    ret, modify. cbn [fst snd]. rewrite Hp, Hacc, Hbal. cbn [negb orb fst snd].
  destruct (bool_decide (code e = Some "4001")); [by eexists|].
  destruct (bool_decide (code e = Some "-32603") && _); by eexists.
Qed.

(** X20. A filled-in send form ends with the button enabled again
    ([isLoading] false) and exactly one more toast. The fields are
    cleared exactly when [sendTransaction] returns and kept as typed
    when it throws; the toast then shows the message thrown, which is
    never empty. A throw does not mean that nothing was sent: when the
    extension accepted the transfer and only the balance refresh after
    it failed, the request has been submitted and the form still keeps
    its fields and shows the error toast. *)
Theorem send_form_outcomes c w s :
  SendForm.recipient s <> "" -> SendForm.amount s <> "" ->
  let s' := fst (SendForm.handleSendTransaction c w s) in
  let sent := sendTransaction c w (SendForm.recipient s) (SendForm.amount s)
                (SendForm.web3 s) in
  let tx := mkTx (SendForm.recipient s) (c_account c)
              (valueInHex (radix16 w) (ethers w) (SendForm.amount s)) "0x5208" in
  SendForm.isLoading s' = false /\ SendForm.web3 s' = fst sent /\
  match snd sent with
  | Ok _ =>
      SendForm.recipient s' = "" /\ SendForm.amount s' = "" /\
      SendForm.toasts s' =
        (SendForm.toasts s ++ [Auth.mkToast "Success" "Transaction sent successfully" None])%list
  | Throw error =>
      SendForm.recipient s' = SendForm.recipient s /\
      SendForm.amount s' = SendForm.amount s /\
      message error <> "" /\
      SendForm.toasts s' =
        (SendForm.toasts s ++ [Auth.mkToast "Error" (message error) (Some "destructive")])%list
  end /\
  (forall h e,
     c_account c <> "" -> c_provider c = true ->
     eth_sendTransaction w tx = Ok h -> getBalance w (c_account c) = Throw e ->
     SendTransaction tx ∈ calls (SendForm.web3 s') /\
     SendForm.recipient s' = SendForm.recipient s /\
     SendForm.amount s' = SendForm.amount s /\
     exists text,
       SendForm.toasts s' =
         (SendForm.toasts s ++ [Auth.mkToast "Error" text (Some "destructive")])%list).
Proof.
  intros Hr Ha. apply eqb_empty in Hr, Ha.
  unfold SendForm.handleSendTransaction, AuthFlows.finally, SendForm.lift, try_catch, bind,
    gets, ret, SendForm.toast, SendForm.setIsLoading, SendForm.setRecipient,
    SendForm.setAmount, SendForm.console_error, modify.
  cbn [fst snd SendForm.recipient SendForm.amount SendForm.web3].
  rewrite Hr, Ha. cbn [orb fst snd].
  pose proof (sendTransaction_message c w (SendForm.recipient s) (SendForm.amount s)
                (SendForm.web3 s)) as Hm.
  pose proof (sendTransaction_calls c w (SendForm.recipient s) (SendForm.amount s)
                (SendForm.web3 s)) as Hc.
  pose proof (sendTransaction_refresh_failure c w (SendForm.recipient s) (SendForm.amount s)
                (SendForm.web3 s)) as Hf.
  destruct (sendTransaction c w (SendForm.recipient s) (SendForm.amount s) (SendForm.web3 s))
    as [st' [h | e]]; cbn [fst snd SendForm.web3 SendForm.recipient SendForm.amount
                            SendForm.toasts SendForm.isLoading] in *.
  - split_and!; try done. intros h' e' Hacc Hp Hsend Hbal.
    destruct (Hf h' e' Hacc Hp Hsend Hbal) as [e'' [=]].
  - specialize (Hm e eq_refl). apply eqb_empty in Hm as Hm'. rewrite Hm'.
    split_and!; try done. intros h' e' Hacc Hp Hsend Hbal.
    destruct Hc as [(Hempty & _) | (_ & rest & -> & _)]; [done|].
    split_and!; try done; [|by eexists].
    apply elem_of_app. right. by left.
Qed.

Lemma send_form_outcomes_witness :
  SendForm.recipient
    (fst (SendForm.handleSendTransaction (mkClosure "0xAAA" true)
            (Scenario.wallet_with ["0xAAA"])
            (SendForm.mkState "0xBBB" "0.5" false initial [] []))) = "".
Proof.
  refine (proj1 (proj1 (proj2 (proj2
    (send_form_outcomes (mkClosure "0xAAA" true) (Scenario.wallet_with ["0xAAA"])
       (SendForm.mkState "0xBBB" "0.5" false initial [] []) _ _))))).
  - discriminate.
  - discriminate.
Defined.

Lemma connectWallet_message c w st e :
  snd (connectWallet c w st) = Throw e ->
  message e ∈ ["MetaMask is not installed. Please install MetaMask to continue.";
               "User rejected the connection request";
               "Failed to connect to MetaMask"].
Proof.
  unfold connectWallet. destruct (metamask w); cbn [negb].
  - unfold finally.
    destruct (try_catch _ _ st) as [st1 [[]|e1]] eqn:Htc; cbn [fst snd]; [discriminate|].
    intros [= <-]. unfold try_catch in Htc.
    match type of Htc with
    | match ?m with _ => _ end = _ => destruct m as [st2 [[]|e2]]
    end; [discriminate|].
    unfold throw in Htc.
    destruct (bool_decide (code e2 = Some "4001")); injection Htc as _ <-; set_solver.
  - intros [= <-]. set_solver.
Qed.

(** X21. The connect button never throws. The wallet state is what
    [connectWallet] leaves; a failure adds exactly one toast, whose
    description is one of the three messages of [connectWallet] (the
    page's own fallback text is never shown); a success adds none. *)
Theorem handleConnect_never_throws c w s :
  let s' := fst (WalletConnect.handleConnect c w s) in
  snd (WalletConnect.handleConnect c w s) = Ok tt /\
  WalletConnect.web3 s' = fst (connectWallet c w (WalletConnect.web3 s)) /\
  match snd (connectWallet c w (WalletConnect.web3 s)) with
  | Ok _ => WalletConnect.toasts s' = WalletConnect.toasts s
  | Throw error =>
      WalletConnect.toasts s' =
        (WalletConnect.toasts s ++
         [Auth.mkToast "Connection Error" (message error) (Some "destructive")])%list /\
      message error ∈
        ["MetaMask is not installed. Please install MetaMask to continue.";
         "User rejected the connection request";
         "Failed to connect to MetaMask"]
  end.
Proof.
  unfold WalletConnect.handleConnect, WalletConnect.lift, WalletConnect.toast, try_catch, modify.
  pose proof (connectWallet_message c w (WalletConnect.web3 s)) as Hm.
  destruct (connectWallet c w (WalletConnect.web3 s)) as [st' [[]|e]]; cbn [fst snd] in *.
  - done.
  - specialize (Hm e eq_refl).
    assert (Hne : String.eqb (message e) "" = false).
    { apply eqb_empty. intros Heq. rewrite Heq in Hm.
      repeat (apply elem_of_cons in Hm as [Hm | Hm]; [discriminate|]).
      by apply elem_of_nil in Hm. }
    rewrite Hne. done.
Qed.

End PageFacts.

(** ** The profile page *)
Module ProfileFacts.
Import Auth AuthFacts Profile.

#[local] Arguments linkWalletToUser : simpl never.
#[local] Arguments getUserWallets_of : simpl never.
#[local] Arguments getUserWallets : simpl never.
#[local] Arguments handleFirestoreError : simpl never.

Ltac run_page :=
  unfold handleLinkWallet, fetchWallets, AuthFlows.finally, lift, setLinkedWallets,
    setIsLinking, setError, Profile.toast, try_catch, bind, ret, throw, gets, modify;
  simpl.

(** Called from the current render, [getUserWallets_of] is
    [getUserWallets]. *)
Lemma getUserWallets_of_current env w :
  getUserWallets_of (user w) env w = getUserWallets env w.
Proof. reflexivity. Qed.

(** It never throws, whichever render it comes from. *)
Lemma getUserWallets_of_ok closure env w :
  exists l, snd (getUserWallets_of closure env w) = Ok l.
Proof.
  unfold getUserWallets_of. destruct closure as [u|]; [|by eexists].
  unfold isFirestoreInitialized, getDoc, try_catch, bind, ret, throw, gets,
    setUser, setFirestoreError, Auth.toast, console_error, modify.
  destruct (walletAddresses u) as [[|x xs]|]; simpl; try (by eexists);
    (destruct (db env); simpl; [|by eexists];
     destruct (getDoc_fault env); simpl;
     [rewrite handleFirestoreError_ok; simpl; by eexists|];
     destruct (persisted w !! uid u); simpl; [|by eexists];
     destruct (bool_decide _ && _); simpl; by eexists).
Qed.

(** With a non-empty list in the closure nothing is read. *)
Lemma getUserWallets_of_memory u x xs env w :
  walletAddresses u = Some (x :: xs) ->
  getUserWallets_of (Some u) env w = (w, Ok (x :: xs)).
Proof. intros H. unfold getUserWallets_of. by rewrite H. Qed.

(** Without one, a working store is read. *)
Lemma getUserWallets_of_store u env w d :
  healthy env -> walletAddresses u = None \/ walletAddresses u = Some [] ->
  persisted w !! uid u = Some d -> default [] (d_walletAddresses d) <> [] ->
  snd (getUserWallets_of (Some u) env w) = Ok (default [] (d_walletAddresses d)) /\
  persisted (fst (getUserWallets_of (Some u) env w)) = persisted w /\
  (user w = Some (with_wallets u (default [] (d_walletAddresses d))) ->
   user (fst (getUserWallets_of (Some u) env w)) = user w).
Proof.
  intros (Hdb & Hr & _) Hl Hd Hne.
  unfold getUserWallets_of, isFirestoreInitialized, getDoc, try_catch, bind, ret, gets,
    setUser, modify.
  rewrite Hdb, Hr. destruct Hl as [-> | ->]; simpl; rewrite Hd; simpl.
  - destruct (default [] (d_walletAddresses d)) as [|y ys]; [done|]. simpl. done.
  - rewrite andb_false_r. simpl. done.
Qed.

(** X22. The link button never throws and always ends with
    [isLinking] as it found it or false. Without a connected wallet
    it calls nothing: the session, the store and the displayed list
    are untouched. When [linkWalletToUser] throws, its message is
    shown in [error], the displayed list is kept and no success toast
    appears; when it returns, [error] stays cleared and the displayed
    list is what [getUserWallets] of the handler's render returns. *)
Theorem handleLinkWallet_outcomes env_link env_read s :
  let s' := fst (handleLinkWallet env_link env_read s) in
  let linked := linkWalletToUser env_link (Web3.account (web3 s)) (auth s) in
  snd (handleLinkWallet env_link env_read s) = Ok tt /\
  web3 s' = web3 s /\
  if Web3.isConnected (web3 s) then
    isLinking s' = false /\
    match snd linked with
    | Throw e =>
        error s' = message e /\ linkedWallets s' = linkedWallets s /\
        toasts s' = toasts s /\ auth s' = fst linked
    | Ok _ =>
        error s' = "" /\
        toasts s' = (toasts s ++ [mkToast "Wallet linked successfully"
                                    "Your wallet has been linked to your account" None])%list /\
        snd (getUserWallets_of (user (auth s)) env_read (fst linked)) = Ok (linkedWallets s') /\
        auth s' = fst (getUserWallets_of (user (auth s)) env_read (fst linked))
    end
  else
    auth s' = auth s /\ linkedWallets s' = linkedWallets s /\ error s' = "" /\
    isLinking s' = isLinking s /\
    toasts s' = (toasts s ++ [mkToast "Wallet not connected"
                                "Please connect your wallet first" (Some "destructive")])%list.
Proof.
  run_page. destruct (Web3.isConnected (web3 s)); simpl; [|done].
  destruct (linkWalletToUser env_link (Web3.account (web3 s)) (auth s)) as [a1 [[]|e]];
    simpl; [|done].
  destruct (getUserWallets_of_ok (user (auth s)) env_read a1) as [l Hl].
  destruct (getUserWallets_of (user (auth s)) env_read a1) as [a2 r]; simpl in *.
  subst r. simpl. done.
Qed.

(** X23. After a successful click on the link button, the list on
    display is the one of the render the handler came from: when that
    render held a non-empty wallet list in memory, the page shows this
    old list, without the address just linked, although the session
    user and the store now hold it. The [fetchWallets] effect of the
    next render then shows the new list. *)
Theorem link_button_shows_previous_list env_link env_read env_fetch s u x xs :
  healthy env_link ->
  Web3.isConnected (web3 s) = true ->
  user (auth s) = Some u -> walletAddresses u = Some (x :: xs) ->
  Web3.account (web3 s) ∉ persisted_wallets (auth s) (uid u) ->
  let s1 := fst (handleLinkWallet env_link env_read s) in
  linkedWallets s1 = x :: xs /\
  session_wallets (auth s1) =
    (persisted_wallets (auth s) (uid u) ++ [Web3.account (web3 s)])%list /\
  persisted_wallets (auth s1) (uid u) =
    (persisted_wallets (auth s) (uid u) ++ [Web3.account (web3 s)])%list /\
  linkedWallets (fst (fetchWallets env_fetch s1)) =
    (persisted_wallets (auth s) (uid u) ++ [Web3.account (web3 s)])%list.
Proof.
  intros Henv Hc Hu Hl Ha.
  destruct (link_fresh env_link (auth s) u (Web3.account (web3 s)) Henv Hu Ha)
    as (w' & Hlink & Hp & Hu').
  run_page. rewrite Hc; simpl. rewrite Hlink; simpl.
  rewrite Hu. rewrite (getUserWallets_of_memory u x xs) by done. simpl.
  rewrite Hu'. simpl.
  unfold session_wallets. rewrite Hu'. simpl.
  split_and!; try done.
  unfold getUserWallets, bind, gets, ret. rewrite Hu'. simpl.
  destruct (persisted_wallets (auth s) (uid u) ++ [Web3.account (web3 s)])%list
    as [|y ys] eqn:Happ; [by destruct (persisted_wallets (auth s) (uid u))|].
  done.
Qed.

Lemma link_button_shows_previous_list_witness :
  linkedWallets
    (fst (handleLinkWallet Scenario.env_ok Scenario.env_ok
            (Examples.profile_page (AuthFlows.world (Examples.s_signed_in ["0xAAA"]))
               ["0xAAA"])))
  = ["0xAAA"].
Proof.
  refine (proj1
    (link_button_shows_previous_list Scenario.env_ok Scenario.env_ok Scenario.env_ok
       (Examples.profile_page (AuthFlows.world (Examples.s_signed_in ["0xAAA"])) ["0xAAA"])
       (with_wallets Scenario.u1 ["0xAAA"]) "0xAAA" [] _ _ _ _ _)).
  - repeat split.
  - reflexivity.
  - reflexivity.
  - reflexivity.
  - vm_compute. intros H. apply list_elem_of_In in H. simpl in H.
    destruct H as [H | []]. discriminate H.
Defined.

(** X24. When the handler's render holds no wallet list in memory (or
    an empty one) and the store works, a click on the link button for
    an address not yet persisted ends with the same list on display,
    in the session user and in the store: the persisted list followed
    by the address. *)
Theorem link_button_fresh_session env_link env_read s u :
  healthy env_link -> healthy env_read ->
  Web3.isConnected (web3 s) = true ->
  user (auth s) = Some u ->
  walletAddresses u = None \/ walletAddresses u = Some [] ->
  Web3.account (web3 s) ∉ persisted_wallets (auth s) (uid u) ->
  let s1 := fst (handleLinkWallet env_link env_read s) in
  let l := (persisted_wallets (auth s) (uid u) ++ [Web3.account (web3 s)])%list in
  linkedWallets s1 = l /\ session_wallets (auth s1) = l /\
  persisted_wallets (auth s1) (uid u) = l /\ error s1 = "" /\ isLinking s1 = false.
Proof.
  intros Henv Henv' Hc Hu Hl Ha.
  destruct (link_fresh env_link (auth s) u (Web3.account (web3 s)) Henv Hu Ha)
    as (w' & Hlink & Hp & Hu').
  assert (Hdoc : exists d, persisted w' !! uid u = Some d /\
                   default [] (d_walletAddresses d) =
                     (persisted_wallets (auth s) (uid u) ++ [Web3.account (web3 s)])%list).
  { unfold persisted_wallets in Hp at 1.
    destruct (persisted w' !! uid u) as [d|]; [by exists d|].
    by destruct (persisted_wallets (auth s) (uid u)). }
  destruct Hdoc as (d & Hd & Hdl).
  assert (Hne : default [] (d_walletAddresses d) <> []).
  { rewrite Hdl. by destruct (persisted_wallets (auth s) (uid u)). }
  destruct (getUserWallets_of_store u env_read w' d Henv' Hl Hd Hne) as (Hres & Hpers & Huser).
  rewrite Hdl in Huser. specialize (Huser Hu').
  run_page. rewrite Hc; simpl. rewrite Hlink; simpl. rewrite Hu.
  destruct (getUserWallets_of (Some u) env_read w') as [w2 r]; simpl in *.
  subst r. simpl. unfold session_wallets, persisted_wallets in *.
  rewrite Huser, Hu', Hpers, Hd. simpl. rewrite Hdl. done.
Qed.

Lemma link_button_fresh_session_witness :
  linkedWallets
    (fst (handleLinkWallet Scenario.env_ok Scenario.env_ok
            (Examples.profile_page (Scenario.w_minimal ["0xAAA"]) [])))
  = ["0xAAA"; "0xBBB"].
Proof.
  refine (proj1
    (link_button_fresh_session Scenario.env_ok Scenario.env_ok
       (Examples.profile_page (Scenario.w_minimal ["0xAAA"]) [])
       Scenario.u1 _ _ _ _ _ _)).
  - repeat split.
  - repeat split.
  - reflexivity.
  - reflexivity.
  - by left.
  - vm_compute. intros H. apply list_elem_of_In in H. simpl in H.
    destruct H as [H | []]. discriminate H.
Defined.

End ProfileFacts.
